(** * Hyperspectral extractor and workflow validator: a shallow embedding

    This development embeds the two Python modules of the repository,
    [hyperspectral/terra_hyperspectral.py] (the Clowder extractor that
    gathers the raw capture files, stages them, runs the conversion
    script and reports traits) and [hyperspectral/hyperspectral_test.py]
    (the unittest suite that validates a produced netCDF container), and
    proves properties of them.

    Python values are modelled as follows.
    - [str] is [string], one [ascii] for each character (the names and
      paths the code handles have no character above 255, for which a
      character of Python would need more than one); the string methods
      used by the code
      ([endswith], [find], [split], [replace], slices) and the
      [os.path] functions ([dirname], [basename], [join]) are written
      out in module [Py] from their CPython definitions.
    - A [dict] literal whose keys are iterated is an association list
      ([Py.dict]): assignment to an existing key replaces the value in
      place, iteration follows the list.  CPython 2 iterates a dict in
      hash order, the model in the order of the literal; none of the
      suffixes used as keys ends another one, so a path matches at most
      one key, and in the runs evaluated below the order only decides
      in which order the links are made.
    - [None] in a dict slot is [option].
    - Exceptions are an explicit result type; the file system, the log
      and the calls to external services are an explicit world threaded
      through the extractor.
    - A netCDF variable carries its floating-point type and the exact
      values of its samples as rationals ([Q]); NaN and infinite
      samples are outside the model.  A float literal of the source is
      the binary64 number it denotes, and where numpy converts a Python
      float to the type of the data before it compares, so does the
      model (module [Float]).
    - What the validator takes from the installation it runs on, the
      rule of [unittest] for the verdict of a run and the promotion
      rule of numpy, is a parameter ([Runtime]). *)

From Stdlib Require Import Ascii String QArith.
From stdpp Require Import gmap strings list fin_maps pretty.

Local Open Scope string_scope.

(** ** Python built-ins used by the sources *)

Module Py.

(** [s.endswith(suf)]: some tail of [s] is [suf]. *)
Fixpoint endswith (s suf : string) : bool :=
  if String.eqb s suf then true
  else match s with
       | EmptyString => false
       | String _ s' => endswith s' suf
       end.

(** [s.startswith(p)] *)
Definition startswith (s p : string) : bool := String.prefix p s.

(** [s.find(sub)]: index of the first occurrence, [-1] when absent. *)
Definition find (s sub : string) : Z :=
  match String.index 0 sub s with
  | Some i => Z.of_nat i
  | None => (-1)%Z
  end.

(** [s.split(sep)] for a non-empty separator.  [skip] counts the
    characters of a separator that has just been recognised and is
    being stepped over; [cur] is the piece read so far. *)
Fixpoint split_aux (sep : string) (skip : nat) (cur s : string) : list string :=
  match s with
  | EmptyString => [cur]
  | String c s' =>
      match skip with
      | S k => split_aux sep k cur s'
      | O =>
          if String.prefix sep s
          then cur :: split_aux sep (String.length sep - 1) EmptyString s'
          else split_aux sep 0 (cur +:+ String c EmptyString) s'
      end
  end.

Definition split (s sep : string) : list string := split_aux sep 0 EmptyString s.

(** [s.replace(old, new)] for a non-empty [old]. *)
Fixpoint replace_aux (old new : string) (skip : nat) (s : string) : string :=
  match s with
  | EmptyString => EmptyString
  | String c s' =>
      match skip with
      | S k => replace_aux old new k s'
      | O =>
          if String.prefix old s
          then new +:+ replace_aux old new (String.length old - 1) s'
          else String c (replace_aux old new 0 s')
      end
  end.

Definition replace (s old new : string) : string := replace_aux old new 0 s.

(** [s[a:b]] for non-negative literal bounds; positions count
    characters, one [ascii] each. *)
Definition slice (s : string) (a b : nat) : string := String.substring a (b - a) s.

(** [p[:i], p[i:]] where [i = p.rfind('/') + 1]. *)
Fixpoint split_last_slash (p : string) : string * string :=
  match p with
  | EmptyString => (EmptyString, EmptyString)
  | String c p' =>
      let '(h, t) := split_last_slash p' in
      if negb (String.eqb h EmptyString) then (String c h, t)
      else if Ascii.eqb c "/"%char then ("/", t)
      else (EmptyString, String c t)
  end.

Fixpoint all_slashes (s : string) : bool :=
  match s with
  | EmptyString => true
  | String c s' => Ascii.eqb c "/"%char && all_slashes s'
  end.

(** [s.rstrip('/')] *)
Fixpoint rstrip_slash (s : string) : string :=
  match s with
  | EmptyString => EmptyString
  | String c s' => if all_slashes s then EmptyString else String c (rstrip_slash s')
  end.

(** [posixpath.dirname] *)
Definition dirname (p : string) : string :=
  let head := fst (split_last_slash p) in
  if negb (String.eqb head EmptyString) && negb (all_slashes head)
  then rstrip_slash head else head.

(** [posixpath.basename] *)
Definition basename (p : string) : string := snd (split_last_slash p).

(** [posixpath.join(a, b)] *)
Definition join (a b : string) : string :=
  if startswith b "/" then b
  else if String.eqb a EmptyString || endswith a "/" then a +:+ b
  else a +:+ "/" +:+ b.

(** Truth value of a string: [not s] is [true] exactly for the empty string. *)
Definition truthy (s : string) : bool := negb (String.eqb s EmptyString).

(** *** Dictionaries with a key order *)

Definition dict (V : Type) : Type := list (string * V).

Definition keys {V} (d : dict V) : list string := map fst d.

(** [d[k]]; [None] stands for [KeyError]. *)
Fixpoint get {V} (d : dict V) (k : string) : option V :=
  match d with
  | [] => None
  | (k', v) :: d' => if String.eqb k' k then Some v else get d' k
  end.

(** [d[k] = v]: an existing key keeps its place, a new key is added. *)
Fixpoint set {V} (d : dict V) (k : string) (v : V) : dict V :=
  match d with
  | [] => [(k, v)]
  | (k', v') :: d' =>
      if String.eqb k' k then (k', v) :: d' else (k', v') :: set d' k v
  end.

(** The dict literal [{k1: None, k2: None, ...}]. *)
Definition all_none {V} (ks : list string) : dict (option V) :=
  map (fun k => (k, None)) ks.

End Py.

(** ** The Clowder resource handed to the extractor *)

(** One entry of [resource['files']]. *)
Record FileItem := { file_id : string; file_name : string }.

(** [resource]: [files] is optional (the key may be absent),
    [dataset_name] is [resource['dataset_info']['name']]. *)
Record Resource := {
  res_id : string;
  dataset_name : string;
  files : option (list FileItem);
  local_paths : list string
}.

(** ** [get_all_files] and [has_all_files] *)

Definition remote_exts : list string :=
  ["raw"; "raw.hdr"; "image.jpg"; "frameIndex.txt"; "settings.txt"].

(** The body of [for fileExt in target_files.keys()] for one file item. *)
Definition scan_item (ks : list string) (tf : Py.dict (option FileItem))
    (fileItem : FileItem) : Py.dict (option FileItem) :=
  fold_left
    (fun tf fileExt =>
       if Py.endswith (file_name fileItem) fileExt
       then Py.set tf fileExt
              (Some {| file_id := file_id fileItem; file_name := file_name fileItem |})
       else tf)
    ks tf.

Definition get_all_files (resource : Resource) : Py.dict (option FileItem) :=
  let target_files := Py.all_none remote_exts in
  match files resource with
  | Some fl => fold_left (scan_item (Py.keys target_files)) fl target_files
  | None => target_files
  end.

(** [target_files[fileExt] == None] for a key of the dict. *)
Definition slot_is_none {V} (d : Py.dict (option V)) (k : string) : bool :=
  match Py.get d k with
  | Some None => true
  | _ => false
  end.

Definition has_all_files (resource : Resource) : bool :=
  let target_files := get_all_files resource in
  fold_left
    (fun allFilesFound fileExt =>
       if slot_is_none target_files fileExt then false else allFilesFound)
    (Py.keys target_files) true.

(** ** Exceptions, the world, and the extractor's monad *)

(** The Python exceptions that the modelled code can raise. *)
Inductive exn :=
| ValueError (msg : string)
| TypeError
| AttributeError
| KeyError
| IndexError
| NameError
| IOError
| OSError
| AssertionError (msg : string).

Inductive result (A : Type) :=
| Ok (a : A)
| Raise (e : exn).
Arguments Ok {A} a.
Arguments Raise {A} e.

(** What the extractor does to the outside, in the order it happens. *)
Inductive Event :=
| StartMessage
| EndMessage
| LogInfo (msg : string)
| LogError (msg : string)
| Upload (dsid path : string)
| SubmitTraits (csv bety_key : string).

#[export] Instance exn_eq_dec : EqDecision exn.
Proof. solve_decision. Defined.
#[export] Instance Event_eq_dec : EqDecision Event.
Proof. solve_decision. Defined.

(** The file system (regular files with their text, symbolic links with
    their target, directories), the trace of events and the counters
    [self.created] and [self.bytes] of the extractor object. *)
Record World := {
  fs_files : gmap string string;
  fs_links : gmap string string;
  fs_dirs : gset string;
  events : list Event;
  created : nat;
  bytes : nat
}.

Definition M (A : Type) : Type := World -> result A * World.

Definition raise {A} (e : exn) : M A := fun w => (Raise e, w).

#[export] Instance M_ret : MRet M := fun A a w => (Ok a, w).
#[export] Instance M_bind : MBind M := fun A B k m w =>
  match m w with
  | (Ok a, w') => k a w'
  | (Raise e, w') => (Raise e, w')
  end.

(** A [for] loop whose body threads an accumulator and may raise. *)
Fixpoint for_each {A S} (l : list A) (body : S -> A -> M S) (s : S) : M S :=
  match l with
  | [] => mret s
  | a :: l' => s' ← body s a; for_each l' body s'
  end.

(** [x[...]] on a value that may be [None]: [TypeError] on [None]. *)
Definition subscript {A} (o : option A) : M A :=
  match o with
  | Some a => mret a
  | None => raise TypeError
  end.

(** [d[k]] on a dict: [KeyError] on a missing key. *)
Definition lookup_key {V} (d : Py.dict V) (k : string) : M V :=
  match Py.get d k with
  | Some v => mret v
  | None => raise KeyError
  end.

(** [l[i]] on a list: [IndexError] out of range. *)
Definition index_list {A} (l : list A) (i : nat) : M A :=
  match l !! i with
  | Some a => mret a
  | None => raise IndexError
  end.

Definition emit (e : Event) : M unit :=
  fun w => (Ok tt,
            {| fs_files := fs_files w; fs_links := fs_links w; fs_dirs := fs_dirs w;
               events := (events w ++ [e])%list; created := created w; bytes := bytes w |}).

Definition log_info (msg : string) : M unit := emit (LogInfo msg).
Definition log_error (msg : string) : M unit := emit (LogError msg).

(** *** File-system operations *)

(** Something (file, link or directory) is named [p]. *)
Definition lexists (w : World) (p : string) : bool :=
  bool_decide (is_Some (fs_files w !! p))
  || bool_decide (is_Some (fs_links w !! p))
  || bool_decide (p ∈ fs_dirs w).

(** [os.path.exists(p)]: a file or a directory, or a link to one. *)
Definition os_path_exists (w : World) (p : string) : bool :=
  bool_decide (is_Some (fs_files w !! p))
  || bool_decide (p ∈ fs_dirs w)
  || match fs_links w !! p with
     | Some t => bool_decide (is_Some (fs_files w !! t)) || bool_decide (t ∈ fs_dirs w)
     | None => false
     end.

(** [open(p, 'r').read()] *)
Definition read_file (p : string) : M string :=
  fun w => match fs_files w !! p with
           | Some txt => (Ok txt, w)
           | None => (Raise IOError, w)
           end.

(** [open(p, 'w').write(txt)]: creates or overwrites. *)
Definition write_file (p txt : string) : M unit :=
  fun w => (Ok tt,
            {| fs_files := <[p := txt]> (fs_files w); fs_links := fs_links w;
               fs_dirs := fs_dirs w; events := events w;
               created := created w; bytes := bytes w |}).

(** [os.symlink(src, dst)]: [OSError] when [dst] is taken.  The links
    are made directly inside a directory that was just created, so a
    missing parent is not modelled. *)
Definition os_symlink (src dst : string) : M unit :=
  fun w => if lexists w dst then (Raise OSError, w)
           else (Ok tt,
                 {| fs_files := fs_files w; fs_links := <[dst := src]> (fs_links w);
                    fs_dirs := fs_dirs w; events := events w;
                    created := created w; bytes := bytes w |}).

(** [os.remove(p)]: removes a file or a link, [OSError] otherwise. *)
Definition os_remove (p : string) : M unit :=
  fun w => if bool_decide (is_Some (fs_files w !! p))
              || bool_decide (is_Some (fs_links w !! p))
           then (Ok tt,
                 {| fs_files := delete p (fs_files w); fs_links := delete p (fs_links w);
                    fs_dirs := fs_dirs w; events := events w;
                    created := created w; bytes := bytes w |})
           else (Raise OSError, w).

(** The names directly inside directory [d]. *)
Definition dir_entries (w : World) (d : string) : list string :=
  filter (fun p => Py.dirname p = d)
         ((map_to_list (fs_files w)).*1 ++ (map_to_list (fs_links w)).*1
          ++ elements (fs_dirs w ∖ {[d]}))%list.

(** [os.rmdir(d)]: [OSError] unless [d] is an empty directory. *)
Definition os_rmdir (d : string) : M unit :=
  fun w => if bool_decide (d ∈ fs_dirs w) && bool_decide (dir_entries w d = [])
           then (Ok tt,
                 {| fs_files := fs_files w; fs_links := fs_links w;
                    fs_dirs := fs_dirs w ∖ {[d]}; events := events w;
                    created := created w; bytes := bytes w |})
           else (Raise OSError, w).

(** [os.path] has no attribute [listdir] (the directory listing is
    [os.listdir]): evaluating [os.path.listdir(d)] raises
    [AttributeError] before anything is listed. *)
Definition os_path_listdir (d : string) : M (list string) := raise AttributeError.

(** ** External collaborators of the extractor

    The libraries and services the extractor calls are not part of the
    repository; they are taken as parameters. *)
Class Collaborators := {
  (** parsed JSON, [json.load] ([None]: not valid JSON) and [json.dump] *)
  Json : Type;
  json_load : string -> option Json;
  json_dump : Json -> string;
  (** [terrautils.metadata.get_terraref_metadata] *)
  get_terraref_metadata : Json -> Json;
  (** the name [tempfile.mkdtemp] picks for the directory it creates *)
  mkdtemp_name : World -> string;
  (** [subprocess.call]: exit status and the world the script leaves *)
  subprocess_call : list string -> World -> Z * World;
  (** [self.sensors.get_sensor_path(timestamp, sensor=, opts=)] *)
  get_sensor_path : string -> string -> list string -> string;
  (** [self.sensors.create_sensor_path(timestamp, sensor=)] *)
  create_sensor_path : string -> string -> string;
  (** [self.sensors.get_display_name(sensor=)] *)
  get_display_name : string -> string;
  (** [build_dataset_hierarchy]: display name, year, month, day and leaf
      dataset name to the id of the target dataset *)
  build_dataset_hierarchy : string -> string -> string -> string -> string -> string;
  (** reading a netCDF file: the printed values of the variables whose
      [standard_name] is [normalized_difference_chlorophyll_index_750_705]
      ([None]: not a netCDF file) *)
  ndvi705_values : string -> option (list string);
  (** size the file system reports for a directory *)
  dir_size : string -> nat;
  (** [self.bety_key] *)
  bety_key : string
}.

(** ** [HyperspectralRaw2NetCDF.process_message] *)

(** A resolved slot of [target_files]: [{'filename': ..., 'path': ...}]. *)
Record FileRec := { filename : string; path : string }.

Definition local_exts : list string :=
  ["raw"; "raw.hdr"; "image.jpg"; "frameIndex.txt"; "settings.txt"; "_metadata.json"].

(** The local variables of the scan over [resource['local_paths']]. *)
Record Scan := {
  target_files : Py.dict (option FileRec);
  metafile : option string;
  ds_metafile : option string;
  last_path : option string;
  path_match : option bool
}.

Definition scan_init : Scan :=
  {| target_files := Py.all_none local_exts;
     metafile := None; ds_metafile := None; last_path := None; path_match := None |}.

(** [not last_path]: [None] and the empty string are both false values. *)
Definition not_last_path (lp : option string) : bool :=
  match lp with
  | None => true
  | Some s => negb (Py.truthy s)
  end.

(** [not path_match] for [path_match] in [None], [False], [True]. *)
Definition not_path_match (pm : option bool) : bool :=
  match pm with
  | Some true => false
  | _ => true
  end.

(** The body of [for fileExt in target_files.keys()] for the path [f]. *)
Definition scan_ext (f : string) (st : Scan) (fileExt : string) : Scan :=
  if Py.endswith f fileExt then
    if negb (String.eqb fileExt "_metadata.json") then
      let filedir := Py.dirname f in
      let pm :=
        if not_last_path (last_path st) then path_match st
        else if negb (bool_decide (Some filedir = last_path st)) then Some false
             else path_match st in
      {| target_files :=
           Py.set (target_files st) fileExt
             (Some {| filename := Py.basename f; path := f |});
         metafile := metafile st; ds_metafile := ds_metafile st;
         last_path := Some filedir; path_match := pm |}
    else if Py.endswith f "/_dataset_metadata.json" then
      {| target_files := target_files st; metafile := metafile st;
         ds_metafile := Some f; last_path := last_path st;
         path_match := path_match st |}
    else if negb (Py.endswith f "/_metadata.json") then
      {| target_files :=
           Py.set (target_files st) "_metadata.json"
             (Some {| filename := Py.basename f; path := f |});
         metafile := Some f; ds_metafile := ds_metafile st;
         last_path := last_path st; path_match := path_match st |}
    else st
  else st.

(** The body of [for f in resource['local_paths']]. *)
Definition scan_path (st : Scan) (f : string) : Scan :=
  fold_left (scan_ext f) (Py.keys (target_files st)) st.

(** Lines 80-113: find the input files among the local paths. *)
Definition resolve_from (st : Scan) (paths : list string) : Scan :=
  fold_left scan_path paths st.

Definition resolve (paths : list string) : Scan := resolve_from scan_init paths.

Definition set_target_files (st : Scan) (tf : Py.dict (option FileRec)) : Scan :=
  {| target_files := tf; metafile := metafile st; ds_metafile := ds_metafile st;
     last_path := last_path st; path_match := path_match st |}.

(** What the scan stores in a slot: the base name of the path, for a
    path that is not a dataset-level metadata file. *)
Definition slot_ok (rec : FileRec) : Prop :=
  filename rec = Py.basename (path rec)
  ∧ Py.endswith (path rec) "/_dataset_metadata.json" = false.

Section Extractor.
Context `{collab : Collaborators}.

(** Lines 116-125: the metadata file is either among the local paths
    or looked for next to the raw file. *)
Definition locate_metadata (resource : Resource) (st : Scan) : M Scan :=
  match metafile st with
  | Some _ => mret st
  | None =>
      match ds_metafile st with
      | Some _ =>
          log_info "checking for local metadata file alongside other files";;
          raw_slot ← lookup_key (target_files st) "raw";
          raw ← subscript raw_slot;
          let ds_dir := Py.dirname (path raw) in
          listing ← os_path_listdir ds_dir;
          for_each listing
            (fun st ds_f =>
               if Py.endswith ds_f "_metadata.json" then
                 md_slot ← lookup_key (target_files st) "_metadata.json";
                 md ← subscript md_slot;
                 mret (set_target_files st
                         (Py.set (target_files st) "_metadata.json"
                            (Some {| filename := filename md;
                                     path := Py.join ds_dir ds_f |})))
               else mret st)
            st
      | None =>
          raise (ValueError ("could not locate metadata for " +:+ res_id resource))
      end
  end.

(** [tempfile.mkdtemp()] *)
Definition tempfile_mkdtemp : M string :=
  fun w => let d := mkdtemp_name w in
           (Ok d,
            {| fs_files := fs_files w; fs_links := fs_links w;
               fs_dirs := fs_dirs w ∪ {[d]}; events := events w;
               created := created w; bytes := bytes w |}).

Definition json_load_file (p : string) : M Json :=
  txt ← read_file p;
  match json_load txt with
  | Some j => mret j
  | None => raise (ValueError "No JSON object could be decoded")
  end.

(** Lines 131-143: the body of [for f in target_files.keys()]; the
    accumulator is the list [symlinks]. *)
Definition stage_one (tf : Py.dict (option FileRec)) (tempdir : string)
    (symlinks : list string) (f : string) : M (list string) :=
  slot ← lookup_key tf f;
  currf ← subscript slot;
  newf ←
    (if String.eqb (filename currf) "_dataset_metadata.json" then
       jsondata ← json_load_file (path currf);
       let md := get_terraref_metadata jsondata in
       write_file (path currf) (json_dump md);;
       raw_slot ← lookup_key tf "raw";
       raw ← subscript raw_slot;
       mret (Py.join tempdir
               (Py.replace (filename raw) "_raw" EmptyString +:+ "_metadata.json"))
     else mret (Py.join tempdir (filename currf)));
  os_symlink (path currf) newf;;
  mret (symlinks ++ [newf])%list.

(** The locals [tempdir] and [symlinks]. *)
Record Staging := { tempdir : option string; symlinks : list string }.

(** Lines 127-143: create symlinks in one directory. *)
Definition build_staging (st : Scan) : M Staging :=
  if not_path_match (path_match st) then
    tmp ← tempfile_mkdtemp;
    links ← for_each (Py.keys (target_files st)) (stage_one (target_files st) tmp) [];
    mret {| tempdir := Some tmp; symlinks := links |}
  else mret {| tempdir := None; symlinks := [] |}.

(** What lines 146-171 leave for the rest of the function. *)
Record Conversion := {
  timestamp : string;
  sensor_fullname : string;
  outFilePath : string;
  returncode : Z
}.

Definition call (args : list string) : M Z :=
  fun w => let '(rc, w') := subprocess_call args w in (Ok rc, w').

(** Lines 146-171: pick the sensor, run the workflow script and fail
    on a non-zero status. *)
Definition invoke_workflow (resource : Resource) (st : Scan) : M Conversion :=
  ts ← index_list (Py.split (dataset_name resource) " - ") 1;
  let '(sensor, soil_mask) :=
    if (Py.find (dataset_name resource) "SWIR" >? -1)%Z
    then ("swir_netcdf", None)
    else ("vnir_netcdf", Some (get_sensor_path ts "vnir_soil_masks" ["soil_mask"])) in
  let out := create_sensor_path ts sensor in
  log_info ("invoking hyperspectral_workflow.sh to create: " +:+ out);;
  raw_slot ← lookup_key (target_files st) "raw";
  raw ← subscript raw_slot;
  rc ← call
    (match soil_mask with
     | Some mask =>
         if Py.truthy mask
         then ["bash"; "hyperspectral_workflow.sh"; "-d"; "1"; "-h";
               "-m"; mask; "--new_clb_mth"; "-i"; path raw; "-o"; out]
         else ["bash"; "hyperspectral_workflow.sh"; "-d"; "1"; "-h";
               "--new_clb_mth"; "-i"; path raw; "-o"; out]
     | None => ["bash"; "hyperspectral_workflow.sh"; "-d"; "1"; "-h";
                "--new_clb_mth"; "-i"; path raw; "-o"; out]
     end);
  log_info ("done creating output file (" +:+ pretty rc +:+ ")");;
  if negb (rc =? 0)%Z then raise (ValueError "script encountered an error")
  else mret {| timestamp := ts; sensor_fullname := sensor;
               outFilePath := out; returncode := rc |}.

Definition path_exists (p : string) : M bool := fun w => (Ok (os_path_exists w p), w).

(** [os.path.getsize], following a link and sizing a directory. *)
Definition getsize (p : string) : M nat :=
  fun w =>
    match fs_files w !! p with
    | Some txt => (Ok (String.length txt), w)
    | None =>
        if bool_decide (p ∈ fs_dirs w) then (Ok (dir_size p), w)
        else match fs_links w !! p with
             | Some t =>
                 match fs_files w !! t with
                 | Some txt => (Ok (String.length txt), w)
                 | None => if bool_decide (t ∈ fs_dirs w) then (Ok (dir_size t), w)
                           else (Raise OSError, w)
                 end
             | None => (Raise OSError, w)
             end
    end.

(** [self.created += 1] *)
Definition incr_created : M unit :=
  fun w => (Ok tt,
            {| fs_files := fs_files w; fs_links := fs_links w; fs_dirs := fs_dirs w;
               events := events w; created := created w + 1; bytes := bytes w |}).

(** [self.bytes += size] *)
Definition add_bytes (size : nat) : M unit :=
  fun w => (Ok tt,
            {| fs_files := fs_files w; fs_links := fs_links w; fs_dirs := fs_dirs w;
               events := events w; created := created w; bytes := bytes w + size |}).

(** Lines 174-181: the upload, skipped when the output is one of the
    inputs. *)
Definition upload_output (resource : Resource) (conv : Conversion) : M unit :=
  if negb (bool_decide (outFilePath conv ∈ local_paths resource)) then
    let display := get_display_name (sensor_fullname conv) in
    let target_dsid :=
      build_dataset_hierarchy display
        (Py.slice (timestamp conv) 0 4) (Py.slice (timestamp conv) 5 7)
        (Py.slice (timestamp conv) 8 10)
        (display +:+ " - " +:+ timestamp conv) in
    log_info ("uploading " +:+ outFilePath conv);;
    emit (Upload target_dsid (outFilePath conv))
  else mret tt.

(** Lines 172-185: verify that the output file exists and upload it. *)
Definition verify_output (resource : Resource) (conv : Conversion) : M unit :=
  found ← path_exists (outFilePath conv);
  if found : bool then
    if (returncode conv =? 0)%Z then
      upload_output resource conv;;
      incr_created;;
      size ← getsize (outFilePath conv);
      add_bytes size
    else mret tt
  else log_error "no output file was produced".

Definition dquote : string := String (ascii_of_nat 34) EmptyString.
Definition newline : string := String (ascii_of_nat 10) EmptyString.

Definition csv_header : string :=
  "local_datetime,NDVI705,access_level,species,site," +:+
  "citation_author,citation_year,citation_title,method".

Definition csv_vals (ts NDVI705 plot_no : string) : string :=
  ts +:+ "," +:+ NDVI705 +:+ ",2,Sorghum bicolor," +:+ plot_no +:+ "," +:+
  dquote +:+ "Butowsky, Henry" +:+ dquote +:+ ",2016," +:+
  "Maricopa Field Station Data and Metadata,Hyperspectral NDVI705 Indices".

(** Lines 187-205: read the index file and send the trait row. *)
Definition send_indices (conv : Conversion) : M unit :=
  let ind_file := get_sensor_path (timestamp conv) (sensor_fullname conv) ["_ind"] in
  txt ← read_file ind_file;
  ndvi ← match ndvi705_values txt with
         | Some l => mret l
         | None => raise IOError
         end;
  NDVI705 ← index_list ndvi 0;
  let tmp_csv := "traits.csv" in
  let plot_no := "Full Field" in
  write_file tmp_csv (csv_header +:+ newline +:+ csv_vals (timestamp conv) NDVI705 plot_no);;
  emit (SubmitTraits tmp_csv bety_key).

(** Lines 207-211: remove symlinks and temp directory. *)
Definition cleanup (sg : Staging) : M unit :=
  for_each (symlinks sg) (fun _ sym => os_remove sym) tt;;
  match tempdir sg with
  | Some d => if Py.truthy d then os_rmdir d else mret tt
  | None => mret tt
  end.

Definition process_message (resource : Resource) : M unit :=
  emit StartMessage;;
  st ← locate_metadata resource (resolve (local_paths resource));
  sg ← build_staging st;
  conv ← invoke_workflow resource st;
  verify_output resource conv;;
  send_indices conv;;
  cleanup sg;;
  emit EndMessage.

End Extractor.

(** ** The validator: [hyperspectral_test.py] *)

(** Test bodies do not touch the world: they run in the plain error
    monad. *)
#[export] Instance result_ret : MRet result := fun A a => Ok a.
#[export] Instance result_bind : MBind result := fun A B k m =>
  match m with
  | Ok a => k a
  | Raise e => Raise e
  end.

(** *** Floating-point numbers of numpy and Python *)

Module Float.

(** The floating-point types of the data: numpy's [float32] and
    [float64]; a Python [float] is a [float64]. *)
Inductive dtype := f4 | f8.

(** Bits of the significand, and the exponents of the last bit of the
    subnormal numbers and of the first bit of the largest number. *)
Definition prec (d : dtype) : Z := match d with f4 => 24 | f8 => 53 end.
Definition emin (d : dtype) : Z := match d with f4 => -149 | f8 => -1074 end.
Definition emax (d : dtype) : Z := match d with f4 => 127 | f8 => 1023 end.

(** [n * 2^e] for any sign of [e], as a pair of numerator and denominator *)
Definition scaled (n e : Z) : Z * Z :=
  if (0 <=? e)%Z then (n * 2 ^ e, 1)%Z else (n, 2 ^ (- e))%Z.

(** The largest [k] with [2^k <= n / d], for positive [n] and [d]. *)
Definition ilog2 (n d : Z) : Z :=
  let k := (Z.log2 n - Z.log2 d)%Z in
  let '(a, b) := scaled d k in
  if (a <=? n * b)%Z then k else (k - 1)%Z.

(** The integer nearest to [a / b], the even one of two that are
    equally near ([a >= 0], [b > 0]). *)
Definition round_half_even (a b : Z) : Z :=
  let t := (a / b)%Z in
  match (2 * (a mod b) ?= b)%Z with
  | Lt => t
  | Gt => (t + 1)%Z
  | Eq => if Z.even t then t else (t + 1)%Z
  end.

(** The number of the format nearest to the positive [n / d], were the
    exponent unbounded above. *)
Definition round_pos (t : dtype) (n d : Z) : Q :=
  let e := Z.max (ilog2 n d - (prec t - 1)) (emin t) in
  let '(a, b) := scaled 1 e in
  let m := round_half_even (n * b) (d * a) in
  Qred (Qmake (m * a) (Z.to_pos b)).

Definition max_finite (t : dtype) : Q :=
  inject_Z ((2 ^ prec t - 1) * 2 ^ (emax t - prec t + 1)).

(** A bound of a comparison: a finite number or an infinity. *)
Inductive ext := Fin (q : Q) | PInf | NInf.

(** Conversion of a number to the format: round to nearest, ties to
    even; beyond the largest finite number, an infinity. *)
Definition cast (t : dtype) (q : Q) : ext :=
  match Qnum q with
  | Z0 => Fin 0
  | Zpos n =>
      let r := round_pos t (Zpos n) (Zpos (Qden q)) in
      if Qle_bool r (max_finite t) then Fin r else PInf
  | Zneg n =>
      let r := round_pos t (Zpos n) (Zpos (Qden q)) in
      if Qle_bool r (max_finite t) then Fin (- r) else NInf
  end.

(** [x > b] and [x < b] for a finite [x] *)
Definition gt (x : Q) (b : ext) : bool :=
  match b with
  | Fin q => negb (Qle_bool x q)
  | PInf => false
  | NInf => true
  end.
Definition lt (x : Q) (b : ext) : bool :=
  match b with
  | Fin q => negb (Qle_bool q x)
  | PInf => true
  | NInf => false
  end.

End Float.

(** A netCDF variable: the floating-point type of its samples, their
    exact values (flattened) and its attributes.  Variables of an
    integer type are outside the model. *)
Record NcVar := {
  var_dtype : Float.dtype;
  var_data : list Q;
  var_attrs : gmap string string
}.

(** The opened container [masterNetCDFHandler]. *)
Record Container := {
  nc_groups : list string;
  nc_dimensions : gmap string nat;
  nc_variables : gmap string NcVar;
  nc_attrs : gmap string string
}.

(** Values bound to the module's global names. *)
Inductive pyval :=
| VNone
| VNum (q : Q)
| VStr (s : string).

(** The float literals of the module, [0.6], [3e-7] and [1e-6]: the
    binary64 numbers nearest to the decimals. *)
Definition float_0_6 : Q := 5404319552844595 # 9007199254740992.
Definition float_3e_7 : Q := 2833419889721787 # 9444732965739290427392.
Definition float_1e_6 : Q := 4722366482869645 # 4722366482869645213696.

(** The global names of the module once it is loaded (lines 50-54). *)
Definition module_globals : gmap string pyval :=
  <["EXPECTED_NUMBER_OF_GROUPS" := VNum (inject_Z 6)]>
  (<["EXPECTED_NUMBER_OF_DIMENSIONS" := VNum (inject_Z 4)]>
  (<["TEST_FILE_DIRECTORY" := VNone]>
  (<["MAXIMUM_PLANT_REFLECTANCE" := VNum float_0_6]>
  (<["DEFAULT_SATURATED_EXPOSURE" := VNum (inject_Z (2 ^ 16 - 1))]> ∅)))).

(** Reading a global name: [NameError] when it is not bound. *)
Definition load_global (g : gmap string pyval) (name : string) : result pyval :=
  match g !! name with
  | Some v => Ok v
  | None => Raise NameError
  end.

(** A global used as the bound of an array comparison.  The globals
    compared this way are numbers (the defaults, or what [argparse]
    converted with [type=float] and [type=int]); another value is
    reported as [TypeError]. *)
Definition as_num (v : pyval) : result Q :=
  match v with
  | VNum q => Ok q
  | _ => Raise TypeError
  end.

(** [n == v] for a number [n]: a value that is no number is unequal. *)
Definition num_eq (n : Q) (v : pyval) : bool :=
  match v with
  | VNum q => Qeq_bool n q
  | _ => false
  end.

Definition Qgt_bool (x y : Q) : bool := negb (Qle_bool x y).
Definition Qlt_bool (x y : Q) : bool := negb (Qle_bool y x).

(** [(graph > bound).any()] and [(graph < bound).any()] for a bound
    that every type represents exactly (a small integer) *)
Definition any_gt (graph : list Q) (bound : Q) : bool :=
  existsb (fun v => Qgt_bool v bound) graph.
Definition any_lt (graph : list Q) (bound : Q) : bool :=
  existsb (fun v => Qlt_bool v bound) graph.

(** How numpy promotes a Python float that meets a numpy scalar.  Up to
    numpy 1.x the two are compared as [float64] (value-based casting
    does not apply between scalars); since numpy 2 the Python float is
    weak and is converted to the type of the numpy scalar. *)
Inductive numpy_rule := ValueBased | WeakScalars.

(** The Python float [b] as it is compared with a sample of type [t]
    taken out of a variable. *)
Definition scalar_operand (np : numpy_rule) (t : Float.dtype) (b : Q) : Float.ext :=
  match np with
  | ValueBased => Float.Fin b
  | WeakScalars => Float.cast t b
  end.

(** [(np.array(v) > bound).any()] for a Python float [bound]: under
    either rule the comparison runs in the type of the array, to which
    the float is converted (a float beyond the range of the type
    compares like the infinity it would convert to). *)
Definition array_gt (v : NcVar) (bound : Q) : bool :=
  existsb (fun x => Float.gt x (Float.cast (var_dtype v) bound)) (var_data v).

(** *** Assertions of [unittest.TestCase] *)

Definition assertTrue (b : bool) (msg : string) : result unit :=
  if b then Ok tt else Raise (AssertionError msg).
Definition assertFalse (b : bool) (msg : string) : result unit :=
  if b then Raise (AssertionError msg) else Ok tt.
Definition assertEqual_nat (a b : nat) (msg : string) : result unit :=
  assertTrue (a =? b)%nat msg.
Definition assertEqual_str (a b : string) (msg : string) : result unit :=
  assertTrue (String.eqb a b) msg.
Definition assertIn_nat (a : nat) (l : list nat) (msg : string) : result unit :=
  assertTrue (bool_decide (a ∈ l)) msg.
Definition assertGreater (a b : Q) (msg : string) : result unit :=
  assertTrue (Qgt_bool a b) msg.
Definition assertLess (a b : Q) (msg : string) : result unit :=
  assertTrue (Qlt_bool a b) msg.
(** the same two against a float operand *)
Definition assertGreaterF (a : Q) (b : Float.ext) (msg : string) : result unit :=
  assertTrue (Float.gt a b) msg.
Definition assertLessF (a : Q) (b : Float.ext) (msg : string) : result unit :=
  assertTrue (Float.lt a b) msg.

(** [d[k]] on the handler's dictionaries and [v.attr] on a variable. *)
Definition getitem {V} (d : gmap string V) (k : string) : result V :=
  match d !! k with
  | Some v => Ok v
  | None => Raise KeyError
  end.
Definition getattr (attrs : gmap string string) (name : string) : result string :=
  match attrs !! name with
  | Some v => Ok v
  | None => Raise AttributeError
  end.
Definition first {A} (l : list A) : result A :=
  match l with
  | a :: _ => Ok a
  | [] => Raise IndexError
  end.

(** The home-made [assertHasAttribute]. *)
Definition assertHasAttribute (v : NcVar) (attr msg : string) : result unit :=
  if negb (bool_decide (is_Some (var_attrs v !! attr)))
  then Raise (AssertionError msg) else Ok tt.

(** [for x in l: body x] in the error monad. *)
Fixpoint for_all_do {A} (l : list A) (body : A -> result unit) : result unit :=
  match l with
  | [] => Ok tt
  | a :: l' => body a;; for_all_do l' body
  end.

Definition band_counts : list nat := [272; 273; 275; 939; 955]%nat.

(** *** The test cases *)

Section TestCases.
(** numpy's promotion rule *)
Variable np : numpy_rule.
(** the module's globals and the opened container *)
Variable g : gmap string pyval.
Variable c : Container.
(** [str(v)], used only inside failure messages *)
Variable str : pyval -> string.

Definition testTheNumberOfDimensionsInRootLevelIsCorrect : result unit :=
  expected ← load_global g "EXPECTED_NUMBER_OF_DIMENSIONS";
  assertTrue (num_eq (inject_Z (Z.of_nat (size (nc_dimensions c)))) expected)
    "There should be four dimensions total".

Definition testTheYDimensionsMatchesTimeDimension : result unit :=
  y ← getitem (nc_dimensions c) "y";
  tm ← getitem (nc_dimensions c) "time";
  assertEqual_nat y tm "The dimension for y should be the same as for time".

Definition testTheWavelengthDimensionsHaveCorrectValues : result unit :=
  wavelength ← getitem (nc_dimensions c) "wavelength";
  assertIn_nat wavelength band_counts "The dimension for wavelength is wrong".

Definition testWavelengthArrayHasEnoughData : result unit :=
  wavelengthArray ← getitem (nc_variables c) "wavelength";
  assertIn_nat (length (var_data wavelengthArray)) band_counts
    "The length of the wavelength is wrong".

Definition testWavelengthArrayHasCorrectData : result unit :=
  wavelengthArray ← getitem (nc_variables c) "wavelength";
  w0 ← first (var_data wavelengthArray);
  assertGreaterF w0 (scalar_operand np (var_dtype wavelengthArray) float_3e_7)
    "The first sample of the wavelength should greater than 300nm";;
  w0' ← first (var_data wavelengthArray);
  assertLessF w0' (scalar_operand np (var_dtype wavelengthArray) float_1e_6)
    "The last sample of the wavelength should greater than 1000nm".

Definition testHistoryIsCorrectlyRecorded : result unit :=
  history ← getattr (nc_attrs c) "history";
  assertTrue (Py.truthy history) "The product must have an attribute called history";;
  _ ← getattr (nc_attrs c) "history";
  Ok tt.

Definition testFrameTimeHasCorrectCalendarAttr : result unit :=
  assertTrue (bool_decide (is_Some (nc_variables c !! "frametime")))
    "The calender should be in the root level";;
  frameTime ← getitem (nc_variables c) "frametime";
  calender ← getattr (var_attrs frameTime) "calender";
  assertEqual_str calender "gregorian" "The calender for frametime is gregorian".

Definition testFrameTimeHasCorrectUnitsAttr : result unit :=
  frameTime ← getitem (nc_variables c) "frametime";
  units ← getattr (var_attrs frameTime) "units";
  assertEqual_str units "days since 1970-01-01 00:00:00"
    "The units for frametime should be based on Unix-basetime".

Definition testFrameTimeHasCorrectValue : result unit :=
  frameTime ← getitem (nc_variables c) "frametime";
  t0 ← first (var_data frameTime);
  assertGreater t0 (inject_Z 16000)
    "The value for frametime should anyhow larger than 16000".

Definition potentialAttributes : list string :=
  ["units"; "reference_point"; "long_name"; "algorithm"].

Definition testXHasEnoughAttributes : result unit :=
  x ← getitem (nc_variables c) "x";
  for_all_do potentialAttributes
    (fun a => assertHasAttribute x a "X has missing attributes").

Definition testYHasEnoughAttributes : result unit :=
  y ← getitem (nc_variables c) "y";
  for_all_do potentialAttributes
    (fun a => assertHasAttribute y a "Y has missing attributes").

(** The message that lines 254, 261 and 268 build before asserting:
    the global [name] is read and printed. *)
Definition limit_msg (text name : string) : result string :=
  v ← load_global g name;
  Ok (text +:+ str v +:+ " )").

Definition over_reflected_text : string :=
  "The graph is over reflected (i.e., has the pixel grater than the max. plant reflectance, now = ".

Definition over_exposured_text : string :=
  "The graph is over exposured (i.e., has the pixel grater than the default saturated exposure, now = ".

Definition testCalibrationGraphIsOverReflected : result unit :=
  graph ← getitem (nc_variables c) "rfl_img";
  bound ← load_global g "MAXIMUM_PLANT_REFLECTANCE" ≫= as_num;
  let result := array_gt graph bound in
  msg ← limit_msg over_reflected_text "MAXIMUM_PLANT_REFLECTANCE";
  assertFalse result msg.

Definition testSolarZenithAngleInReseaonableRange : result unit :=
  graph ← getitem (nc_variables c) "solar_zenith_angle";
  let result_over := any_gt (var_data graph) (inject_Z 90) in
  let result_lower := any_lt (var_data graph) (inject_Z 0) in
  msg ← limit_msg over_reflected_text "MAXIMUM_PLANT_REFLECTANCE";
  assertFalse (result_over && result_lower) msg.

Definition testCalibrationGraphIsOverExposured : result unit :=
  graph ← getitem (nc_variables c) "xps_img";
  bound ← load_global g "SATURATED_EXPOSURE" ≫= as_num;
  let result := any_gt (var_data graph) bound in
  msg ← limit_msg over_exposured_text "SATURATED_EXPOSURE";
  assertFalse result msg.

End TestCases.

(** *** Running the suite *)

(** How [TestCase.run] files one test method. *)
Inductive Outcome :=
| Success
| Failure
| Error
| ExpectedFailure
| UnexpectedSuccess.

(** A test method of the class, with its [@unittest.expectedFailure]
    mark. *)
Record TestMethod := {
  test_name : string;
  expected_failure : bool;
  test_body : gmap string pyval -> Container -> (pyval -> string) -> result unit
}.

(** [TestCase.run] on one method.  The [expectedFailure] decorator turns
    any exception of the body into an expected failure and a normal
    return into an unexpected success; an undecorated body fails on
    [AssertionError] and errors on any other exception. *)
Definition run_test (t : TestMethod) (g : gmap string pyval) (c : Container)
    (str : pyval -> string) : Outcome :=
  match test_body t g c str with
  | Ok _ => if expected_failure t then UnexpectedSuccess else Success
  | Raise e =>
      if expected_failure t then ExpectedFailure
      else match e with
           | AssertionError _ => Failure
           | _ => Error
           end
  end.

(** The methods [loadTestsFromTestCase] finds in
    [HyperspectralWorkflowTest], in the loader's (sorted) order. *)
Definition HyperspectralWorkflowTest (np : numpy_rule) : list TestMethod :=
  [ {| test_name := "testCalibrationGraphIsOverExposured"; expected_failure := true;
       test_body := testCalibrationGraphIsOverExposured |};
    {| test_name := "testCalibrationGraphIsOverReflected"; expected_failure := true;
       test_body := testCalibrationGraphIsOverReflected |};
    {| test_name := "testFrameTimeHasCorrectCalendarAttr"; expected_failure := false;
       test_body := fun _ c _ => testFrameTimeHasCorrectCalendarAttr c |};
    {| test_name := "testFrameTimeHasCorrectUnitsAttr"; expected_failure := false;
       test_body := fun _ c _ => testFrameTimeHasCorrectUnitsAttr c |};
    {| test_name := "testFrameTimeHasCorrectValue"; expected_failure := false;
       test_body := fun _ c _ => testFrameTimeHasCorrectValue c |};
    {| test_name := "testHistoryIsCorrectlyRecorded"; expected_failure := false;
       test_body := fun _ c _ => testHistoryIsCorrectlyRecorded c |};
    {| test_name := "testSolarZenithAngleInReseaonableRange"; expected_failure := false;
       test_body := testSolarZenithAngleInReseaonableRange |};
    {| test_name := "testTheNumberOfDimensionsInRootLevelIsCorrect";
       expected_failure := true;
       test_body := fun g c _ => testTheNumberOfDimensionsInRootLevelIsCorrect g c |};
    {| test_name := "testTheWavelengthDimensionsHaveCorrectValues";
       expected_failure := false;
       test_body := fun _ c _ => testTheWavelengthDimensionsHaveCorrectValues c |};
    {| test_name := "testTheYDimensionsMatchesTimeDimension"; expected_failure := false;
       test_body := fun _ c _ => testTheYDimensionsMatchesTimeDimension c |};
    {| test_name := "testWavelengthArrayHasCorrectData"; expected_failure := false;
       test_body := fun _ c _ => testWavelengthArrayHasCorrectData np c |};
    {| test_name := "testWavelengthArrayHasEnoughData"; expected_failure := false;
       test_body := fun _ c _ => testWavelengthArrayHasEnoughData c |};
    {| test_name := "testXHasEnoughAttributes"; expected_failure := false;
       test_body := fun _ c _ => testXHasEnoughAttributes c |};
    {| test_name := "testYHasEnoughAttributes"; expected_failure := false;
       test_body := fun _ c _ => testYHasEnoughAttributes c |} ].

(** The [TestResult] of a run: the names filed under each heading. *)
Record TestResult := {
  testsRun : nat;
  failures : list string;
  errors : list string;
  expectedFailures : list string;
  unexpectedSuccesses : list string
}.

Definition empty_result : TestResult :=
  {| testsRun := 0; failures := []; errors := [];
     expectedFailures := []; unexpectedSuccesses := [] |}.

Definition record_outcome (r : TestResult) (name : string) (o : Outcome) : TestResult :=
  {| testsRun := testsRun r + 1;
     failures := if o is Failure then (failures r ++ [name])%list else failures r;
     errors := if o is Error then (errors r ++ [name])%list else errors r;
     expectedFailures :=
       if o is ExpectedFailure then (expectedFailures r ++ [name])%list
       else expectedFailures r;
     unexpectedSuccesses :=
       if o is UnexpectedSuccess then (unexpectedSuccesses r ++ [name])%list
       else unexpectedSuccesses r |}.

(** Running the methods of the class over an opened container. *)
Definition run_methods (tests : list TestMethod) (g : gmap string pyval)
    (c : Container) (str : pyval -> string) : TestResult :=
  fold_left (fun r t => record_outcome r (test_name t) (run_test t g c str))
            tests empty_result.

(** The rule of [TestResult.wasSuccessful].  Up to Python 3.3 (and in
    2.7) a run is successful when it has no failure and no error; since
    Python 3.4 it must have no unexpected success either.  The module
    runs under both. *)
Inductive unittest_rule := Unittest27 | Unittest34.

Definition wasSuccessful (u : unittest_rule) (r : TestResult) : bool :=
  bool_decide (failures r = []) && bool_decide (errors r = [])
  && match u with
     | Unittest27 => true
     | Unittest34 => bool_decide (unexpectedSuccesses r = [])
     end.

(** An outcome that [wasSuccessful] counts against the run: a failure
    or an error, and under the later rule an unexpected success. *)
Definition counts_against (u : unittest_rule) (o : Outcome) : bool :=
  match o with
  | Failure | Error => true
  | UnexpectedSuccess => if u is Unittest34 then true else false
  | _ => false
  end.

(** What the validator takes from the installation it runs on. *)
Record Runtime := { unittest : unittest_rule; numpy : numpy_rule }.

(** The command line after [argparse]: the three optional positionals
    are [None] when absent.  [maximum_plant_reflectance] is the exact
    value of the (finite) float that [type=float] made of the
    argument. *)
Record Args := {
  input_file_path : string;
  verbosity : option Z;
  maximum_plant_reflectance : option Q;
  saturated_exposure : option Z
}.

(** [default=] of an optional positional *)
Definition or_default {A} (o : option A) (d : A) : A :=
  match o with
  | Some a => a
  | None => d
  end.

(** Lines 273-287: the module's globals after the command line has been
    read.  The defaults of [argparse] are the values the globals have
    when the parser is built. *)
Definition main_globals (args : Args) : gmap string pyval :=
  let g := module_globals in
  let reflectance :=
    match maximum_plant_reflectance args with
    | Some q => VNum q
    | None => or_default (g !! "MAXIMUM_PLANT_REFLECTANCE") VNone
    end in
  let exposure :=
    match saturated_exposure args with
    | Some z => VNum (inject_Z z)
    | None => or_default (g !! "DEFAULT_SATURATED_EXPOSURE") VNone
    end in
  <["DEFAULT_SATURATED_EXPOSURE" := exposure]>
  (<["MAXIMUM_PLANT_REFLECTANCE" := reflectance]>
  (<["TEST_FILE_DIRECTORY" := VStr (input_file_path args)]> g)).

(** [setUpClass] opens the file; when that raises, the class is filed as
    one error and none of its methods run. *)
Definition run_suite (np : numpy_rule) (open_dataset : string -> option Container)
    (g : gmap string pyval) (str : pyval -> string) : TestResult :=
  match g !! "TEST_FILE_DIRECTORY" with
  | Some (VStr file) =>
      match open_dataset file with
      | Some c => run_methods (HyperspectralWorkflowTest np) g c str
      | None =>
          {| testsRun := 0; failures := []; errors := ["setUpClass"];
             expectedFailures := []; unexpectedSuccesses := [] |}
      end
  | _ => {| testsRun := 0; failures := []; errors := ["setUpClass"];
            expectedFailures := []; unexpectedSuccesses := [] |}
  end.

(** [sys.exit(flag)]: the status of the process is [flag] as an
    integer. *)
Definition sys_exit (flag : bool) : Z := if flag then 1%Z else 0%Z.

(** Lines 272-291: the exit status of the validator. *)
Definition main (rt : Runtime) (open_dataset : string -> option Container)
    (str : pyval -> string) (args : Args) : Z :=
  let g := main_globals args in
  let runner := run_suite (numpy rt) open_dataset g str in
  let returnValue := wasSuccessful (unittest rt) runner in
  sys_exit (negb returnValue).


(** ** Scenarios

    Concrete collaborators, captures and containers on which the
    embedded code is run in the examples below. *)

(** Collaborators whose workflow script exits with [rc] after writing
    the files [produced]; the metadata transform tags the document. *)
Definition scripted (rc : Z) (produced : list (string * string)) : Collaborators :=
  {| Json := string;
     json_load := Some;
     json_dump := fun j => j;
     get_terraref_metadata := fun j => "terraref:" +:+ j;
     mkdtemp_name := fun _ => "/tmp/tmpK3x9";
     subprocess_call := fun _ w =>
       (rc,
        {| fs_files := foldr (fun kv m => <[kv.1 := kv.2]> m) (fs_files w) produced;
           fs_links := fs_links w; fs_dirs := fs_dirs w; events := events w;
           created := created w; bytes := bytes w |});
     get_sensor_path := fun ts sensor opts =>
       "/sites/" +:+ sensor +:+ "/" +:+ ts +:+ String.concat EmptyString opts +:+ ".nc";
     create_sensor_path := fun ts sensor => "/sites/" +:+ sensor +:+ "/" +:+ ts +:+ ".nc";
     get_display_name := fun sensor => sensor;
     build_dataset_hierarchy := fun display y m d leaf => "ds:" +:+ leaf;
     ndvi705_values := fun txt => if String.eqb txt "indices" then Some ["0.42"] else None;
     dir_size := fun _ => 4096;
     bety_key := "key" |}.

Definition capture_name : string := "VNIR - 2017-04-15__11-30-00-000".
Definition out_path : string := "/sites/vnir_netcdf/2017-04-15__11-30-00-000.nc".
Definition ind_path : string := "/sites/vnir_netcdf/2017-04-15__11-30-00-000_ind.nc".

(** A complete capture whose six files sit in one directory. *)
Definition colocated_paths : list string :=
  ["/data/cap/x_raw"; "/data/cap/x_raw.hdr"; "/data/cap/x_image.jpg";
   "/data/cap/x_frameIndex.txt"; "/data/cap/x_settings.txt";
   "/data/cap/x_metadata.json"].

(** The same capture with the header in another directory. *)
Definition scattered_paths : list string :=
  ["/data/cap/x_raw"; "/data/other/x_raw.hdr"; "/data/cap/x_image.jpg";
   "/data/cap/x_frameIndex.txt"; "/data/cap/x_settings.txt";
   "/data/cap/x_metadata.json"].

(** A capture that comes with the dataset-level metadata only. *)
Definition dataset_md_paths : list string :=
  ["/data/cap/x_raw"; "/data/cap/x_raw.hdr"; "/data/cap/x_image.jpg";
   "/data/cap/x_frameIndex.txt"; "/data/cap/x_settings.txt";
   "/data/cap/_dataset_metadata.json"].

(** A capture whose settings file has not arrived. *)
Definition incomplete_paths : list string :=
  ["/data/cap/x_raw"; "/data/cap/x_raw.hdr"; "/data/cap/x_image.jpg";
   "/data/cap/x_frameIndex.txt"; "/data/cap/x_metadata.json"].

Definition resource_of (paths : list string) : Resource :=
  {| res_id := "5a1b"; dataset_name := capture_name; files := None;
     local_paths := paths |}.

(** A world in which the given paths are regular files. *)
Definition world_with (paths : list string) : World :=
  {| fs_files := foldr (fun p m => <[p := "{}"]> m) ∅ paths;
     fs_links := ∅;
     fs_dirs := {["/data/cap"]} ∪ {["/data/other"]} ∪ {["/tmp"]};
     events := []; created := 0; bytes := 0 |}.

(** A container with the given values of one [float64] variable. *)
Definition container_with (name : string) (values : list Q) : Container :=
  {| nc_groups := [];
     nc_dimensions := ∅;
     nc_variables :=
       {[ name := {| var_dtype := Float.f8; var_data := values; var_attrs := ∅ |} ]};
     nc_attrs := ∅ |}.

(** A container that passes every check without the expected-failure
    mark.  It has the four dimensions [x], [y], [time] and
    [wavelength] and no image variable. *)
Definition passing_container : Container :=
  let located :=
    {| var_dtype := Float.f8; var_data := [inject_Z 0];
       var_attrs := {[ "units" := "meter"; "reference_point" := "south-east corner";
                       "long_name" := "position"; "algorithm" := "interpolation" ]} |} in
  {| nc_groups := [];
     nc_dimensions := {[ "x" := 1600; "y" := 169; "time" := 169; "wavelength" := 272 ]};
     nc_variables :=
       {[ "frametime" :=
            {| var_dtype := Float.f8; var_data := [inject_Z 17000];
               var_attrs := {[ "calender" := "gregorian";
                               "units" := "days since 1970-01-01 00:00:00" ]} |};
          "solar_zenith_angle" :=
            {| var_dtype := Float.f8; var_data := [inject_Z 45]; var_attrs := ∅ |};
          "wavelength" :=
            {| var_dtype := Float.f4; var_data := replicate 272 (1 # 2097152);
               var_attrs := ∅ |};
          "x" := located;
          "y" := located ]};
     nc_attrs := {[ "history" := "Mon Apr 17 10:12:05 2017: python hyperspectral_metadata.py" ]} |}.

Definition default_args : Args :=
  {| input_file_path := "/sites/out.nc"; verbosity := None;
     maximum_plant_reflectance := None; saturated_exposure := None |}.

(** [str] of a global, as far as the examples need it. *)
Definition show (v : pyval) : string :=
  match v with
  | VNone => "None"
  | VStr s => s
  | VNum q => pretty (Qnum q) +:+ "/" +:+ pretty (Zpos (Qden q))
  end.

(** ** [HyperspectralRaw2NetCDF.check_message] *)

(** [pyclowder.utils.CheckMessage] *)
Module CheckMessage.
Inductive t := ignore | download | bypass.
End CheckMessage.

(** What [check_message] needs beyond the collaborators of
    [process_message]: the flag [self.overwrite] and the metadata
    service. *)
Class Clowder := {
  (** [self.overwrite] *)
  overwrite : bool;
  (** the metadata documents of a dataset *)
  Metadata : Type;
  (** [download_metadata(connector, host, secret_key, resource['id'],
      self.extractor_info['name'])] *)
  download_metadata : string -> Metadata;
  (** the truth value of [get_extractor_metadata(md, name)] *)
  get_extractor_metadata : Metadata -> bool
}.

(** [self.log_skip(resource, msg)]: an entry of the log at level info. *)
Definition log_skip (msg : string) : M unit := log_info msg.

Section Check.
Context `{collab : Collaborators} `{clowder : Clowder}.

(** Lines 37-74. *)
Definition check_message (resource : Resource) : M CheckMessage.t :=
  let sensor_fullname :=
    if (Py.find (dataset_name resource) "SWIR" >? -1)%Z
    then "swir_netcdf" else "vnir_netcdf" in
  if has_all_files resource then
    ts ← index_list (Py.split (dataset_name resource) " - ") 1;
    let out := get_sensor_path ts sensor_fullname [] in
    found ← path_exists out;
    if (found : bool) && negb overwrite then
      log_skip "output file already exists";;
      mret CheckMessage.ignore
    else
      let md := download_metadata (res_id resource) in
      if get_extractor_metadata md && negb overwrite then
        log_skip "already processed";;
        mret CheckMessage.ignore
      else mret CheckMessage.download
  else
    log_skip "not all input files are ready";;
    mret CheckMessage.ignore.

End Check.

(** ** Notions used to state what the scan computes *)

(** The record the scan stores for a path. *)
Definition file_rec (f : string) : FileRec :=
  {| filename := Py.basename f; path := f |}.

(** A path that ends with one of the five data suffixes. *)
Definition is_data_path (f : string) : bool :=
  existsb (Py.endswith f) remote_exts.

(** The directories of the data paths, in the order of the list. *)
Definition data_dirs (paths : list string) : list string :=
  map Py.dirname (filter (fun f => is_data_path f = true) paths).

(** A path that the scan takes for the capture's own metadata file:
    it ends with [_metadata.json] but with neither
    [/_dataset_metadata.json] nor [/_metadata.json]. *)
Definition is_capture_metadata (f : string) : bool :=
  Py.endswith f "_metadata.json"
  && negb (Py.endswith f "/_dataset_metadata.json")
  && negb (Py.endswith f "/_metadata.json").

(** A metadata service that knows, or does not know, metadata of this
    extractor for every dataset. *)
Definition clowder_with (ov known : bool) : Clowder :=
  {| overwrite := ov; Metadata := bool;
     download_metadata := fun _ => known;
     get_extractor_metadata := fun md => md |}.

(** A remote listing with one file per data suffix. *)
Definition complete_listing : list FileItem :=
  [ {| file_id := "1"; file_name := "x_raw" |};
    {| file_id := "2"; file_name := "x_raw.hdr" |};
    {| file_id := "3"; file_name := "x_image.jpg" |};
    {| file_id := "4"; file_name := "x_frameIndex.txt" |};
    {| file_id := "5"; file_name := "x_settings.txt" |} ].

Definition listed_resource (name : string) (fl : option (list FileItem)) : Resource :=
  {| res_id := "5a1b"; dataset_name := name; files := fl; local_paths := [] |}.

(** A resource with the given name and local paths. *)
Definition local_resource (name : string) (paths : list string) : Resource :=
  {| res_id := "5a1b"; dataset_name := name; files := None; local_paths := paths |}.

(** * Properties *)

(** ** The Python built-ins on sample inputs *)

Example endswith_raw : Py.endswith "/d/x_raw" "raw" = true.
Proof. reflexivity. Qed.
Example endswith_hdr_not_raw : Py.endswith "/d/x_raw.hdr" "raw" = false.
Proof. reflexivity. Qed.
Example dirname_abs : Py.dirname "/data/cap/x_raw" = "/data/cap".
Proof. reflexivity. Qed.
Example dirname_root : Py.dirname "/x_raw" = "/".
Proof. reflexivity. Qed.
Example dirname_rel : Py.dirname "x_raw" = EmptyString.
Proof. reflexivity. Qed.
Example dirname_trailing : Py.dirname "/a//b" = "/a".
Proof. reflexivity. Qed.
Example basename_abs : Py.basename "/data/cap/x_raw" = "x_raw".
Proof. reflexivity. Qed.
Example join_plain : Py.join "/tmp/t0" "x_raw" = "/tmp/t0/x_raw".
Proof. reflexivity. Qed.
Example join_absolute : Py.join "/tmp/t0" "/x_raw" = "/x_raw".
Proof. reflexivity. Qed.
Example split_name :
  Py.split "VNIR - 2017-04-15__11-30-00-000" " - " = ["VNIR"; "2017-04-15__11-30-00-000"].
Proof. reflexivity. Qed.
Example split_no_sep : Py.split "VNIR" " - " = ["VNIR"].
Proof. reflexivity. Qed.
Example replace_raw : Py.replace "abc_raw" "_raw" EmptyString = "abc".
Proof. reflexivity. Qed.
Example find_swir : Py.find "SWIR - 2017" "SWIR" = 0%Z.
Proof. reflexivity. Qed.
Example find_absent : Py.find "VNIR - 2017" "SWIR" = (-1)%Z.
Proof. reflexivity. Qed.

(** ** Dictionaries *)

Section DictFacts.
Context {V : Type}.
Implicit Types (d : Py.dict V) (k : string) (v : V).

Lemma get_set_eq d k v : Py.get (Py.set d k v) k = Some v.
Proof.
  induction d as [|[k' v'] d IH]; simpl.
  - by rewrite String.eqb_refl.
  - destruct (String.eqb k' k) eqn:E; simpl; rewrite E; [done | exact IH].
Qed.

Lemma get_set_ne d k k' v : k ≠ k' → Py.get (Py.set d k v) k' = Py.get d k'.
Proof.
  intros Hne. induction d as [|[k0 v0] d IH]; simpl.
  - by rewrite (proj2 (String.eqb_neq k k') Hne).
  - destruct (String.eqb k0 k) eqn:E; simpl.
    + apply String.eqb_eq in E. subst k0.
      by rewrite (proj2 (String.eqb_neq k k') Hne).
    + by rewrite IH.
Qed.

Lemma keys_set d k v : k ∈ Py.keys d → Py.keys (Py.set d k v) = Py.keys d.
Proof.
  induction d as [|[k0 v0] d IH]; simpl; intros Hin.
  - by apply elem_of_nil in Hin.
  - destruct (String.eqb k0 k) eqn:E; simpl; [done |].
    f_equal. apply IH. apply elem_of_cons in Hin as [->|Hin]; [|done].
    by rewrite String.eqb_refl in E.
Qed.

Lemma get_is_Some d k : k ∈ Py.keys d → is_Some (Py.get d k).
Proof.
  induction d as [|[k0 v0] d IH]; simpl; intros Hin.
  - by apply elem_of_nil in Hin.
  - destruct (String.eqb k0 k) eqn:E; [by eexists |].
    apply IH. apply elem_of_cons in Hin as [->|Hin]; [|done].
    by rewrite String.eqb_refl in E.
Qed.
End DictFacts.

Lemma get_all_none {V} (ks : list string) (k : string) :
  Py.get (Py.all_none (V:=V) ks) k = if bool_decide (k ∈ ks) then Some None else None.
Proof.
  induction ks as [|k0 ks IH]; simpl; [done |].
  destruct (String.eqb k0 k) eqn:E.
  - apply String.eqb_eq in E. subst k0.
    by rewrite bool_decide_eq_true_2 by set_solver.
  - apply String.eqb_neq in E. rewrite IH.
    destruct (decide (k ∈ ks)).
    + by rewrite !bool_decide_eq_true_2 by set_solver.
    + rewrite (bool_decide_eq_false_2 (k ∈ ks)) by done.
      rewrite bool_decide_eq_false_2; [done |].
      apply not_elem_of_cons. split; [congruence | done].
Qed.

Lemma keys_all_none {V} (ks : list string) : Py.keys (Py.all_none (V:=V) ks) = ks.
Proof. induction ks; simpl; by f_equal. Qed.

(** ** [has_all_files] *)

Lemma forallb_false_witness {A} (f : A → bool) (l : list A) :
  forallb f l = false → ∃ x, x ∈ l ∧ f x = false.
Proof.
  induction l as [|a l IH]; simpl; [done |].
  destruct (f a) eqn:E; simpl.
  - intros (x & Hx & Hfx)%IH. exists x. split; [set_solver | done].
  - intros _. exists a. split; [set_solver | done].
Qed.

Lemma file_item_eta (f : FileItem) :
  {| file_id := file_id f; file_name := file_name f |} = f.
Proof. by destruct f. Qed.

(** The flag of [has_all_files] is true exactly when no visited slot is
    [None]. *)
Lemma all_found_fold {V} (d : Py.dict (option V)) (ks : list string) (b : bool) :
  fold_left (fun acc k => if slot_is_none d k then false else acc) ks b
  = b && forallb (fun k => negb (slot_is_none d k)) ks.
Proof.
  revert b. induction ks as [|k ks IH]; intros b; simpl.
  - by rewrite andb_true_r.
  - rewrite IH. destruct (slot_is_none d k), b; simpl; try done.
Qed.

Lemma scan_item_keys ks tf item :
  ks ⊆ Py.keys tf → Py.keys (scan_item ks tf item) = Py.keys tf.
Proof.
  unfold scan_item. revert tf.
  induction ks as [|k ks IH]; intros tf Hsub; simpl; [done |].
  destruct (Py.endswith (file_name item) k).
  - rewrite IH; rewrite keys_set; set_solver.
  - apply IH. set_solver.
Qed.

Lemma scan_item_slot ks tf item ext :
  slot_is_none (scan_item ks tf item) ext
  = slot_is_none tf ext
    && negb (bool_decide (ext ∈ ks) && Py.endswith (file_name item) ext).
Proof.
  unfold scan_item. revert tf.
  induction ks as [|k ks IH]; intros tf; simpl.
  - by rewrite andb_true_r.
  - rewrite IH. destruct (decide (k = ext)) as [->|Hne].
    + rewrite (bool_decide_eq_true_2 (ext ∈ ext :: ks)) by set_solver. simpl.
      destruct (Py.endswith (file_name item) ext) eqn:E; simpl.
      * unfold slot_is_none at 1. rewrite get_set_eq. simpl.
        by rewrite andb_false_r.
      * by rewrite andb_false_r, !andb_true_r.
    + assert (bool_decide (ext ∈ k :: ks) = bool_decide (ext ∈ ks)) as ->.
      { apply bool_decide_ext. rewrite elem_of_cons.
        split; [intros [Heq|Hin]; [by subst | done] | by right]. }
      destruct (Py.endswith (file_name item) k); [|done].
      unfold slot_is_none at 1. by rewrite get_set_ne.
Qed.

Lemma scan_items_keys ks tf fl :
  ks ⊆ Py.keys tf → Py.keys (fold_left (scan_item ks) fl tf) = Py.keys tf.
Proof.
  revert tf. induction fl as [|f fl IH]; intros tf Hsub; simpl; [done |].
  rewrite IH; rewrite scan_item_keys; done.
Qed.

Lemma scan_items_slot ks tf fl ext :
  slot_is_none (fold_left (scan_item ks) fl tf) ext
  = slot_is_none tf ext
    && forallb (fun f => negb (bool_decide (ext ∈ ks) && Py.endswith (file_name f) ext)) fl.
Proof.
  revert tf. induction fl as [|f fl IH]; intros tf; simpl.
  - by rewrite andb_true_r.
  - by rewrite IH, scan_item_slot, andb_assoc.
Qed.

Lemma get_all_files_keys r : Py.keys (get_all_files r) = remote_exts.
Proof.
  unfold get_all_files. destruct (files r) as [fl|].
  - rewrite scan_items_keys; by rewrite ?keys_all_none.
  - by rewrite keys_all_none.
Qed.

(** A slot of [get_all_files] stays [None] exactly when no listed file
    name ends with its suffix. *)
Lemma get_all_files_slot r ext :
  ext ∈ remote_exts →
  slot_is_none (get_all_files r) ext
  = match files r with
    | Some fl => forallb (fun f => negb (Py.endswith (file_name f) ext)) fl
    | None => true
    end.
Proof.
  intros Hin. unfold get_all_files.
  assert (slot_is_none (Py.all_none (V:=FileItem) remote_exts) ext = true) as H0.
  { unfold slot_is_none. rewrite get_all_none. by rewrite bool_decide_eq_true_2. }
  destruct (files r) as [fl|]; [|done].
  rewrite scan_items_slot, H0, keys_all_none. simpl.
  induction fl as [|f fl IH]; simpl; [done |].
  by rewrite IH, bool_decide_eq_true_2.
Qed.

(** C7.  [has_all_files] is a total function to [bool] (no path of it
    raises): it answers [true] exactly when the resource has a file
    listing in which, for each of the five suffixes [raw], [raw.hdr],
    [image.jpg], [frameIndex.txt] and [settings.txt], some file name ends
    with that suffix; so it answers [false] when any one of the five
    roles is missing, and when the listing itself is absent. *)
Theorem has_all_files_iff (r : Resource) :
  has_all_files r = true
  ↔ ∃ fl, files r = Some fl
          ∧ ∀ ext, ext ∈ remote_exts →
                   ∃ f, f ∈ fl ∧ Py.endswith (file_name f) ext = true.
Proof.
  unfold has_all_files. rewrite all_found_fold, get_all_files_keys.
  rewrite andb_true_l, forallb_forall. split.
  - intros Hall. destruct (files r) as [fl|] eqn:Hfiles.
    + exists fl. split; [done |]. intros ext Hin.
      specialize (Hall ext (proj1 (list_elem_of_In _ _) Hin)).
      rewrite get_all_files_slot, Hfiles in Hall by done.
      apply negb_true_iff in Hall.
      destruct (forallb_false_witness _ _ Hall) as (f & Hf & Hends).
      exists f. split; [done |].
      by apply negb_false_iff in Hends.
    + specialize (Hall "raw"). rewrite get_all_files_slot, Hfiles in Hall.
      * discriminate Hall. unfold remote_exts. simpl. auto.
      * set_solver.
  - intros (fl & Hfiles & Hall) ext Hin.
    apply list_elem_of_In in Hin.
    rewrite get_all_files_slot, Hfiles by done.
    destruct (Hall ext Hin) as (f & Hf & Hends).
    apply negb_true_iff. apply not_true_is_false. intros Hfa.
    rewrite forallb_forall in Hfa.
    specialize (Hfa f (proj1 (list_elem_of_In _ _) Hf)).
    by rewrite Hends in Hfa.
Qed.

(** ** Steps of the extractor's monad *)

(** A sequence that returns has returned at each of its steps. *)
Lemma mbind_Ok {A B} (m : M A) (k : A → M B) (w w' : World) (b : B) :
  (m ≫= k) w = (Ok b, w') → ∃ a w1, m w = (Ok a, w1) ∧ k a w1 = (Ok b, w').
Proof.
  unfold mbind, M_bind. destruct (m w) as [[a|e] w1]; [|done].
  intros Hk. by exists a, w1.
Qed.

(** Steps that return leave the world as it was, or change one part
    of it. *)
Lemma lookup_key_Ok {V} (d : Py.dict V) (k : string) (v : V) (w w' : World) :
  lookup_key d k w = (Ok v, w') → Py.get d k = Some v ∧ w' = w.
Proof. unfold lookup_key. destruct (Py.get d k); [by intros [= -> ->] | done]. Qed.

Lemma subscript_Ok {A} (o : option A) (a : A) (w w' : World) :
  subscript o w = (Ok a, w') → o = Some a ∧ w' = w.
Proof. unfold subscript. destruct o; [by intros [= -> ->] | done]. Qed.

Lemma read_file_Ok (p txt : string) (w w' : World) :
  read_file p w = (Ok txt, w') → fs_files w !! p = Some txt ∧ w' = w.
Proof. unfold read_file. destruct (fs_files w !! p); [by intros [= -> ->] | done]. Qed.

Lemma json_load_file_Ok `{collab : Collaborators} (p : string) (j : Json)
    (w w' : World) :
  json_load_file p w = (Ok j, w') → w' = w.
Proof.
  unfold json_load_file. intros (txt & w1 & [_ ->]%read_file_Ok & Hload)%mbind_Ok.
  destruct (json_load txt); [by injection Hload as _ <- | done].
Qed.

(** The world after one step of the extractor's monad. *)
Ltac run_step w1 E :=
  match goal with
  | |- context [match ?m ?w with _ => _ end] =>
      lazymatch type of (m w) with
      | (result _ * World)%type =>
          let r := fresh "r" in
          destruct (m w) as [[r|r] w1] eqn:E; simpl; [|try done]
      end
  end.

(** ** The scan over the local paths: [path_match] *)

Lemma scan_ext_path_match f st ext :
  path_match st ≠ Some true → path_match (scan_ext f st ext) ≠ Some true.
Proof.
  intros Hpm. unfold scan_ext.
  repeat (case_match; simpl; try done).
Qed.

Lemma scan_path_path_match st f :
  path_match st ≠ Some true → path_match (scan_path st f) ≠ Some true.
Proof.
  unfold scan_path. generalize (Py.keys (target_files st)). intros ks.
  revert st. induction ks as [|k ks IH]; intros st Hpm; simpl; [done |].
  by apply IH, scan_ext_path_match.
Qed.

(** No assignment of the scan gives [path_match] the value [True]. *)
Lemma resolve_from_path_match st paths :
  path_match st ≠ Some true → path_match (resolve_from st paths) ≠ Some true.
Proof.
  unfold resolve_from. revert st.
  induction paths as [|f paths IH]; intros st Hpm; simpl; [done |].
  by apply IH, scan_path_path_match.
Qed.

Lemma not_path_match_true pm : pm ≠ Some true → not_path_match pm = true.
Proof. by destruct pm as [[]|]. Qed.

(** The part of the rule that the scan does implement: a role in
    another directory than the one seen before sets the flag to
    [False], and the flag stays [False] from then on. *)
Lemma scan_ext_mismatch f st ext d :
  Py.endswith f ext = true → ext ≠ "_metadata.json" →
  last_path st = Some d → Py.truthy d = true → Py.dirname f ≠ d →
  path_match (scan_ext f st ext) = Some false.
Proof.
  intros Hends Hext Hlast Hd Hdir. unfold scan_ext.
  rewrite Hends, (proj2 (String.eqb_neq ext "_metadata.json") Hext). simpl.
  rewrite Hlast. simpl. rewrite Hd. simpl.
  rewrite bool_decide_eq_false_2; [done |]. by intros [= ?].
Qed.

Lemma scan_ext_sticky f st ext :
  path_match st = Some false → path_match (scan_ext f st ext) = Some false.
Proof.
  intros Hpm. unfold scan_ext.
  repeat (case_match; simpl; try done).
Qed.

Lemma resolve_from_sticky st paths :
  path_match st = Some false → path_match (resolve_from st paths) = Some false.
Proof.
  unfold resolve_from. revert st.
  induction paths as [|f paths IH]; intros st Hpm; simpl; [done |].
  apply IH. unfold scan_path. generalize (Py.keys (target_files st)).
  intros ks. revert st Hpm.
  induction ks as [|k ks IHk]; intros st Hpm; simpl; [done |].
  by apply IHk, scan_ext_sticky.
Qed.

Example scattered_set_flagged : path_match (resolve scattered_paths) = Some false.
Proof. reflexivity. Qed.

(** No path, and a single role, leave the flag at [None]. *)
Example empty_and_single_sets :
  path_match (resolve []) = None ∧ path_match (resolve ["/data/cap/x_raw"]) = None.
Proof. split; reflexivity. Qed.

(** ** The slots of [target_files] *)

Lemma scan_ext_keys f st ext :
  ext ∈ Py.keys (target_files st) →
  "_metadata.json" ∈ Py.keys (target_files st) →
  Py.keys (target_files (scan_ext f st ext)) = Py.keys (target_files st).
Proof.
  intros Hext Hmd. unfold scan_ext.
  repeat (case_match; simpl; try done); by apply keys_set.
Qed.

Lemma scan_exts_keys f ks st :
  ks ⊆ Py.keys (target_files st) →
  "_metadata.json" ∈ Py.keys (target_files st) →
  Py.keys (target_files (fold_left (scan_ext f) ks st)) = Py.keys (target_files st).
Proof.
  revert st. induction ks as [|k ks IH]; intros st Hsub Hmd; simpl; [done |].
  assert (k ∈ Py.keys (target_files st)) as Hin
    by (apply Hsub, elem_of_cons; by left).
  assert (ks ⊆ Py.keys (target_files st)) as Hsub'
    by (intros x Hx; apply Hsub, elem_of_cons; by right).
  assert (Py.keys (target_files (scan_ext f st k)) = Py.keys (target_files st)) as Hk
    by (by apply scan_ext_keys).
  rewrite IH; by rewrite Hk.
Qed.

(** The scan assigns to existing keys only: the six roles stay the keys
    of [target_files]. *)
Lemma resolve_keys paths : Py.keys (target_files (resolve paths)) = local_exts.
Proof.
  unfold resolve, resolve_from.
  assert (Py.keys (target_files scan_init) = local_exts) as H0 by done.
  revert H0. generalize scan_init.
  induction paths as [|f paths IH]; intros st Hst; simpl; [done |].
  apply IH. unfold scan_path. rewrite scan_exts_keys; rewrite ?Hst; set_solver.
Qed.

Lemma get_Some_keys {V} (d : Py.dict V) (k : string) (v : V) :
  Py.get d k = Some v → k ∈ Py.keys d.
Proof.
  induction d as [|[k0 v0] d IH]; simpl; [done |].
  destruct (String.eqb k0 k) eqn:E.
  - apply String.eqb_eq in E. subst k0. set_solver.
  - intros Hd. apply IH in Hd. apply elem_of_cons. by right.
Qed.

(** ** Suffixes *)

Lemma endswith_app (s suf : string) :
  Py.endswith s suf = true ↔ ∃ pre, s = pre +:+ suf.
Proof.
  induction s as [|c s IH].
  - destruct suf as [|c suf]; simpl.
    + split; [intros _; by exists EmptyString | done].
    + split; [done |]. intros ([|c' pre] & Hpre); simpl in Hpre; discriminate.
  - change (Py.endswith (String c s) suf)
      with (if String.eqb (String c s) suf then true else Py.endswith s suf).
    destruct (String.eqb (String c s) suf) eqn:E.
    + apply String.eqb_eq in E. subst suf.
      split; [intros _; by exists EmptyString | done].
    + apply String.eqb_neq in E. rewrite IH. split.
      * intros (pre & ->). by exists (String c pre).
      * intros ([|c' pre] & Hpre); simpl in Hpre; [by subst |].
        injection Hpre as -> ->. by exists pre.
Qed.

(** Two suffixes of one string: one of them ends the other. *)
Lemma suffixes_comparable (p1 p2 k1 k2 : string) :
  p1 +:+ k1 = p2 +:+ k2 → Py.endswith k1 k2 = true ∨ Py.endswith k2 k1 = true.
Proof.
  revert p2. induction p1 as [|c p1 IH]; intros p2 Heq; simpl in Heq.
  - left. apply endswith_app. by exists p2.
  - destruct p2 as [|c' p2]; simpl in Heq.
    + right. apply endswith_app. by exists (String c p1).
    + injection Heq as _ Heq. by apply IH in Heq.
Qed.

(** A path ends with at most one of the six suffixes: the scan files
    it under at most one role. *)
Lemma at_most_one_role (f k1 k2 : string) :
  k1 ∈ local_exts → k2 ∈ local_exts →
  Py.endswith f k1 = true → Py.endswith f k2 = true → k1 = k2.
Proof.
  intros H1 H2 (p1 & ->)%endswith_app (p2 & Heq)%endswith_app.
  apply suffixes_comparable in Heq.
  unfold local_exts in H1, H2.
  repeat (apply elem_of_cons in H1 as [->|H1]);
    [| | | | | |by apply elem_of_nil in H1];
    (repeat (apply elem_of_cons in H2 as [->|H2]);
     [| | | | | |by apply elem_of_nil in H2]);
    try done; by destruct Heq as [Heq|Heq]; vm_compute in Heq.
Qed.

Lemma append_assoc (p q r : string) : p +:+ q +:+ r = (p +:+ q) +:+ r.
Proof.
  induction p as [|x p IH]; [done |].
  change (String x (p +:+ q +:+ r) = String x ((p +:+ q) +:+ r)). by rewrite IH.
Qed.

Lemma endswith_trans (a b c : string) :
  Py.endswith a b = true → Py.endswith b c = true → Py.endswith a c = true.
Proof.
  intros (p & ->)%endswith_app (q & ->)%endswith_app.
  apply endswith_app. exists (p +:+ q). apply append_assoc.
Qed.

(** [p[:i]] is empty or ends with the slash at [i - 1], and
    [p = p[:i] + p[i:]]. *)
Lemma split_last_slash_spec (p : string) :
  p = (Py.split_last_slash p).1 +:+ (Py.split_last_slash p).2
  ∧ ((Py.split_last_slash p).1 = EmptyString
     ∨ Py.endswith (Py.split_last_slash p).1 "/" = true).
Proof.
  induction p as [|c p [IHeq IHhead]]; [by split; [|left] |].
  cbn [Py.split_last_slash].
  destruct (Py.split_last_slash p) as [h t]. cbn [fst snd] in *.
  destruct (String.eqb h EmptyString) eqn:Eh; cbn [negb].
  - apply String.eqb_eq in Eh. subst h.
    change (p = t) in IHeq. subst t.
    destruct (Ascii.eqb c "/") eqn:Ec; cbn [fst snd].
    + apply Ascii.eqb_eq in Ec. subst c. split; [done | by right].
    + split; [done | by left].
  - cbn [fst snd]. split.
    + change (String c p = String c (h +:+ t)). by rewrite <- IHeq.
    + right. destruct IHhead as [->|Hends]; [done |].
      apply endswith_app in Hends as (pre & ->).
      apply endswith_app. by exists (String c pre).
Qed.

(** A slot filled by the scan: the file name is the base name of the
    path, and the path is not a dataset-level metadata file. *)
Lemma scan_ext_slots f st ext :
  ext ∈ local_exts →
  (∀ k rec, Py.get (target_files st) k = Some (Some rec) → slot_ok rec) →
  ∀ k rec, Py.get (target_files (scan_ext f st ext)) k = Some (Some rec) → slot_ok rec.
Proof.
  intros Hext Hinv k rec. unfold scan_ext.
  destruct (Py.endswith f ext) eqn:Hends; [|by apply Hinv].
  destruct (String.eqb ext "_metadata.json") eqn:Emd; simpl.
  - destruct (Py.endswith f "/_dataset_metadata.json") eqn:Eds; [by apply Hinv |].
    destruct (Py.endswith f "/_metadata.json"); simpl; [by apply Hinv |].
    destruct (decide ("_metadata.json" = k)) as [<-|Hne].
    + rewrite get_set_eq. by intros [= <-].
    + rewrite get_set_ne by done. by apply Hinv.
  - destruct (decide (ext = k)) as [<-|Hne].
    + rewrite get_set_eq. intros [= <-]. split; [done |]. simpl.
      apply not_true_is_false. intros Hds.
      apply String.eqb_neq in Emd. apply Emd.
      apply (at_most_one_role f); [done | | done |].
      * unfold local_exts. rewrite !elem_of_cons. auto 10.
      * by apply (endswith_trans _ _ _ Hds).
    + rewrite get_set_ne by done. by apply Hinv.
Qed.

Lemma resolve_slots paths k rec :
  Py.get (target_files (resolve paths)) k = Some (Some rec) → slot_ok rec.
Proof.
  unfold resolve, resolve_from.
  assert (Py.keys (target_files scan_init) = local_exts
          ∧ ∀ k rec, Py.get (target_files scan_init) k = Some (Some rec) → slot_ok rec)
    as H0.
  { split; [done |]. intros k' rec'. unfold scan_init.
    cbn [target_files]. rewrite get_all_none. by case_bool_decide. }
  revert H0 k rec. generalize scan_init.
  induction paths as [|f paths IH]; intros st [Hkeys Hinv]; simpl; [done |].
  apply IH. split.
  - unfold scan_path. rewrite scan_exts_keys; rewrite ?Hkeys; [done | done |].
    unfold local_exts. rewrite !elem_of_cons. auto 10.
  - unfold scan_path. rewrite Hkeys.
    assert (local_exts ⊆ local_exts) as Hsub by done.
    revert Hsub Hinv. generalize local_exts at 1 3. intros ks. revert st Hkeys.
    induction ks as [|k0 ks IHk]; intros st Hkeys Hsub Hinv; simpl; [done |].
    apply IHk.
    + rewrite scan_ext_keys; rewrite ?Hkeys; [done | |].
      * apply Hsub, elem_of_cons. by left.
      * unfold local_exts. rewrite !elem_of_cons. auto 10.
    + intros x Hx. apply Hsub, elem_of_cons. by right.
    + apply scan_ext_slots; [|done]. apply Hsub, elem_of_cons. by left.
Qed.

(** The branch of the staging loop that rewrites the dataset-level
    metadata (lines 132-139) asks for a slot whose file name is
    [_dataset_metadata.json].  The scan only produces such a slot for
    the bare relative path [_dataset_metadata.json]: a dataset-level
    file given with its directory is kept out of [target_files]. *)
Lemma transform_branch_needs_bare_name paths k rec :
  Py.get (target_files (resolve paths)) k = Some (Some rec) →
  filename rec = "_dataset_metadata.json" →
  path rec = "_dataset_metadata.json".
Proof.
  intros [Hname Hds]%resolve_slots Hfile.
  unfold Py.basename in Hname.
  destruct (split_last_slash_spec (path rec)) as [Heq [Hhead|Hhead]].
  - rewrite Hhead in Heq.
    change (path rec = (Py.split_last_slash (path rec)).2) in Heq. congruence.
  - apply endswith_app in Hhead as (pre & Hpre).
    rewrite Hpre, <- Hname, Hfile in Heq.
    assert (Py.endswith (path rec) "/_dataset_metadata.json" = true) as Hends.
    { apply endswith_app. exists pre. rewrite Heq. symmetry.
      apply (append_assoc pre "/" "_dataset_metadata.json"). }
    by rewrite Hends in Hds.
Qed.

(** ** What the staging branch builds *)

(** What one round of the staging loop leaves when it returns: one more
    recorded link, which exists; the links and directories that were
    there are kept. *)
Lemma stage_one_Ok `{collab : Collaborators}
    (tf : Py.dict (option FileRec)) (tmp : string) (acc acc' : list string)
    (f : string) (w w' : World) :
  stage_one tf tmp acc f w = (Ok acc', w') →
  ∃ newf, acc' = (acc ++ [newf])%list
          ∧ is_Some (fs_links w' !! newf)
          ∧ (∀ p, is_Some (fs_links w !! p) → is_Some (fs_links w' !! p))
          ∧ fs_dirs w' = fs_dirs w.
Proof.
  unfold stage_one. intros Hrun.
  apply mbind_Ok in Hrun as (slot & w1 & Hslot & Hrun).
  apply mbind_Ok in Hrun as (currf & w2 & Hcurrf & Hrun).
  apply mbind_Ok in Hrun as (newf & w3 & Hnewf & Hrun).
  apply mbind_Ok in Hrun as ([] & w4 & Hlink & Hrun).
  injection Hrun as <- <-. exists newf. split; [done |].
  apply lookup_key_Ok in Hslot as [_ ->].
  apply subscript_Ok in Hcurrf as [_ ->].
  assert (fs_links w3 = fs_links w ∧ fs_dirs w3 = fs_dirs w) as [Hl3 Hd3].
  { destruct (String.eqb (filename currf) "_dataset_metadata.json").
    - apply mbind_Ok in Hnewf as (j & wa & ->%json_load_file_Ok & Hnewf).
      apply mbind_Ok in Hnewf as ([] & wb & Hwrite & Hnewf).
      apply mbind_Ok in Hnewf as (rs & wc & [_ ->]%lookup_key_Ok & Hnewf).
      apply mbind_Ok in Hnewf as (raw & wd & [_ ->]%subscript_Ok & Hnewf).
      injection Hnewf as _ <-. unfold write_file in Hwrite.
      by injection Hwrite as <-.
    - by injection Hnewf as _ <-. }
  unfold os_symlink in Hlink. destruct (lexists w3 newf); [done |].
  injection Hlink as <-. simpl. split; [|split; [|done]].
  - rewrite lookup_insert_eq. by eexists.
  - intros p Hp. rewrite <- Hl3 in Hp.
    destruct (decide (newf = p)) as [->|Hne].
    + rewrite lookup_insert_eq. by eexists.
    + by rewrite lookup_insert_ne.
Qed.

Lemma staging_loop_Ok `{collab : Collaborators}
    (tf : Py.dict (option FileRec)) (tmp : string) (ks : list string)
    (acc acc' : list string) (w w' : World) :
  for_each ks (stage_one tf tmp) acc w = (Ok acc', w') →
  (∀ p, p ∈ acc → is_Some (fs_links w !! p)) →
  (∀ p, p ∈ acc' → is_Some (fs_links w' !! p))
  ∧ length acc' = (length acc + length ks)%nat
  ∧ fs_dirs w' = fs_dirs w.
Proof.
  revert acc w. induction ks as [|k ks IH]; intros acc w; simpl.
  - intros [= <- <-] Hacc. split; [done |]. split; [lia | done].
  - intros Hrun Hacc.
    apply mbind_Ok in Hrun as (acc1 & w1 & Hone & Hrun).
    apply stage_one_Ok in Hone as (newf & -> & Hnew & Hkeep & Hdirs).
    apply IH in Hrun as (Hall & Hlen & Hdirs').
    + split; [done |]. split; [|congruence].
      rewrite Hlen, length_app. simpl. lia.
    + intros p [Hp|Hp%list_elem_of_singleton]%elem_of_app; [|by subst].
      by apply Hkeep, Hacc.
Qed.

(** A staging branch that returns has made its directory and one link
    for each key of [target_files]. *)
Lemma build_staging_Ok `{collab : Collaborators} (st : Scan) (sg : Staging)
    (w w' : World) :
  not_path_match (path_match st) = true →
  build_staging st w = (Ok sg, w') →
  tempdir sg = Some (mkdtemp_name w)
  ∧ mkdtemp_name w ∈ fs_dirs w'
  ∧ length (symlinks sg) = length (Py.keys (target_files st))
  ∧ ∀ p, p ∈ symlinks sg → is_Some (fs_links w' !! p).
Proof.
  intros Hguard. unfold build_staging. rewrite Hguard. intros Hrun.
  apply mbind_Ok in Hrun as (tmp & w1 & Htmp & Hrun).
  apply mbind_Ok in Hrun as (links & w2 & Hloop & Hrun).
  injection Hrun as <- <-. simpl.
  unfold tempfile_mkdtemp in Htmp. injection Htmp as <- <-.
  apply staging_loop_Ok in Hloop as (Hall & Hlen & Hdirs);
    [|intros p Hp; by apply elem_of_nil in Hp].
  split; [done |]. split; [|split; [|done]].
  - rewrite Hdirs. simpl. apply elem_of_union_r, elem_of_singleton. done.
  - by rewrite Hlen.
Qed.

(** C1.  What the code does with a co-located capture.  For every list
    of local paths the flag [path_match] is never [True] after the
    scan (it is [None] or [False]), so the guard [not path_match] holds
    and the staging branch is entered: whenever that branch returns, a
    temporary directory has been made and holds one link per role.  For
    the six files of [/data/cap] the flag is [None], the directory is
    made and the six links are created in it. *)
Theorem colocated_set_is_staged :
  (∀ paths, path_match (resolve paths) ≠ Some true
            ∧ not_path_match (path_match (resolve paths)) = true)
  ∧ (∀ (X : Collaborators) paths w sg w',
       @build_staging X (resolve paths) w = (Ok sg, w') →
       tempdir sg = Some (mkdtemp_name w)
       ∧ mkdtemp_name w ∈ fs_dirs w'
       ∧ length (symlinks sg) = 6
       ∧ ∀ p, p ∈ symlinks sg → is_Some (fs_links w' !! p))
  ∧ path_match (resolve colocated_paths) = None
  ∧ let run := @build_staging (scripted 0 []) (resolve colocated_paths)
                 (world_with colocated_paths) in
    fst run = Ok {| tempdir := Some "/tmp/tmpK3x9";
                    symlinks := ["/tmp/tmpK3x9/x_raw"; "/tmp/tmpK3x9/x_raw.hdr";
                                 "/tmp/tmpK3x9/x_image.jpg";
                                 "/tmp/tmpK3x9/x_frameIndex.txt";
                                 "/tmp/tmpK3x9/x_settings.txt";
                                 "/tmp/tmpK3x9/x_metadata.json"] |}
    ∧ "/tmp/tmpK3x9" ∈ fs_dirs (snd run)
    ∧ Forall (fun f => fs_links (snd run) !! Py.join "/tmp/tmpK3x9" (Py.basename f)
                       = Some f) colocated_paths.
Proof.
  assert (∀ paths, path_match (resolve paths) ≠ Some true) as Hnever
    by (intros paths; by apply resolve_from_path_match).
  split; [|split; [|split; [reflexivity |]]].
  - intros paths. split; [done | by apply not_path_match_true].
  - intros X paths w sg w' Hrun.
    apply build_staging_Ok in Hrun as (Htmp & Hdir & Hlen & Hlinks);
      [|by apply not_path_match_true].
    split; [done |]. split; [done |]. split; [|done].
    by rewrite Hlen, resolve_keys.
  - split; [by vm_compute |]. split.
    + apply (bool_decide_unpack _). by vm_compute.
    + repeat constructor; by vm_compute.
Qed.

(** ** The staging loop on an incomplete file set *)

(** Reading [currf['filename']] of a slot that is [None] raises
    [TypeError] before anything is linked. *)
Lemma stage_one_unresolved `{collab : Collaborators}
    (tf : Py.dict (option FileRec)) (tmp : string) (acc : list string)
    (k : string) (w : World) :
  Py.get tf k = Some None → stage_one tf tmp acc k w = (Raise TypeError, w).
Proof.
  intros Hk. unfold stage_one, mbind, M_bind, lookup_key. by rewrite Hk.
Qed.

Lemma staging_loop_raises `{collab : Collaborators}
    (tf : Py.dict (option FileRec)) (tmp : string) (ks : list string)
    (k : string) (acc : list string) (w : World) :
  k ∈ ks → Py.get tf k = Some None →
  ∃ e w', for_each ks (stage_one tf tmp) acc w = (Raise e, w').
Proof.
  intros Hin Hk. revert acc w.
  induction ks as [|k0 ks IH]; intros acc w; [by apply elem_of_nil in Hin |].
  simpl. unfold mbind at 1, M_bind at 1.
  destruct (stage_one tf tmp acc k0 w) as [[acc'|e] w1] eqn:Hone.
  - apply elem_of_cons in Hin as [->|Hin]; [|by apply IH].
    by rewrite stage_one_unresolved in Hone.
  - by exists e, w1.
Qed.

(** C10.  The staging branch needs every role resolved.  When the
    branch is entered with a role [k] whose slot is [None], the loop
    body for [k] raises [TypeError] at [currf['filename']] (the role is
    not skipped), and the branch as a whole ends in an exception. *)
Theorem staging_needs_complete_set `{collab : Collaborators}
    (st : Scan) (w : World) (k : string) :
  not_path_match (path_match st) = true →
  Py.get (target_files st) k = Some None →
  (∀ tmp acc w', stage_one (target_files st) tmp acc k w' = (Raise TypeError, w'))
  ∧ ∃ e w', build_staging st w = (Raise e, w').
Proof.
  intros Hguard Hk. split.
  - intros tmp acc w'. by apply stage_one_unresolved.
  - unfold build_staging. rewrite Hguard.
    unfold mbind at 1, M_bind at 1. simpl.
    unfold mbind at 1, M_bind at 1.
    destruct (staging_loop_raises (target_files st) (mkdtemp_name w)
                (Py.keys (target_files st)) k []
                {| fs_files := fs_files w; fs_links := fs_links w;
                   fs_dirs := fs_dirs w ∪ {[mkdtemp_name w]}; events := events w;
                   created := created w; bytes := bytes w |})
      as (e & w' & Hloop); [by eapply get_Some_keys | done |].
    rewrite Hloop. by exists e, w'.
Qed.

Lemma staging_needs_complete_set_witness :
  let run := @build_staging (scripted 0 []) (resolve incomplete_paths)
               (world_with incomplete_paths) in
  Py.get (target_files (resolve incomplete_paths)) "settings.txt" = Some None
  ∧ fst run = Raise TypeError
  ∧ ∃ e w', run = (Raise e, w').
Proof.
  split; [reflexivity |]. split; [by vm_compute |].
  apply (@staging_needs_complete_set (scripted 0 []) (resolve incomplete_paths)
           (world_with incomplete_paths) "settings.txt"); reflexivity.
Defined.

(** ** Metadata that comes with the dataset only *)

(** C5.  What the code does when the local paths hold the dataset-level
    metadata ([.../_dataset_metadata.json]) and no capture-level
    metadata file: [process_message] raises before any file is written
    or linked.  With the raw file unresolved the subscript
    [target_files['raw']['path']] raises [TypeError]; otherwise the call
    [os.path.listdir] raises [AttributeError].  Neither the transform
    nor the scan of the raw file's directory takes place. *)
Theorem dataset_metadata_only_raises `{collab : Collaborators}
    (resource : Resource) (w : World) (p : string) :
  metafile (resolve (local_paths resource)) = None →
  ds_metafile (resolve (local_paths resource)) = Some p →
  ∃ e w', process_message resource w = (Raise e, w')
          ∧ (e = TypeError ∨ e = AttributeError)
          ∧ fs_files w' = fs_files w
          ∧ fs_links w' = fs_links w
          ∧ fs_dirs w' = fs_dirs w.
Proof.
  intros Hmeta Hds.
  assert (is_Some (Py.get (target_files (resolve (local_paths resource))) "raw"))
    as [slot Hslot].
  { apply get_is_Some. rewrite resolve_keys. set_solver. }
  unfold process_message. unfold mbind at 1, M_bind at 1. simpl.
  unfold mbind at 1, M_bind at 1.
  unfold locate_metadata. rewrite Hmeta, Hds.
  unfold mbind at 2, M_bind at 2. simpl.
  unfold mbind at 2, M_bind at 2, lookup_key. rewrite Hslot. simpl.
  destruct slot as [raw|]; simpl.
  - eexists _, _. split; [done |]. split; [by right |]. done.
  - eexists _, _. split; [done |]. split; [by left |]. done.
Qed.

Lemma dataset_metadata_only_raises_witness :
  let run := @process_message (scripted 0 [(out_path, "nc"); (ind_path, "indices")])
               (resource_of dataset_md_paths) (world_with dataset_md_paths) in
  fst run = Raise AttributeError
  ∧ fs_files (snd run) !! "/data/cap/_dataset_metadata.json" = Some "{}"
  ∧ ∃ e w', run = (Raise e, w') ∧ (e = TypeError ∨ e = AttributeError)
            ∧ fs_files w' = fs_files (world_with dataset_md_paths)
            ∧ fs_links w' = fs_links (world_with dataset_md_paths)
            ∧ fs_dirs w' = fs_dirs (world_with dataset_md_paths).
Proof.
  split; [by vm_compute |]. split; [by vm_compute |].
  apply (@dataset_metadata_only_raises
           (scripted 0 [(out_path, "nc"); (ind_path, "indices")])
           (resource_of dataset_md_paths) (world_with dataset_md_paths)
           "/data/cap/_dataset_metadata.json"); reflexivity.
Defined.

(** ** Cleanup of the staging area *)

Lemma for_each_remove_spec (l : list string) (w w' : World) :
  for_each l (fun _ sym => os_remove sym) tt w = (Ok tt, w') →
  (∀ p, p ∈ l → fs_files w' !! p = None ∧ fs_links w' !! p = None)
  ∧ (∀ p, fs_files w !! p = None → fs_files w' !! p = None)
  ∧ (∀ p, fs_links w !! p = None → fs_links w' !! p = None)
  ∧ fs_dirs w' = fs_dirs w ∧ events w' = events w.
Proof.
  revert w. induction l as [|a l IH]; intros w; simpl.
  - intros [= <-]. split; [|done]. intros p Hp. by apply elem_of_nil in Hp.
  - unfold mbind, M_bind, os_remove.
    destruct (bool_decide _ || bool_decide _); [|done].
    intros (Hgone & Hfiles & Hlinks & Hdirs & Hev)%IH. simpl in *.
    split; [|split; [|split]]; [| | |done].
    + intros p [->|Hp]%elem_of_cons; [|by apply Hgone].
      split; [apply Hfiles | apply Hlinks]; apply lookup_delete_eq.
    + intros p Hp. apply Hfiles. by rewrite lookup_delete_None; right.
    + intros p Hp. apply Hlinks. by rewrite lookup_delete_None; right.
Qed.

(** When [cleanup] returns, every recorded link is gone and so is the
    temporary directory. *)
Lemma cleanup_removes_all (sg : Staging) (w w' : World) :
  cleanup sg w = (Ok tt, w') →
  (∀ p, p ∈ symlinks sg → fs_files w' !! p = None ∧ fs_links w' !! p = None)
  ∧ (∀ d, tempdir sg = Some d → Py.truthy d = true → d ∉ fs_dirs w').
Proof.
  unfold cleanup, mbind, M_bind.
  destruct (for_each _ _ _ w) as [[[]|e] w1] eqn:Hrm; [|done].
  apply for_each_remove_spec in Hrm as (Hgone & _ & _ & Hdirs & _).
  destruct (tempdir sg) as [d|].
  - destruct (Py.truthy d) eqn:Hd.
    + unfold os_rmdir. destruct (bool_decide _ && bool_decide _); [|done].
      intros [= <-]. simpl. split; [done |].
      intros d' [= <-] _. rewrite elem_of_difference, elem_of_singleton.
      by intros [_ ?].
    + intros [= <-]. split; [done |]. intros d' [= <-]. by rewrite Hd.
  - intros [= <-]. split; [done |]. done.
Qed.

(** Every run of [process_message] that returns has removed the links
    it recorded and the directory it made. *)
Lemma returning_run_is_cleaned `{collab : Collaborators}
    (resource : Resource) (w w' : World) :
  process_message resource w = (Ok tt, w') →
  ∃ st sg w1 w2,
    build_staging st w1 = (Ok sg, w2)
    ∧ (∀ p, p ∈ symlinks sg → fs_files w' !! p = None ∧ fs_links w' !! p = None)
    ∧ (∀ d, tempdir sg = Some d → Py.truthy d = true → d ∉ fs_dirs w').
Proof.
  unfold process_message, mbind, M_bind. simpl.
  run_step w1 E1. run_step w2 E2. run_step w3 E3. run_step w4 E4.
  run_step w5 E5. run_step w6 E6.
  intros [= <-]. simpl.
  exists r, r0, w1, w2. split; [done |].
  match goal with
  | Hc : cleanup _ _ = (Ok ?u, _) |- _ =>
      destruct u; by apply cleanup_removes_all in Hc
  end.
Qed.

(** The run that goes well: with status 0, an output file and an index
    file, the links and the directory of the staging area are gone at
    the end. *)
Example successful_run_is_cleaned :
  let run := @process_message (scripted 0 [(out_path, "nc"); (ind_path, "indices")])
               (resource_of colocated_paths) (world_with colocated_paths) in
  fst run = Ok tt
  ∧ fs_links (snd run) = ∅
  ∧ "/tmp/tmpK3x9" ∉ fs_dirs (snd run).
Proof.
  split; [by vm_compute |]. split; [by vm_compute |].
  apply (bool_decide_unpack _). by vm_compute.
Qed.

(** C2.  A failure after the staging area has been made.  When the
    workflow step raises (as it does on a non-zero status, line 171),
    [process_message] ends with that exception in the world the step
    left: the lines that remove the links and the directory are never
    reached.  For a script that exits with status 1 on the capture of
    [/data/cap], the temporary directory and the six links are still
    there after the run. *)
Theorem failed_conversion_leaves_staging :
  (∀ (X : Collaborators) resource w w1 w2 w3 st sg e,
     locate_metadata resource (resolve (local_paths resource))
       (snd (emit StartMessage w)) = (Ok st, w1) →
     @build_staging X st w1 = (Ok sg, w2) →
     @invoke_workflow X resource st w2 = (Raise e, w3) →
     @process_message X resource w = (Raise e, w3))
  ∧ let run := @process_message (scripted 1 [])
                 (resource_of colocated_paths) (world_with colocated_paths) in
    fst run = Raise (ValueError "script encountered an error")
    ∧ "/tmp/tmpK3x9" ∈ fs_dirs (snd run)
    ∧ Forall (fun f => fs_links (snd run) !! Py.join "/tmp/tmpK3x9" (Py.basename f)
                       = Some f) colocated_paths.
Proof.
  split.
  - intros X resource w w1 w2 w3 st sg e Hmd Hsg Hrun.
    unfold process_message.
    unfold mbind at 1, M_bind at 1. simpl.
    unfold mbind at 1, M_bind at 1. simpl in Hmd. rewrite Hmd.
    unfold mbind at 1, M_bind at 1. rewrite Hsg.
    unfold mbind at 1, M_bind at 1. by rewrite Hrun.
  - split; [by vm_compute |]. split.
    + apply (bool_decide_unpack _). by vm_compute.
    + repeat constructor; by vm_compute.
Qed.

(** ** Verification of the output file *)

Lemma getsize_of_existing `{collab : Collaborators} (w : World) (p : string) :
  os_path_exists w p = true → ∃ n, getsize p w = (Ok n, w).
Proof.
  unfold os_path_exists, getsize. intros Hex.
  destruct (fs_files w !! p) as [txt|] eqn:Hf; [by eexists |].
  rewrite bool_decide_eq_false_2 in Hex by (by intros [? ?]). simpl in Hex.
  destruct (bool_decide (p ∈ fs_dirs w)); [by eexists |]. simpl in Hex.
  destruct (fs_links w !! p) as [t|]; [|done].
  destruct (fs_files w !! t) as [txt|] eqn:Ht; [by eexists |].
  rewrite bool_decide_eq_false_2 in Hex by (by intros [? ?]). simpl in Hex.
  rewrite Hex. by eexists.
Qed.

Lemma invoke_workflow_status `{collab : Collaborators}
    (resource : Resource) (st : Scan) (conv : Conversion) (w w' : World) :
  invoke_workflow resource st w = (Ok conv, w') → returncode conv = 0%Z.
Proof.
  unfold invoke_workflow. intros Hrun.
  apply mbind_Ok in Hrun as (ts & w1 & _ & Hrun).
  destruct (Py.find _ _ >? -1)%Z.
  all: apply mbind_Ok in Hrun as ([] & w2 & _ & Hrun).
  all: apply mbind_Ok in Hrun as (raw_slot & w3 & _ & Hrun).
  all: apply mbind_Ok in Hrun as (raw & w4 & _ & Hrun).
  all: apply mbind_Ok in Hrun as (rc & w5 & _ & Hrun).
  all: apply mbind_Ok in Hrun as ([] & w6 & _ & Hrun).
  all: destruct (rc =? 0)%Z eqn:Hrc; simpl in Hrun; [|done].
  all: injection Hrun as <- _; simpl; by apply Z.eqb_eq.
Qed.

(** C3, counterexample.  The workflow script exits with status 0 and
    writes no output file: the extractor logs an error and goes on, the
    trait row is submitted and the run ends normally.  When the script
    leaves an empty output file, that file is uploaded and counted. *)
Lemma missing_output_is_not_fatal :
  (let run := @process_message (scripted 0 [(ind_path, "indices")])
                (resource_of colocated_paths) (world_with colocated_paths) in
   os_path_exists (snd run) out_path = false
   ∧ fst run = Ok tt
   ∧ events (snd run)
     = [StartMessage;
        LogInfo ("invoking hyperspectral_workflow.sh to create: " +:+ out_path);
        LogInfo "done creating output file (0)";
        LogError "no output file was produced";
        SubmitTraits "traits.csv" "key";
        EndMessage])
  ∧ (let run := @process_message (scripted 0 [(out_path, EmptyString); (ind_path, "indices")])
                  (resource_of colocated_paths) (world_with colocated_paths) in
     fs_files (snd run) !! out_path = Some EmptyString
     ∧ fst run = Ok tt
     ∧ Upload "ds:vnir_netcdf - 2017-04-15__11-30-00-000" out_path ∈ events (snd run)
     ∧ created (snd run) = 1
     ∧ bytes (snd run) = 0).
Proof.
  split.
  - split; [by vm_compute |]. split; by vm_compute.
  - split; [by vm_compute |]. split; [by vm_compute |].
    split; [|split; by vm_compute].
    apply (bool_decide_unpack _). by vm_compute.
Qed.

(** C3, as the code has it.  Once the workflow has returned (the status
    is then 0), the output is checked for existence only.  When the
    path does not exist, the error is logged and [process_message]
    carries on with the index file, the trait row and the cleanup from
    the world that differs by that log entry alone: nothing is uploaded
    and nothing is counted.  When the path exists, whatever its size,
    the check returns normally, the capture is counted as created, and
    the file is uploaded unless it is one of the local paths. *)
Theorem output_checked_by_existence_only `{collab : Collaborators}
    (resource : Resource) (w w1 w2 w3 : World)
    (st : Scan) (sg : Staging) (conv : Conversion) :
  locate_metadata resource (resolve (local_paths resource))
    (snd (emit StartMessage w)) = (Ok st, w1) →
  build_staging st w1 = (Ok sg, w2) →
  invoke_workflow resource st w2 = (Ok conv, w3) →
  returncode conv = 0%Z
  ∧ (os_path_exists w3 (outFilePath conv) = false →
     verify_output resource conv w3
       = (Ok tt, snd (log_error "no output file was produced" w3))
     ∧ process_message resource w
       = (send_indices conv;; cleanup sg;; emit EndMessage)
           (snd (log_error "no output file was produced" w3)))
  ∧ (os_path_exists w3 (outFilePath conv) = true →
     ∃ w4, verify_output resource conv w3 = (Ok tt, w4)
           ∧ created w4 = created w3 + 1
           ∧ (outFilePath conv ∉ local_paths resource →
              ∃ dsid, Upload dsid (outFilePath conv) ∈ events w4)).
Proof.
  intros Hmd Hsg Hrun.
  pose proof (invoke_workflow_status _ _ _ _ _ Hrun) as Hrc.
  split; [done |]. split.
  - intros Hmissing.
    assert (verify_output resource conv w3
            = (Ok tt, snd (log_error "no output file was produced" w3))) as Hv.
    { unfold verify_output, mbind, M_bind, path_exists. by rewrite Hmissing. }
    split; [done |].
    unfold process_message.
    unfold mbind at 1, M_bind at 1. simpl.
    unfold mbind at 1, M_bind at 1. simpl in Hmd. rewrite Hmd.
    unfold mbind at 1, M_bind at 1. rewrite Hsg.
    unfold mbind at 1, M_bind at 1. rewrite Hrun.
    unfold mbind at 1, M_bind at 1. by rewrite Hv.
  - intros Hex.
    unfold verify_output, mbind, M_bind, path_exists. rewrite Hex, Hrc. simpl.
    unfold upload_output.
    destruct (decide (outFilePath conv ∈ local_paths resource)) as [Hin|Hout].
    + rewrite bool_decide_eq_true_2 by done. simpl.
      destruct (getsize_of_existing w3 (outFilePath conv) Hex) as [n Hn].
      unfold getsize in *. simpl.
      destruct (fs_files w3 !! outFilePath conv); simpl.
      * eexists. split; [done |]. split; [done | by intros ?].
      * repeat case_match; simplify_eq; simpl.
        all: eexists; split; [done |]; split; [done | by intros ?].
    + rewrite bool_decide_eq_false_2 by done. simpl.
      destruct (getsize_of_existing w3 (outFilePath conv) Hex) as [n Hn].
      unfold getsize in *. simpl.
      assert (∀ l, Upload (build_dataset_hierarchy
                (get_display_name (sensor_fullname conv))
                (Py.slice (timestamp conv) 0 4) (Py.slice (timestamp conv) 5 7)
                (Py.slice (timestamp conv) 8 10)
                (get_display_name (sensor_fullname conv) +:+ " - " +:+ timestamp conv))
                (outFilePath conv)
              ∈ ((l ++ [LogInfo ("uploading " +:+ outFilePath conv)]) ++
                 [Upload (build_dataset_hierarchy
                    (get_display_name (sensor_fullname conv))
                    (Py.slice (timestamp conv) 0 4) (Py.slice (timestamp conv) 5 7)
                    (Py.slice (timestamp conv) 8 10)
                    (get_display_name (sensor_fullname conv) +:+ " - " +:+ timestamp conv))
                    (outFilePath conv)])%list) as Hup by set_solver.
      destruct (fs_files w3 !! outFilePath conv); simpl.
      * eexists. split; [done |]. split; [done |]. intros _. eexists. apply Hup.
      * repeat case_match; simplify_eq; simpl.
        all: eexists; split; [done |]; split; [done |]; intros _; eexists; apply Hup.
Qed.

Lemma output_checked_by_existence_only_witness :
  let X := scripted 0 [(ind_path, "indices")] in
  let r := resource_of colocated_paths in
  let w := world_with colocated_paths in
  let st := resolve colocated_paths in
  let sg := {| tempdir := Some "/tmp/tmpK3x9";
               symlinks := map (fun f => Py.join "/tmp/tmpK3x9" (Py.basename f))
                               colocated_paths |} in
  let conv := {| timestamp := "2017-04-15__11-30-00-000";
                 sensor_fullname := "vnir_netcdf";
                 outFilePath := out_path; returncode := 0 |} in
  let w1 := snd (locate_metadata r st (snd (emit StartMessage w))) in
  let w2 := snd (@build_staging X st w1) in
  let w3 := snd (@invoke_workflow X r st w2) in
  os_path_exists w3 (outFilePath conv) = false
  ∧ @process_message X r w
    = (@send_indices X conv;; cleanup sg;; emit EndMessage)
        (snd (log_error "no output file was produced" w3)).
Proof.
  intros X r w st sg conv w1 w2 w3.
  assert (locate_metadata r (resolve (local_paths r)) (snd (emit StartMessage w))
          = (Ok st, w1)) as H1 by (vm_compute; reflexivity).
  assert (@build_staging X st w1 = (Ok sg, w2)) as H2 by (vm_compute; reflexivity).
  assert (@invoke_workflow X r st w2 = (Ok conv, w3)) as H3 by (vm_compute; reflexivity).
  assert (os_path_exists w3 (outFilePath conv) = false) as H4 by (vm_compute; reflexivity).
  split; [exact H4 |].
  exact (proj2 (proj1 (proj2
           (@output_checked_by_existence_only X r w w1 w2 w3 st sg conv H1 H2 H3)) H4)).
Defined.

(** ** The validator's checks *)

Lemma Qgt_bool_iff (x y : Q) : Qgt_bool x y = true ↔ (y < x)%Q.
Proof.
  unfold Qgt_bool. rewrite negb_true_iff. split.
  - intros Hle. apply Qnot_le_lt. intros Hxy.
    apply Qle_bool_iff in Hxy. by rewrite Hxy in Hle.
  - intros Hlt. apply not_true_is_false. intros Hle.
    apply Qle_bool_iff in Hle. by apply Qlt_not_le in Hlt.
Qed.

Lemma Qlt_bool_iff (x y : Q) : Qlt_bool x y = true ↔ (x < y)%Q.
Proof. apply Qgt_bool_iff. Qed.

Lemma assertTrue_Ok (b : bool) (msg : string) : assertTrue b msg = Ok tt ↔ b = true.
Proof. by destruct b. Qed.

Lemma assertFalse_Ok (b : bool) (msg : string) : assertFalse b msg = Ok tt ↔ b = false.
Proof. by destruct b. Qed.

Lemma any_gt_iff (graph : list Q) (bound : Q) :
  any_gt graph bound = true ↔ ∃ v, v ∈ graph ∧ (bound < v)%Q.
Proof.
  unfold any_gt. rewrite existsb_exists. split.
  - intros (v & Hv & Hgt). exists v. split; [by apply list_elem_of_In |].
    by apply Qgt_bool_iff.
  - intros (v & Hv & Hgt). exists v. split; [by apply list_elem_of_In |].
    by apply Qgt_bool_iff.
Qed.

Lemma any_lt_iff (graph : list Q) (bound : Q) :
  any_lt graph bound = true ↔ ∃ v, v ∈ graph ∧ (v < bound)%Q.
Proof.
  unfold any_lt. rewrite existsb_exists. split.
  - intros (v & Hv & Hlt). exists v. split; [by apply list_elem_of_In |].
    by apply Qlt_bool_iff.
  - intros (v & Hv & Hlt). exists v. split; [by apply list_elem_of_In |].
    by apply Qlt_bool_iff.
Qed.

(** Comparisons with a float operand. *)
Lemma Float_gt_Fin (x q : Q) : Float.gt x (Float.Fin q) = true ↔ (q < x)%Q.
Proof. apply Qgt_bool_iff. Qed.

Lemma Float_lt_Fin (x q : Q) : Float.lt x (Float.Fin q) = true ↔ (x < q)%Q.
Proof. apply Qlt_bool_iff. Qed.

(** The float literals of the module are the binary64 numbers nearest
    to the decimals of the source, and what they become as [float32]. *)
Lemma float_literals :
  Float.cast Float.f8 (6 # 10) = Float.Fin float_0_6
  ∧ Float.cast Float.f8 (3 # 10000000) = Float.Fin float_3e_7
  ∧ Float.cast Float.f8 (1 # 1000000) = Float.Fin float_1e_6
  ∧ Float.cast Float.f8 float_0_6 = Float.Fin float_0_6
  ∧ Float.cast Float.f8 float_3e_7 = Float.Fin float_3e_7
  ∧ Float.cast Float.f8 float_1e_6 = Float.Fin float_1e_6
  ∧ Float.cast Float.f4 float_0_6 = Float.Fin (5033165 # 8388608)
  ∧ Float.cast Float.f4 float_3e_7 = Float.Fin (659707 # 2199023255552)
  ∧ Float.cast Float.f4 float_1e_6 = Float.Fin (8796093 # 8796093022208).
Proof. repeat split; by vm_compute. Qed.

(** The two bounds as the range check compares them with a sample of
    type [t]: the binary64 numbers [3e-7] and [1e-6], or their
    conversions to [float32] where numpy converts a Python float to
    the type of a [float32] sample. *)
Lemma wavelength_operands (np : numpy_rule) (t : Float.dtype) :
  scalar_operand np t float_3e_7
  = Float.Fin (match np, t with
               | WeakScalars, Float.f4 => 659707 # 2199023255552
               | _, _ => 2833419889721787 # 9444732965739290427392
               end)
  ∧ scalar_operand np t float_1e_6
    = Float.Fin (match np, t with
                 | WeakScalars, Float.f4 => 8796093 # 8796093022208
                 | _, _ => 4722366482869645 # 4722366482869645213696
                 end).
Proof. destruct np, t; split; by vm_compute. Qed.

(** C8, as the code has it.  The dimension check passes exactly
    when the container has a [wavelength] dimension whose size is one of
    272, 273, 275, 939, 955; the length check passes exactly when the
    [wavelength] variable exists and its length is one of these; the
    range check passes exactly when the variable has a first sample
    that is greater than 3e-7 and less than 1e-6, both strictly.  The
    two bounds are the floats these literals denote, the binary64
    numbers 2833419889721787 / 2^73 and 4722366482869645 / 2^72; where
    numpy converts a Python float to the type of a [float32] sample
    they are the nearest [float32] numbers, 659707 / 2^41 and
    8796093 / 2^43. *)
Theorem wavelength_checks (np : numpy_rule) (c : Container) :
  (testTheWavelengthDimensionsHaveCorrectValues c = Ok tt
   ↔ ∃ n, nc_dimensions c !! "wavelength" = Some n
          ∧ (n = 272 ∨ n = 273 ∨ n = 275 ∨ n = 939 ∨ n = 955)%nat)
  ∧ (testWavelengthArrayHasEnoughData c = Ok tt
     ↔ ∃ v, nc_variables c !! "wavelength" = Some v
            ∧ (length (var_data v) = 272 ∨ length (var_data v) = 273
               ∨ length (var_data v) = 275 ∨ length (var_data v) = 939
               ∨ length (var_data v) = 955)%nat)
  ∧ (testWavelengthArrayHasCorrectData np c = Ok tt
     ↔ ∃ v w0, nc_variables c !! "wavelength" = Some v
               ∧ head (var_data v) = Some w0
               ∧ match np, var_dtype v with
                 | WeakScalars, Float.f4 =>
                     (659707 # 2199023255552 < w0)%Q
                     ∧ (w0 < 8796093 # 8796093022208)%Q
                 | _, _ =>
                     (2833419889721787 # 9444732965739290427392 < w0)%Q
                     ∧ (w0 < 4722366482869645 # 4722366482869645213696)%Q
                 end).
Proof.
  assert (∀ n : nat, n ∈ band_counts
                     ↔ (n = 272 ∨ n = 273 ∨ n = 275 ∨ n = 939 ∨ n = 955)%nat) as Hset.
  { intros n. unfold band_counts. rewrite !elem_of_cons, elem_of_nil. tauto. }
  split; [|split].
  - unfold testTheWavelengthDimensionsHaveCorrectValues, getitem, mbind, result_bind.
    destruct (nc_dimensions c !! "wavelength") as [n|]; simpl.
    + unfold assertIn_nat. rewrite assertTrue_Ok, bool_decide_eq_true, Hset.
      split; [by exists n | by intros (? & [= <-] & ?)].
    + split; [done | by intros (? & ? & ?)].
  - unfold testWavelengthArrayHasEnoughData, getitem, mbind, result_bind.
    destruct (nc_variables c !! "wavelength") as [v|]; simpl.
    + unfold assertIn_nat. rewrite assertTrue_Ok, bool_decide_eq_true, Hset.
      split; [by exists v | by intros (? & [= <-] & ?)].
    + split; [done | by intros (? & ? & ?)].
  - unfold testWavelengthArrayHasCorrectData, getitem, mbind, result_bind.
    destruct (nc_variables c !! "wavelength") as [v|]; simpl;
      [|split; [done | by intros (? & ? & ? & ?)]].
    destruct (var_data v) as [|w0 rest] eqn:Hdata; simpl;
      [split; [done | by intros (? & ? & [= <-] & Hh & ?); rewrite Hdata in Hh]|].
    destruct (wavelength_operands np (var_dtype v)) as [-> ->].
    set (lo := match np, var_dtype v with
               | WeakScalars, Float.f4 => 659707 # 2199023255552
               | _, _ => 2833419889721787 # 9444732965739290427392
               end).
    set (hi := match np, var_dtype v with
               | WeakScalars, Float.f4 => 8796093 # 8796093022208
               | _, _ => 4722366482869645 # 4722366482869645213696
               end).
    assert ((lo < w0)%Q ∧ (w0 < hi)%Q
            ↔ match np, var_dtype v with
              | WeakScalars, Float.f4 =>
                  (659707 # 2199023255552 < w0)%Q ∧ (w0 < 8796093 # 8796093022208)%Q
              | _, _ =>
                  (2833419889721787 # 9444732965739290427392 < w0)%Q
                  ∧ (w0 < 4722366482869645 # 4722366482869645213696)%Q
              end) as Hcases
      by (subst lo hi; destruct np, (var_dtype v); reflexivity).
    unfold assertGreaterF, assertLessF.
    destruct (Float.gt w0 (Float.Fin lo)) eqn:Hlow; cbn [assertTrue].
    + rewrite assertTrue_Ok, Float_lt_Fin. apply Float_gt_Fin in Hlow.
      split.
      * intros Hhigh. exists v, w0. rewrite Hdata.
        split; [reflexivity |]. split; [reflexivity |]. apply Hcases. by split.
      * intros (? & w1 & [= <-] & Hh & Hboth). rewrite Hdata in Hh.
        injection Hh as <-. by apply Hcases in Hboth as [_ ?].
    + split; [done |].
      intros (? & w1 & [= <-] & Hh & Hboth). rewrite Hdata in Hh.
      injection Hh as <-. apply Hcases in Hboth as [Hlo _].
      apply Float_gt_Fin in Hlo. by rewrite Hlo in Hlow.
Qed.

(** C8, counterexample.  Two first samples that lie strictly between
    3e-7 and 1e-6 and fail the range check.  The float [1e-6] is less
    than the decimal 1e-6; as the first sample of a [float64] variable
    it is compared with itself and is not less.  The [float32] nearest
    to 1e-6 is less than the float [1e-6] and than the decimal; as the
    first sample of a [float32] variable it is compared with itself
    where numpy converts the Python float to [float32] (it passes
    where the two are compared as [float64]). *)
Lemma wavelength_range_counterexample :
  let variable t x :=
    {| nc_groups := []; nc_dimensions := ∅;
       nc_variables :=
         {[ "wavelength" := {| var_dtype := t; var_data := [x]; var_attrs := ∅ |} ]};
       nc_attrs := ∅ |} in
  let msg := "The last sample of the wavelength should greater than 1000nm" in
  ((3 # 10000000 < float_1e_6)%Q ∧ (float_1e_6 < 1 # 1000000)%Q
   ∧ testWavelengthArrayHasCorrectData ValueBased (variable Float.f8 float_1e_6)
     = Raise (AssertionError msg)
   ∧ testWavelengthArrayHasCorrectData WeakScalars (variable Float.f8 float_1e_6)
     = Raise (AssertionError msg))
  ∧ ((3 # 10000000 < 8796093 # 8796093022208)%Q
     ∧ (8796093 # 8796093022208 < float_1e_6)%Q
     ∧ (8796093 # 8796093022208 < 1 # 1000000)%Q
     ∧ testWavelengthArrayHasCorrectData WeakScalars
         (variable Float.f4 (8796093 # 8796093022208))
       = Raise (AssertionError msg)
     ∧ testWavelengthArrayHasCorrectData ValueBased
         (variable Float.f4 (8796093 # 8796093022208))
       = Ok tt).
Proof. repeat split; by vm_compute. Qed.

(** The examples of the specification: 273 bands starting at 2^-21
    (about 4.8e-7) pass the checks, 300 bands fail the cardinality
    check. *)
Example wavelength_273_passes :
  let c := {| nc_groups := []; nc_dimensions := {[ "wavelength" := 273 ]};
              nc_variables :=
                {[ "wavelength" := {| var_dtype := Float.f4;
                                      var_data := replicate 273 (1 # 2097152);
                                      var_attrs := ∅ |} ]};
              nc_attrs := ∅ |} in
  testTheWavelengthDimensionsHaveCorrectValues c = Ok tt
  ∧ testWavelengthArrayHasEnoughData c = Ok tt
  ∧ testWavelengthArrayHasCorrectData ValueBased c = Ok tt
  ∧ testWavelengthArrayHasCorrectData WeakScalars c = Ok tt.
Proof. repeat split; by vm_compute. Qed.

Example wavelength_300_fails :
  let c := {| nc_groups := []; nc_dimensions := {[ "wavelength" := 300 ]};
              nc_variables := ∅; nc_attrs := ∅ |} in
  testTheWavelengthDimensionsHaveCorrectValues c
  = Raise (AssertionError "The dimension for wavelength is wrong").
Proof. by vm_compute. Qed.

(** The solar zenith check passes unless values above 90 and values
    below 0 occur together. *)
Lemma zenith_check_iff (g : gmap string pyval) (c : Container)
    (str : pyval → string) (graph : NcVar) (m : pyval) :
  nc_variables c !! "solar_zenith_angle" = Some graph →
  g !! "MAXIMUM_PLANT_REFLECTANCE" = Some m →
  testSolarZenithAngleInReseaonableRange g c str = Ok tt
  ↔ ¬ ((∃ v, v ∈ var_data graph ∧ (inject_Z 90 < v)%Q)
       ∧ (∃ v, v ∈ var_data graph ∧ (v < inject_Z 0)%Q)).
Proof.
  intros Hvar Hm.
  unfold testSolarZenithAngleInReseaonableRange, getitem, limit_msg, load_global,
    mbind, result_bind.
  rewrite Hvar, Hm. simpl. rewrite assertFalse_Ok, andb_false_iff.
  rewrite <- !not_true_iff_false, any_gt_iff, any_lt_iff. split.
  - intros [Hno|Hno] [Hover Hlower]; by apply Hno.
  - intros Hnot.
    destruct (any_gt (var_data graph) (inject_Z 90)) eqn:Hover.
    + right. intros Hlower. apply Hnot. by rewrite <- any_gt_iff, Hover.
    + left. intros Hex. apply any_gt_iff in Hex. by rewrite Hex in Hover.
Qed.

(** C4.  The solar zenith check on arrays that break one bound only: a
    value of 100 degrees, and a value of -5 degrees, each pass the
    check; it takes a value above 90 together with a value below 0 to
    fail it. *)
Theorem zenith_check_one_sided :
  testSolarZenithAngleInReseaonableRange (main_globals default_args)
    (container_with "solar_zenith_angle" [inject_Z 100]) show = Ok tt
  ∧ testSolarZenithAngleInReseaonableRange (main_globals default_args)
      (container_with "solar_zenith_angle" [inject_Z (-5)]) show = Ok tt
  ∧ ∃ msg, testSolarZenithAngleInReseaonableRange (main_globals default_args)
             (container_with "solar_zenith_angle" [inject_Z 100; inject_Z (-5)]) show
           = Raise (AssertionError msg).
Proof.
  split; [by vm_compute |]. split; [by vm_compute |].
  eexists. by vm_compute.
Qed.

(** ** The exposure check *)

Lemma main_globals_unbound (args : Args) :
  main_globals args !! "SATURATED_EXPOSURE" = None.
Proof.
  unfold main_globals. by rewrite !lookup_insert_ne.
Qed.

Lemma main_globals_ceiling (args : Args) :
  main_globals args !! "DEFAULT_SATURATED_EXPOSURE"
  = Some (VNum (inject_Z (or_default (saturated_exposure args) (2 ^ 16 - 1)%Z))).
Proof.
  unfold main_globals. rewrite lookup_insert_eq.
  by destruct (saturated_exposure args).
Qed.

(** C9.  The exposure check reads the global [SATURATED_EXPOSURE],
    which no line of the module binds (the configured ceiling is bound
    to [DEFAULT_SATURATED_EXPOSURE], 65535 unless the command line
    overrides it).  Whatever the command line and the container, the
    body raises [KeyError] (no [xps_img]) or [NameError] and never
    compares a value with the ceiling; the check is filed as an expected
    failure.  For [xps_img = [0]] and the default ceiling the body
    raises [NameError]. *)
Theorem exposure_check_never_compares :
  (∀ args c str,
     main_globals args !! "DEFAULT_SATURATED_EXPOSURE"
     = Some (VNum (inject_Z (or_default (saturated_exposure args) 65535%Z)))
     ∧ (testCalibrationGraphIsOverExposured (main_globals args) c str = Raise KeyError
        ∨ testCalibrationGraphIsOverExposured (main_globals args) c str = Raise NameError)
     ∧ run_test {| test_name := "testCalibrationGraphIsOverExposured";
                   expected_failure := true;
                   test_body := testCalibrationGraphIsOverExposured |}
         (main_globals args) c str = ExpectedFailure)
  ∧ testCalibrationGraphIsOverExposured (main_globals default_args)
      (container_with "xps_img" [inject_Z 0]) show = Raise NameError.
Proof.
  split; [|by vm_compute].
  intros args c str. split; [apply main_globals_ceiling |].
  unfold run_test, testCalibrationGraphIsOverExposured, getitem, load_global.
  simpl. rewrite main_globals_unbound.
  destruct (nc_variables c !! "xps_img"); simpl; auto.
Qed.

(** ** The verdict of the suite and the exit status *)

Lemma record_outcome_successful (u : unittest_rule) (r : TestResult) (name : string)
    (o : Outcome) :
  wasSuccessful u (record_outcome r name o)
  = wasSuccessful u r && negb (counts_against u o).
Proof.
  assert (∀ l : list string, bool_decide ((l ++ [name])%list = []) = false) as Hsnoc.
  { intros l. apply bool_decide_eq_false_2. by destruct l. }
  unfold wasSuccessful, record_outcome. simpl.
  destruct o, u; simpl; rewrite ?Hsnoc, ?andb_true_r, ?andb_false_r; reflexivity.
Qed.

Lemma run_methods_successful (u : unittest_rule) (tests : list TestMethod)
    (g : gmap string pyval) (c : Container) (str : pyval → string) (r : TestResult) :
  wasSuccessful u
    (fold_left (fun r t => record_outcome r (test_name t) (run_test t g c str)) tests r)
  = wasSuccessful u r
    && forallb (fun t => negb (counts_against u (run_test t g c str))) tests.
Proof.
  revert r. induction tests as [|t tests IH]; intros r; simpl.
  - by rewrite andb_true_r.
  - by rewrite IH, record_outcome_successful, andb_assoc.
Qed.

(** A method counts against the run exactly when it carries no
    expected-failure mark and its body does not return, or, under the
    later rule, when it carries the mark and its body returns. *)
Lemma run_test_counts (u : unittest_rule) (t : TestMethod) (g : gmap string pyval)
    (c : Container) (str : pyval → string) :
  counts_against u (run_test t g c str) = false
  ↔ (expected_failure t = false → test_body t g c str = Ok tt)
    ∧ (u = Unittest34 → expected_failure t = true → test_body t g c str ≠ Ok tt).
Proof.
  unfold run_test.
  destruct (test_body t g c str) as [[]|e], (expected_failure t), u; simpl.
  all: try (destruct e; simpl).
  all: split; [intros H; try discriminate H; split; intros; congruence |].
  all: intros [H1 H2]; try reflexivity.
  all: try (by specialize (H1 eq_refl)).
  all: by destruct (H2 eq_refl eq_refl).
Qed.

Lemma main_globals_file (args : Args) :
  main_globals args !! "TEST_FILE_DIRECTORY" = Some (VStr (input_file_path args)).
Proof.
  unfold main_globals. do 2 (rewrite lookup_insert_ne by done).
  by rewrite lookup_insert_eq.
Qed.

(** C6, counterexample.  A container that passes every check without
    the expected-failure mark and has four dimensions: the marked
    dimension-count check returns, which the [unittest] of Python 3.4
    and later counts against the run, and the status is 1.  Under the
    rule of Python 2.7 the status of the same run is 0. *)
Lemma unexpected_success_fails_run :
  (∀ np t, t ∈ HyperspectralWorkflowTest np → expected_failure t = false →
           test_body t (main_globals default_args) passing_container show = Ok tt)
  ∧ (∀ np, main {| unittest := Unittest34; numpy := np |}
             (fun _ => Some passing_container) show default_args = 1%Z)
  ∧ (∀ np, main {| unittest := Unittest27; numpy := np |}
             (fun _ => Some passing_container) show default_args = 0%Z)
  ∧ testTheNumberOfDimensionsInRootLevelIsCorrect (main_globals default_args)
      passing_container = Ok tt.
Proof.
  split; [|split; [|split]].
  - intros np t Ht Hmark. unfold HyperspectralWorkflowTest in Ht.
    rewrite !elem_of_cons, elem_of_nil in Ht.
    repeat (destruct Ht as [->|Ht]; [first [discriminate Hmark | destruct np; by vm_compute] |]).
    destruct Ht.
  - intros []; by vm_compute.
  - intros []; by vm_compute.
  - by vm_compute.
Qed.

(** C6, as the code has it.  The validator exits with status 0 exactly
    when the file opens, every test method without the expected-failure
    mark returns normally and, where [unittest] follows the rule of
    Python 3.4 and later, no method with the mark returns normally.
    Under the rule of Python 2.7 the methods with the mark have no
    influence. *)
Theorem exit_status_iff (rt : Runtime) (open_dataset : string → option Container)
    (str : pyval → string) (args : Args) :
  main rt open_dataset str args = 0%Z
  ↔ ∃ c, open_dataset (input_file_path args) = Some c
         ∧ (∀ t, t ∈ HyperspectralWorkflowTest (numpy rt) → expected_failure t = false →
                 test_body t (main_globals args) c str = Ok tt)
         ∧ (unittest rt = Unittest34 →
            ∀ t, t ∈ HyperspectralWorkflowTest (numpy rt) → expected_failure t = true →
                 test_body t (main_globals args) c str ≠ Ok tt).
Proof.
  unfold main, run_suite. rewrite main_globals_file.
  destruct (open_dataset (input_file_path args)) as [c|].
  - unfold run_methods. rewrite run_methods_successful.
    replace (wasSuccessful (unittest rt) empty_result) with true
      by (by destruct (unittest rt)).
    rewrite andb_true_l.
    match goal with
    | |- context [forallb ?f ?l] => set (ok := forallb f l)
    end.
    transitivity (ok = true); [by destruct ok |].
    subst ok. rewrite forallb_forall. split.
    + intros Hall. exists c. split; [reflexivity |]. split.
      * intros t Ht. apply (run_test_counts (unittest rt)), negb_true_iff, Hall.
        by apply list_elem_of_In.
      * intros Hrule t Ht.
        by apply (run_test_counts (unittest rt)); [apply negb_true_iff, Hall, list_elem_of_In |].
    + intros (c' & [= <-] & Hplain & Hmarked) t Ht.
      apply negb_true_iff, run_test_counts. split.
      * apply Hplain. by apply list_elem_of_In.
      * intros Hrule. apply (Hmarked Hrule). by apply list_elem_of_In.
  - split; [by destruct (unittest rt) | by intros (? & ? & ?)].
Qed.

(** * Further properties *)

(** ** The remote listing: [get_all_files] *)

Lemma scan_item_get ks tf item ext :
  Py.get (scan_item ks tf item) ext
  = if bool_decide (ext ∈ ks) && Py.endswith (file_name item) ext
    then Some (Some item) else Py.get tf ext.
Proof.
  unfold scan_item. revert tf.
  induction ks as [|k ks IH]; intros tf; simpl; [done |].
  rewrite IH. destruct (decide (k = ext)) as [->|Hne].
  - rewrite (bool_decide_eq_true_2 (ext ∈ ext :: ks)) by (apply elem_of_cons; by left).
    simpl. destruct (Py.endswith (file_name item) ext) eqn:E; simpl.
    + rewrite file_item_eta, get_set_eq. by rewrite andb_true_r, Tauto.if_same.
    + by rewrite andb_false_r.
  - assert (bool_decide (ext ∈ k :: ks) = bool_decide (ext ∈ ks)) as ->.
    { apply bool_decide_ext. rewrite elem_of_cons.
      split; [intros [Heq|Hin]; [by subst | done] | by right]. }
    destruct (Py.endswith (file_name item) k); [|done].
    by rewrite get_set_ne.
Qed.

Lemma last_filter_cons {A} (P : A → Prop) `{∀ x, Decision (P x)} (a : A) (l : list A) :
  last (filter P (a :: l))
  = match last (filter P l) with
    | Some x => Some x
    | None => if decide (P a) then Some a else None
    end.
Proof.
  rewrite filter_cons. destruct (decide (P a)); [|by destruct (last (filter P l))].
  destruct (filter P l) as [|b l'] eqn:E; [done |].
  rewrite last_cons. by destruct (last (b :: l')).
Qed.

Lemma scan_items_get ks tf fl ext :
  ext ∈ ks →
  Py.get (fold_left (scan_item ks) fl tf) ext
  = match last (filter (fun f => Py.endswith (file_name f) ext = true) fl) with
    | Some f => Some (Some f)
    | None => Py.get tf ext
    end.
Proof.
  intros Hin. revert tf. induction fl as [|f fl IH]; intros tf; simpl; [done |].
  rewrite IH, last_filter_cons, scan_item_get.
  rewrite bool_decide_eq_true_2 by done. simpl.
  destruct (last (filter _ fl)); [done |].
  destruct (decide (Py.endswith (file_name f) ext = true)) as [E|E].
  - by rewrite E.
  - apply not_true_is_false in E. by rewrite E.
Qed.

(** X1.  Later entries of the listing overwrite earlier ones: the slot of a
    suffix holds the last listed file whose name ends with it, and
    [None] when there is none. *)
Theorem get_all_files_last_wins (r : Resource) (fl : list FileItem) (ext : string) :
  files r = Some fl → ext ∈ remote_exts →
  Py.get (get_all_files r) ext
  = Some (last (filter (fun f => Py.endswith (file_name f) ext = true) fl)).
Proof.
  intros Hfiles Hext. unfold get_all_files. rewrite Hfiles, keys_all_none.
  rewrite scan_items_get by done. rewrite get_all_none, bool_decide_eq_true_2 by done.
  by destruct (last _).
Qed.

Lemma get_all_files_last_wins_witness :
  let dup := {| file_id := "9"; file_name := "y_raw" |} in
  Py.get (get_all_files (listed_resource "VNIR - t" (Some (complete_listing ++ [dup])%list)))
    "raw" = Some (Some dup).
Proof.
  intros dup.
  rewrite (get_all_files_last_wins _ (complete_listing ++ [dup])%list "raw");
    [reflexivity | reflexivity |].
  apply (bool_decide_unpack _). by vm_compute.
Defined.

Lemma has_all_files_true (r : Resource) :
  has_all_files r = true →
  ∃ fl, files r = Some fl
        ∧ ∀ ext, ext ∈ remote_exts →
                 ∃ f, f ∈ fl ∧ Py.endswith (file_name f) ext = true.
Proof.
  unfold has_all_files. rewrite all_found_fold, get_all_files_keys, andb_true_l.
  rewrite forallb_forall. intros Hall.
  destruct (files r) as [fl|] eqn:Hfiles.
  - exists fl. split; [done |]. intros ext Hin.
    specialize (Hall ext (proj1 (list_elem_of_In _ _) Hin)).
    rewrite get_all_files_slot, Hfiles in Hall by done.
    apply negb_true_iff in Hall.
    destruct (forallb_false_witness _ _ Hall) as (f & Hf & Hends).
    exists f. split; [done | by apply negb_false_iff in Hends].
  - specialize (Hall "raw"). rewrite get_all_files_slot, Hfiles in Hall.
    + discriminate Hall. unfold remote_exts. simpl. auto.
    + unfold remote_exts. apply elem_of_cons. by left.
Qed.

Lemma has_all_files_false (r : Resource) (ext : string) :
  ext ∈ remote_exts →
  (∀ fl f, files r = Some fl → f ∈ fl → Py.endswith (file_name f) ext = false) →
  has_all_files r = false.
Proof.
  intros Hext Hnone. apply not_true_is_false.
  intros (fl & Hfiles & Hall)%has_all_files_true.
  destruct (Hall ext Hext) as (f & Hf & Hends).
  by rewrite (Hnone fl f) in Hends.
Qed.

Lemma remote_exts_local (ext : string) : ext ∈ remote_exts → ext ∈ local_exts.
Proof.
  unfold remote_exts, local_exts. rewrite !elem_of_cons. intros H. tauto.
Qed.

(** X2.  No file can stand for two roles, so a listing that passes
    [has_all_files] has at least five entries. *)
Theorem has_all_files_needs_five (r : Resource) :
  has_all_files r = true → ∃ fl, files r = Some fl ∧ (5 ≤ length fl)%nat.
Proof.
  intros (fl & Hfiles & Hall)%has_all_files_true.
  exists fl. split; [done |].
  assert (∀ ext, ext ∈ remote_exts → ext ∈ remote_exts) as Hid by done.
  destruct (Hall "raw") as (f1 & Hf1 & He1); [by vm_compute; left |].
  destruct (Hall "raw.hdr") as (f2 & Hf2 & He2);
    [apply (bool_decide_unpack _); by vm_compute |].
  destruct (Hall "image.jpg") as (f3 & Hf3 & He3);
    [apply (bool_decide_unpack _); by vm_compute |].
  destruct (Hall "frameIndex.txt") as (f4 & Hf4 & He4);
    [apply (bool_decide_unpack _); by vm_compute |].
  destruct (Hall "settings.txt") as (f5 & Hf5 & He5);
    [apply (bool_decide_unpack _); by vm_compute |].
  assert (∀ (f g : FileItem) k1 k2,
            Py.endswith (file_name f) k1 = true → Py.endswith (file_name g) k2 = true →
            k1 ∈ remote_exts → k2 ∈ remote_exts → k1 ≠ k2 → f ≠ g) as Hdiff.
  { intros f g k1 k2 H1 H2 Hk1 Hk2 Hne ->. apply Hne.
    apply (at_most_one_role (file_name g)); auto using remote_exts_local. }
  assert (NoDup [f1; f2; f3; f4; f5]) as Hnd.
  { repeat (apply NoDup_cons; split); [| | | | | apply NoDup_nil_2].
    all: rewrite ?elem_of_cons, elem_of_nil.
    all: intros Hor.
    all: repeat (destruct Hor as [Heq|Hor]; [revert Heq | ]); try done.
    all: eapply Hdiff; try eassumption;
      try (apply (bool_decide_unpack _); by vm_compute); done. }
  change 5 with (length [f1; f2; f3; f4; f5]).
  apply submseteq_length, NoDup_submseteq; [done |].
  intros x Hx. rewrite !elem_of_cons, elem_of_nil in Hx.
  destruct Hx as [->|[->|[->|[->|[->|[]]]]]]; done.
Qed.

Lemma has_all_files_needs_five_witness :
  ∃ fl, files (listed_resource "VNIR - t" (Some complete_listing)) = Some fl
        ∧ (5 ≤ length fl)%nat.
Proof.
  apply (has_all_files_needs_five (listed_resource "VNIR - t" (Some complete_listing))).
  reflexivity.
Defined.

(** ** Dataset names without a timestamp *)

Lemma prefix_app (p s : string) : String.prefix p s = true → ∃ b, s = p +:+ b.
Proof.
  revert s. induction p as [|c p IH]; intros s; [by exists s |].
  destruct s as [|c' s]; [done |]. simpl.
  destruct (ascii_dec c c') as [->|]; [|done].
  intros (b & ->)%IH. by exists b.
Qed.

Lemma split_aux_no_sep (sep cur s : string) :
  (∀ a b, s ≠ a +:+ sep +:+ b) → Py.split_aux sep 0 cur s = [cur +:+ s].
Proof.
  revert cur. induction s as [|c s IH]; intros cur Hno.
  - simpl. f_equal. induction cur as [|x cur IHc]; [done |].
    change (String x cur = String x (cur +:+ EmptyString)). by rewrite <- IHc.
  - cbn [Py.split_aux].
    destruct (String.prefix sep (String c s)) eqn:Hp.
    + apply prefix_app in Hp as (b & Hb). by destruct (Hno EmptyString b).
    + rewrite IH.
      * f_equal. symmetry. apply (append_assoc cur (String c EmptyString) s).
      * intros a b ->. by apply (Hno (String c a) b).
Qed.

(** A name that does not contain [" - "] splits into one piece, so the
    subscript [[1]] is out of range. *)
Lemma split_no_timestamp (name : string) :
  (∀ a b, name ≠ a +:+ " - " +:+ b) → Py.split name " - " !! 1 = None.
Proof.
  intros Hno. unfold Py.split. by rewrite split_aux_no_sep.
Qed.

(** ** [check_message] *)

Section CheckFacts.
Context `{collab : Collaborators} `{clowder : Clowder}.

(** X3.  A dataset whose listing lacks a file for one of the five suffixes
    is ignored, whatever its name: the incomplete set is no error. *)
Theorem check_message_incomplete (r : Resource) (w : World) (ext : string) :
  ext ∈ remote_exts →
  (∀ fl f, files r = Some fl → f ∈ fl → Py.endswith (file_name f) ext = false) →
  check_message r w
  = (Ok CheckMessage.ignore, snd (log_skip "not all input files are ready" w)).
Proof.
  intros Hext Hnone. unfold check_message.
  by rewrite (has_all_files_false r ext).
Qed.

(** X4.  For a dataset whose name carries a timestamp, [check_message]
    answers [download] exactly when the listing is complete and either
    [overwrite] is set or neither the output file nor metadata of this
    extractor exists; otherwise it answers [ignore].  It never answers
    [bypass], and [download] leaves no entry in the log. *)
Theorem check_message_download_iff (r : Resource) (w : World) (ts : string) :
  Py.split (dataset_name r) " - " !! 1 = Some ts →
  let sensor := if (Py.find (dataset_name r) "SWIR" >? -1)%Z
                then "swir_netcdf" else "vnir_netcdf" in
  ∃ v w', check_message r w = (Ok v, w')
    ∧ (v = CheckMessage.download
       ↔ has_all_files r = true
         ∧ (overwrite = true
            ∨ (os_path_exists w (get_sensor_path ts sensor []) = false
               ∧ get_extractor_metadata (download_metadata (res_id r)) = false)))
    ∧ (v = CheckMessage.download → w' = w)
    ∧ (v = CheckMessage.download ∨ v = CheckMessage.ignore).
Proof.
  intros Hts sensor. unfold check_message. fold sensor.
  destruct (has_all_files r).
  - unfold mbind at 1, M_bind at 1, index_list. rewrite Hts. simpl.
    unfold mbind at 1, M_bind at 1, path_exists. simpl.
    destruct (os_path_exists w (get_sensor_path ts sensor [])) eqn:Hex,
      overwrite eqn:Hov,
      (get_extractor_metadata (download_metadata (res_id r))) eqn:Hmd; simpl.
    all: eexists _, _; split; [reflexivity |].
    all: split; [|split; [try done; by intros [=] | auto]].
    all: split; try done; try (intros [=]); auto.
    all: intros [_ [|[]]]; done.
  - eexists _, _. split; [reflexivity |].
    split; [|split; [by intros [=] | auto]].
    split; [by intros [=] | by intros [[=] _]].
Qed.

(** X5.  [check_message] only looks: whatever it answers, and also when it
    raises, files, links, directories and counters are as before, and
    the log has grown by at most one entry. *)
Theorem check_message_read_only (r : Resource) (w : World) :
  let w' := snd (check_message r w) in
  fs_files w' = fs_files w ∧ fs_links w' = fs_links w ∧ fs_dirs w' = fs_dirs w
  ∧ created w' = created w ∧ bytes w' = bytes w
  ∧ (events w' = events w ∨ ∃ msg, events w' = (events w ++ [LogInfo msg])%list).
Proof.
  unfold check_message, log_skip, log_info, emit, index_list, path_exists, raise,
    mbind, M_bind, mret, M_ret.
  destruct (has_all_files r); simpl;
    [|repeat split; try done; right; by eexists].
  destruct (Py.split (dataset_name r) " - " !! 1) as [ts|]; simpl;
    [|repeat split; try done; by left].
  repeat (case_match; simpl); repeat split; try done;
    try (by left); right; by eexists.
Qed.

(** X6.  A complete listing under a name that does not contain [" - "]:
    [check_message] raises [IndexError] at the subscript of line 49. *)
Theorem check_message_no_timestamp (r : Resource) (w : World) :
  has_all_files r = true →
  (∀ a b, dataset_name r ≠ a +:+ " - " +:+ b) →
  check_message r w = (Raise IndexError, w).
Proof.
  intros Hall Hno. unfold check_message. rewrite Hall.
  unfold mbind at 1, M_bind at 1, index_list.
  by rewrite split_no_timestamp.
Qed.

End CheckFacts.

(** ** What the scan of [process_message] computes *)

Lemma scan_ext_nomatch f st k : Py.endswith f k = false → scan_ext f st k = st.
Proof. intros Hk. unfold scan_ext. by rewrite Hk. Qed.

Lemma scan_exts_nomatch f ks st :
  (∀ k, k ∈ ks → Py.endswith f k = false) → fold_left (scan_ext f) ks st = st.
Proof.
  revert st. induction ks as [|k ks IH]; intros st Hno; simpl; [done |].
  rewrite scan_ext_nomatch by (apply Hno, elem_of_cons; by left).
  apply IH. intros k' Hk'. apply Hno, elem_of_cons. by right.
Qed.

Lemma scan_exts_one f ks st ext :
  NoDup ks → ext ∈ ks →
  (∀ k, k ∈ ks → k ≠ ext → Py.endswith f k = false) →
  fold_left (scan_ext f) ks st = scan_ext f st ext.
Proof.
  revert st. induction ks as [|k ks IH]; intros st Hnd Hin Hno;
    [by apply elem_of_nil in Hin |].
  apply NoDup_cons in Hnd as [Hk Hnd]. simpl.
  destruct (decide (k = ext)) as [->|Hne].
  - apply scan_exts_nomatch. intros k' Hk'. apply Hno; [apply elem_of_cons; by right |].
    by intros ->.
  - rewrite scan_ext_nomatch by (apply Hno; [apply elem_of_cons; by left | done]).
    apply IH; [done | | ].
    + apply elem_of_cons in Hin as [->|Hin]; done.
    + intros k' Hk'. apply Hno, elem_of_cons. by right.
Qed.

Lemma local_exts_NoDup : NoDup local_exts.
Proof. apply (bool_decide_unpack _). by vm_compute. Qed.

(** One round of the outer loop is one round of the inner body: for the
    key the path ends with, if there is one. *)
Lemma scan_path_one st f ext :
  Py.keys (target_files st) = local_exts → ext ∈ local_exts →
  Py.endswith f ext = true → scan_path st f = scan_ext f st ext.
Proof.
  intros Hkeys Hext Hends. unfold scan_path. rewrite Hkeys.
  apply scan_exts_one; [apply local_exts_NoDup | done |].
  intros k Hk Hne. apply not_true_is_false. intros Hk'.
  apply Hne. by apply (at_most_one_role f).
Qed.

Lemma scan_path_none st f :
  Py.keys (target_files st) = local_exts →
  (∀ k, k ∈ local_exts → Py.endswith f k = false) → scan_path st f = st.
Proof.
  intros Hkeys Hno. unfold scan_path. rewrite Hkeys. by apply scan_exts_nomatch.
Qed.

Lemma scan_path_keys st f :
  Py.keys (target_files st) = local_exts →
  Py.keys (target_files (scan_path st f)) = local_exts.
Proof.
  intros Hkeys. unfold scan_path.
  rewrite scan_exts_keys; rewrite ?Hkeys; [done | done |].
  unfold local_exts. rewrite !elem_of_cons. auto 10.
Qed.

(** Either a path ends with one of the six suffixes or with none. *)
Lemma role_cases f :
  (∃ ext, ext ∈ local_exts ∧ Py.endswith f ext = true)
  ∨ (∀ k, k ∈ local_exts → Py.endswith f k = false).
Proof.
  destruct (existsb (Py.endswith f) local_exts) eqn:E.
  - left. apply existsb_exists in E as (ext & Hin & Hends).
    exists ext. split; [by apply list_elem_of_In | done].
  - right. intros k Hk. apply not_true_is_false. intros Hends.
    apply not_true_iff_false in E. apply E, existsb_exists.
    exists k. split; [by apply list_elem_of_In | done].
Qed.

Lemma is_data_path_iff f :
  is_data_path f = true ↔ ∃ ext, ext ∈ remote_exts ∧ Py.endswith f ext = true.
Proof.
  unfold is_data_path. rewrite existsb_exists. split.
  - intros (ext & Hin & H). exists ext. split; [by apply list_elem_of_In | done].
  - intros (ext & Hin & H). exists ext. split; [by apply list_elem_of_In | done].
Qed.

Lemma data_ext_not_metadata ext :
  ext ∈ remote_exts → String.eqb ext "_metadata.json" = false.
Proof.
  unfold remote_exts. rewrite !elem_of_cons, elem_of_nil.
  intros [->|[->|[->|[->|[->|[]]]]]]; reflexivity.
Qed.

Lemma data_path_not_metadata f :
  is_data_path f = true → Py.endswith f "_metadata.json" = false.
Proof.
  intros (ext & Hin & Hends)%is_data_path_iff.
  apply not_true_is_false. intros Hmd.
  assert (ext = "_metadata.json") as ->.
  { apply (at_most_one_role f); [by apply remote_exts_local | | done | done].
    unfold local_exts. rewrite !elem_of_cons. auto 10. }
  by apply data_ext_not_metadata in Hin.
Qed.

(** The two flags after one path: a data path records its directory and
    is compared with the directory recorded before; any other path
    leaves both as they were. *)
Lemma scan_path_flags st f :
  Py.keys (target_files st) = local_exts →
  (last_path (scan_path st f), path_match (scan_path st f))
  = if is_data_path f
    then (Some (Py.dirname f),
          if not_last_path (last_path st) then path_match st
          else if negb (bool_decide (Some (Py.dirname f) = last_path st))
               then Some false else path_match st)
    else (last_path st, path_match st).
Proof.
  intros Hkeys. destruct (role_cases f) as [(ext & Hext & Hends)|Hno].
  - rewrite (scan_path_one st f ext) by done. unfold scan_ext. rewrite Hends.
    destruct (String.eqb ext "_metadata.json") eqn:Emd; simpl.
    + apply String.eqb_eq in Emd. subst ext.
      assert (is_data_path f = false) as ->.
      { apply not_true_is_false. intros Hd.
        apply data_path_not_metadata in Hd. by rewrite Hd in Hends. }
      by repeat case_match.
    + assert (is_data_path f = true) as ->; [|done].
      apply is_data_path_iff. exists ext. split; [|done].
      revert Hext Emd. unfold local_exts, remote_exts.
      rewrite !elem_of_cons, !elem_of_nil.
      intros [->|[->|[->|[->|[->|[->|[]]]]]]] Hmd; auto 10. done.
  - rewrite scan_path_none by done.
    assert (is_data_path f = false) as ->; [|done].
    apply not_true_is_false. intros (ext & Hin & Hends)%is_data_path_iff.
    by rewrite Hno in Hends by (by apply remote_exts_local).
Qed.

Lemma data_dirs_cons f paths :
  data_dirs (f :: paths)
  = if is_data_path f then Py.dirname f :: data_dirs paths else data_dirs paths.
Proof.
  unfold data_dirs. rewrite filter_cons.
  destruct (decide (is_data_path f = true)) as [->|Hn]; [done |].
  by apply not_true_is_false in Hn as ->.
Qed.

Lemma resolve_from_colocated st paths :
  Py.keys (target_files st) = local_exts →
  Forall (fun d => Py.truthy d = true) (data_dirs paths) →
  path_match st = None →
  (∀ d, last_path st = Some d → Py.truthy d = true) →
  path_match (resolve_from st paths) = None
  ↔ ∀ d1 d2, d1 ∈ (option_list (last_path st) ++ data_dirs paths)%list →
             d2 ∈ (option_list (last_path st) ++ data_dirs paths)%list → d1 = d2.
Proof.
  revert st. induction paths as [|f paths IH]; intros st Hkeys Hdirs Hpm Hlast.
  - simpl. split; [|done]. intros _ d1 d2.
    rewrite app_nil_r. destruct (last_path st); simpl.
    + by intros ->%list_elem_of_singleton ->%list_elem_of_singleton.
    + by intros ?%elem_of_nil.
  - change (resolve_from st (f :: paths)) with (resolve_from (scan_path st f) paths).
    pose proof (scan_path_flags st f Hkeys) as Hflags.
    pose proof (scan_path_keys st f Hkeys) as Hkeys'.
    rewrite data_dirs_cons in Hdirs |- *.
    destruct (is_data_path f).
    + injection Hflags as Hl' Hp'.
      apply Forall_cons in Hdirs as [Hd Hdirs].
      destruct (last_path st) as [d0|] eqn:Hl0.
      * assert (not_last_path (Some d0) = false) as Hnl
          by (unfold not_last_path; by rewrite (Hlast d0)).
        rewrite Hnl in Hp'.
        destruct (decide (Py.dirname f = d0)) as [Heq|Hne].
        -- rewrite bool_decide_eq_true_2 in Hp' by (by rewrite Heq). simpl in Hp'.
           rewrite IH; [| done | done | by rewrite Hp' | by rewrite Hl'; intros ? [= <-]].
           rewrite Hl'. simpl. rewrite Heq. split.
           ++ intros Hall d1 d2 H1 H2. apply Hall.
              ** apply elem_of_cons in H1 as [->|H1]; [by left | done].
              ** apply elem_of_cons in H2 as [->|H2]; [by left | done].
           ++ intros Hall d1 d2 H1 H2. apply Hall; by right.
        -- rewrite bool_decide_eq_false_2 in Hp' by (by intros [= ?]). simpl in Hp'.
           rewrite (resolve_from_sticky _ _ Hp'). split; [done |].
           intros Hall. destruct Hne. symmetry. apply Hall; simpl.
           ++ by left.
           ++ right. by left.
      * simpl in Hp'.
        rewrite IH; [| done | done | by rewrite Hp' | by rewrite Hl'; intros ? [= <-]].
        by rewrite Hl'.
    + injection Hflags as Hl' Hp'.
      rewrite IH; [| done | done | by rewrite Hp' | by rewrite Hl'].
      by rewrite Hl'.
Qed.

(** X7.  When every data path has a directory part, the flag stays [None]
    exactly when all data paths lie in one directory, and becomes
    [False] exactly when two of them lie in different directories.
    Metadata paths and paths of no role do not count. *)
Theorem path_match_colocation (paths : list string) :
  Forall (fun d => Py.truthy d = true) (data_dirs paths) →
  (path_match (resolve paths) = None
   ↔ ∀ d1 d2, d1 ∈ data_dirs paths → d2 ∈ data_dirs paths → d1 = d2)
  ∧ (path_match (resolve paths) = Some false
     ↔ ∃ d1 d2, d1 ∈ data_dirs paths ∧ d2 ∈ data_dirs paths ∧ d1 ≠ d2).
Proof.
  intros Hdirs.
  assert (path_match (resolve paths) = None
          ↔ ∀ d1 d2, d1 ∈ data_dirs paths → d2 ∈ data_dirs paths → d1 = d2) as Hnone.
  { unfold resolve. by rewrite resolve_from_colocated. }
  split; [done |]. split.
  - intros Hfalse.
    destruct (decide (Exists (fun d1 => Exists (fun d2 => d1 ≠ d2) (data_dirs paths))
                        (data_dirs paths))) as [Hex|Hnex].
    + apply Exists_exists in Hex as (d1 & H1 & Hex).
      apply Exists_exists in Hex as (d2 & H2 & Hne). by exists d1, d2.
    + assert (path_match (resolve paths) = None) as Hn; [|by rewrite Hn in Hfalse].
      apply Hnone. intros d1 d2 H1 H2.
      destruct (decide (d1 = d2)) as [|Hne]; [done |].
      destruct Hnex. apply Exists_exists. exists d1. split; [done |].
      apply Exists_exists. by exists d2.
  - intros (d1 & d2 & H1 & H2 & Hne).
    destruct (path_match (resolve paths)) as [[]|] eqn:Hpm.
    + by destruct (resolve_from_path_match scan_init paths).
    + done.
    + destruct Hne. by apply Hnone.
Qed.

Lemma path_match_colocation_witness :
  path_match (resolve scattered_paths) = Some false
  ↔ ∃ d1 d2, d1 ∈ data_dirs scattered_paths ∧ d2 ∈ data_dirs scattered_paths ∧ d1 ≠ d2.
Proof.
  apply (path_match_colocation scattered_paths).
  apply (bool_decide_unpack _). by vm_compute.
Defined.

Lemma metadata_not_data_ext ext :
  ext ∈ remote_exts → "_metadata.json" ≠ ext.
Proof. intros Hin <-. by apply data_ext_not_metadata in Hin. Qed.

(** The slot of a data suffix after one path. *)
Lemma scan_path_slot st f ext :
  Py.keys (target_files st) = local_exts → ext ∈ remote_exts →
  Py.get (target_files (scan_path st f)) ext
  = if Py.endswith f ext then Some (Some (file_rec f))
    else Py.get (target_files st) ext.
Proof.
  intros Hkeys Hext. destruct (Py.endswith f ext) eqn:Hends.
  - rewrite (scan_path_one st f ext) by auto using remote_exts_local.
    unfold scan_ext. rewrite Hends, data_ext_not_metadata by done. simpl.
    by rewrite get_set_eq.
  - destruct (role_cases f) as [(ext0 & Hext0 & Hends0)|Hno];
      [|by rewrite scan_path_none].
    assert (ext0 ≠ ext) as Hne by (intros ->; by rewrite Hends in Hends0).
    rewrite (scan_path_one st f ext0) by done.
    unfold scan_ext. rewrite Hends0.
    destruct (String.eqb ext0 "_metadata.json"); simpl.
    + destruct (Py.endswith f "/_dataset_metadata.json"); simpl; [done |].
      destruct (Py.endswith f "/_metadata.json"); simpl; [done |].
      rewrite get_set_ne; [done | by apply metadata_not_data_ext].
    + by rewrite get_set_ne.
Qed.

Lemma dataset_metadata_is_metadata f :
  Py.endswith f "/_dataset_metadata.json" = true →
  Py.endswith f "_metadata.json" = true.
Proof. intros Hds. by apply (endswith_trans _ _ _ Hds). Qed.

(** The metadata variables after one path. *)
Lemma scan_path_metadata st f :
  Py.keys (target_files st) = local_exts →
  metafile (scan_path st f) = (if is_capture_metadata f then Some f else metafile st)
  ∧ ds_metafile (scan_path st f)
    = (if Py.endswith f "/_dataset_metadata.json" then Some f else ds_metafile st)
  ∧ Py.get (target_files (scan_path st f)) "_metadata.json"
    = (if is_capture_metadata f then Some (Some (file_rec f))
       else Py.get (target_files st) "_metadata.json").
Proof.
  intros Hkeys. unfold is_capture_metadata.
  destruct (Py.endswith f "_metadata.json") eqn:Hmd.
  - rewrite (scan_path_one st f "_metadata.json");
      [| done | unfold local_exts; rewrite !elem_of_cons; auto 10 | done].
    unfold scan_ext. rewrite Hmd. simpl.
    destruct (Py.endswith f "/_dataset_metadata.json"); simpl; [done |].
    destruct (Py.endswith f "/_metadata.json"); simpl; [done |].
    by rewrite get_set_eq.
  - assert (Py.endswith f "/_dataset_metadata.json" = false) as ->.
    { apply not_true_is_false. intros Hds%dataset_metadata_is_metadata.
      by rewrite Hds in Hmd. }
    simpl.
    destruct (role_cases f) as [(ext0 & Hext0 & Hends0)|Hno];
      [|by rewrite scan_path_none].
    assert (ext0 ≠ "_metadata.json") as Hne by (intros ->; by rewrite Hends0 in Hmd).
    rewrite (scan_path_one st f ext0) by done.
    unfold scan_ext. rewrite Hends0.
    rewrite (proj2 (String.eqb_neq ext0 "_metadata.json") Hne). simpl.
    by rewrite get_set_ne.
Qed.

Lemma resolve_from_keys st paths :
  Py.keys (target_files st) = local_exts →
  Py.keys (target_files (resolve_from st paths)) = local_exts.
Proof.
  revert st. induction paths as [|f paths IH]; intros st Hkeys; [done |].
  apply IH. by apply scan_path_keys.
Qed.

Lemma resolve_from_slot st paths ext :
  Py.keys (target_files st) = local_exts → ext ∈ remote_exts →
  Py.get (target_files (resolve_from st paths)) ext
  = match last (filter (fun f => Py.endswith f ext = true) paths) with
    | Some f => Some (Some (file_rec f))
    | None => Py.get (target_files st) ext
    end.
Proof.
  intros Hkeys Hext. revert st Hkeys.
  induction paths as [|f paths IH]; intros st Hkeys; [done |].
  change (resolve_from st (f :: paths)) with (resolve_from (scan_path st f) paths).
  rewrite IH by (by apply scan_path_keys).
  rewrite last_filter_cons, scan_path_slot by done.
  destruct (last (filter _ paths)); [done |].
  destruct (decide (Py.endswith f ext = true)) as [E|E].
  - by rewrite E.
  - apply not_true_is_false in E. by rewrite E.
Qed.

Lemma resolve_from_metadata st paths :
  Py.keys (target_files st) = local_exts →
  metafile (resolve_from st paths)
  = match last (filter (fun f => is_capture_metadata f = true) paths) with
    | Some f => Some f
    | None => metafile st
    end
  ∧ ds_metafile (resolve_from st paths)
    = match last (filter (fun f => Py.endswith f "/_dataset_metadata.json" = true) paths) with
      | Some f => Some f
      | None => ds_metafile st
      end
  ∧ Py.get (target_files (resolve_from st paths)) "_metadata.json"
    = match last (filter (fun f => is_capture_metadata f = true) paths) with
      | Some f => Some (Some (file_rec f))
      | None => Py.get (target_files st) "_metadata.json"
      end.
Proof.
  revert st. induction paths as [|f paths IH]; intros st Hkeys; [done |].
  change (resolve_from st (f :: paths)) with (resolve_from (scan_path st f) paths).
  destruct (IH (scan_path st f) (scan_path_keys st f Hkeys)) as (-> & -> & ->).
  destruct (scan_path_metadata st f Hkeys) as (-> & -> & ->).
  rewrite !last_filter_cons.
  repeat split.
  - destruct (last (filter _ paths)); [done |].
    destruct (decide (is_capture_metadata f = true)) as [E|E]; [by rewrite E |].
    apply not_true_is_false in E. by rewrite E.
  - destruct (last (filter (fun f => Py.endswith f _ = true) paths)); [done |].
    destruct (decide (Py.endswith f "/_dataset_metadata.json" = true)) as [E|E];
      [by rewrite E |].
    apply not_true_is_false in E. by rewrite E.
  - destruct (last (filter _ paths)); [done |].
    destruct (decide (is_capture_metadata f = true)) as [E|E]; [by rewrite E |].
    apply not_true_is_false in E. by rewrite E.
Qed.

(** X8.  Later paths overwrite earlier ones: after the scan the slot of a
    data suffix holds the record (base name and path) of the last local
    path that ends with it, and [None] when no path does. *)
Theorem scan_last_wins (paths : list string) (ext : string) :
  ext ∈ remote_exts →
  Py.get (target_files (resolve paths)) ext
  = Some (file_rec <$> last (filter (fun f => Py.endswith f ext = true) paths)).
Proof.
  intros Hext. unfold resolve. rewrite resolve_from_slot by done.
  destruct (last _); [done |].
  unfold scan_init. cbn [target_files]. rewrite get_all_none.
  by rewrite bool_decide_eq_true_2 by (by apply remote_exts_local).
Qed.

Lemma scan_last_wins_witness :
  Py.get (target_files (resolve ("/old/x_raw" :: colocated_paths))) "raw"
  = Some (Some (file_rec "/data/cap/x_raw")).
Proof.
  rewrite (scan_last_wins ("/old/x_raw" :: colocated_paths) "raw"); [reflexivity |].
  apply (bool_decide_unpack _). by vm_compute.
Defined.

(** X9.  How the scan files metadata.  [metafile] is the last path that ends
    with [_metadata.json] but with neither [/_dataset_metadata.json]
    nor [/_metadata.json]; that path, and no other, fills the metadata
    slot of [target_files].  [ds_metafile] is the last path that ends
    with [/_dataset_metadata.json].  A file named just
    [_metadata.json] inside a directory is taken for neither. *)
Theorem metadata_classification (paths : list string) :
  metafile (resolve paths)
  = last (filter (fun f => is_capture_metadata f = true) paths)
  ∧ ds_metafile (resolve paths)
    = last (filter (fun f => Py.endswith f "/_dataset_metadata.json" = true) paths)
  ∧ Py.get (target_files (resolve paths)) "_metadata.json"
    = Some (file_rec <$> metafile (resolve paths))
  ∧ ∀ d, is_capture_metadata (d +:+ "/_metadata.json") = false
         ∧ Py.endswith (d +:+ "/_metadata.json") "/_dataset_metadata.json" = false.
Proof.
  unfold resolve.
  destruct (resolve_from_metadata scan_init paths eq_refl) as (-> & -> & ->).
  split; [by destruct (last _) |]. split; [by destruct (last _) |].
  split; [by destruct (last _) |].
  intros d.
  assert (Py.endswith (d +:+ "/_metadata.json") "/_metadata.json" = true) as Hd
    by (apply endswith_app; by exists d).
  split.
  - unfold is_capture_metadata. rewrite Hd. by rewrite andb_false_r.
  - apply not_true_is_false. intros (p & Hp)%endswith_app.
    destruct (suffixes_comparable _ _ _ _ Hp) as [H|H]; by vm_compute in H.
Qed.

(** ** Failures of [process_message] before the workflow runs *)

Lemma last_filter_none {A} (P : A → Prop) `{∀ x, Decision (P x)} (l : list A) :
  (∀ x, x ∈ l → ¬ P x) → last (filter P l) = None.
Proof.
  induction l as [|a l IH]; intros Hno; [done |].
  rewrite filter_cons, decide_False by (apply Hno, elem_of_cons; by left).
  apply IH. intros x Hx. apply Hno, elem_of_cons. by right.
Qed.

(** X10.  No metadata among the local paths: when every path that ends with
    [_metadata.json] is a file named just [_metadata.json] in some
    directory (in particular when no path ends with [_metadata.json]),
    [process_message] raises [ValueError] naming the dataset, right
    after its start message and before it touches anything. *)
Theorem missing_metadata_raises `{collab : Collaborators}
    (resource : Resource) (w : World) :
  (∀ f, f ∈ local_paths resource → Py.endswith f "_metadata.json" = true →
        Py.endswith f "/_metadata.json" = true) →
  process_message resource w
  = (Raise (ValueError ("could not locate metadata for " +:+ res_id resource)),
     snd (emit StartMessage w)).
Proof.
  intros Hmd.
  assert (∀ f, f ∈ local_paths resource → is_capture_metadata f ≠ true) as Hcap.
  { intros f Hf. unfold is_capture_metadata.
    destruct (Py.endswith f "_metadata.json") eqn:E; [|done].
    rewrite (Hmd f Hf E). by rewrite andb_false_r. }
  assert (∀ f, f ∈ local_paths resource →
               Py.endswith f "/_dataset_metadata.json" ≠ true) as Hds.
  { intros f Hf Hd.
    pose proof (Hmd f Hf (dataset_metadata_is_metadata f Hd)) as Hm.
    apply endswith_app in Hd as (p1 & ->). apply endswith_app in Hm as (p2 & Hm).
    destruct (suffixes_comparable _ _ _ _ Hm) as [H|H]; by vm_compute in H. }
  pose proof (resolve_from_metadata scan_init (local_paths resource) eq_refl)
    as (Hmeta & Hdsm & _).
  rewrite last_filter_none in Hmeta by done.
  rewrite last_filter_none in Hdsm by done.
  unfold process_message. unfold mbind at 1, M_bind at 1. simpl.
  unfold mbind at 1, M_bind at 1, locate_metadata.
  unfold resolve. by rewrite Hmeta, Hdsm.
Qed.

Lemma missing_metadata_raises_witness :
  let r := resource_of ["/data/cap/x_raw"; "/data/cap/_metadata.json"] in
  @process_message (scripted 0 []) r (world_with [])
  = (Raise (ValueError "could not locate metadata for 5a1b"),
     snd (emit StartMessage (world_with []))).
Proof.
  intros r.
  apply (@missing_metadata_raises (scripted 0 []) r (world_with [])).
  intros f Hf. cbn [r resource_of local_paths] in Hf.
  rewrite !elem_of_cons, elem_of_nil in Hf.
  destruct Hf as [->|[->|[]]]; by vm_compute.
Defined.

(** X11.  A dataset name without [" - "]: the staging area is built first,
    then the subscript of line 147 raises [IndexError]; the workflow
    script has not been run and nothing is removed. *)
Theorem process_message_no_timestamp `{collab : Collaborators}
    (resource : Resource) (w w1 w2 : World) (st : Scan) (sg : Staging) :
  (∀ a b, dataset_name resource ≠ a +:+ " - " +:+ b) →
  locate_metadata resource (resolve (local_paths resource))
    (snd (emit StartMessage w)) = (Ok st, w1) →
  build_staging st w1 = (Ok sg, w2) →
  process_message resource w = (Raise IndexError, w2).
Proof.
  intros Hno Hmd Hsg. unfold process_message.
  unfold mbind at 1, M_bind at 1. simpl.
  unfold mbind at 1, M_bind at 1. simpl in Hmd. rewrite Hmd.
  unfold mbind at 1, M_bind at 1. rewrite Hsg.
  unfold mbind at 1, M_bind at 1, invoke_workflow.
  unfold mbind at 1, M_bind at 1, index_list.
  by rewrite split_no_timestamp.
Qed.

(** ** What the staging area holds *)

Lemma stage_one_link `{collab : Collaborators}
    (tf : Py.dict (option FileRec)) (tmp : string) (acc acc' : list string)
    (k : string) (w w' : World) :
  (∀ k rec, Py.get tf k = Some (Some rec) → filename rec ≠ "_dataset_metadata.json") →
  stage_one tf tmp acc k w = (Ok acc', w') →
  ∃ rec, Py.get tf k = Some (Some rec)
         ∧ acc' = (acc ++ [Py.join tmp (filename rec)])%list
         ∧ lexists w (Py.join tmp (filename rec)) = false
         ∧ fs_links w' = <[Py.join tmp (filename rec) := path rec]> (fs_links w)
         ∧ fs_files w' = fs_files w.
Proof.
  intros Hnods. unfold stage_one. intros Hrun.
  apply mbind_Ok in Hrun as (slot & w1 & [Hslot ->]%lookup_key_Ok & Hrun).
  apply mbind_Ok in Hrun as (rec & w2 & [-> ->]%subscript_Ok & Hrun).
  exists rec. split; [done |].
  rewrite (proj2 (String.eqb_neq _ _) (Hnods k rec Hslot)) in Hrun.
  apply mbind_Ok in Hrun as (newf & w3 & [= <- <-] & Hrun).
  apply mbind_Ok in Hrun as ([] & w4 & Hlink & [= <- <-]).
  unfold os_symlink in Hlink.
  destruct (lexists w (Py.join tmp (filename rec))); [done |].
  by injection Hlink as <-.
Qed.

Lemma staging_loop_links `{collab : Collaborators}
    (tf : Py.dict (option FileRec)) (tmp : string) (ks : list string)
    (acc acc' : list string) (w w' : World) :
  (∀ k rec, Py.get tf k = Some (Some rec) → filename rec ≠ "_dataset_metadata.json") →
  for_each ks (stage_one tf tmp) acc w = (Ok acc', w') →
  fs_files w' = fs_files w
  ∧ (∀ p t, fs_links w !! p = Some t → fs_links w' !! p = Some t)
  ∧ (∀ p, p ∈ acc → p ∈ acc')
  ∧ ∀ k, k ∈ ks →
         ∃ rec, Py.get tf k = Some (Some rec)
                ∧ fs_links w' !! Py.join tmp (filename rec) = Some (path rec)
                ∧ Py.join tmp (filename rec) ∈ acc'.
Proof.
  intros Hnods. revert acc w.
  induction ks as [|k ks IH]; intros acc w; simpl.
  - intros [= <- <-]. split; [done |]. split; [done |]. split; [done |].
    intros k Hk. by apply elem_of_nil in Hk.
  - intros Hrun.
    apply mbind_Ok in Hrun as (acc1 & w1 & Hone & Hrun).
    apply (stage_one_link _ _ _ _ _ _ _ Hnods) in Hone
      as (rec & Hrec & -> & Hfresh & Hlinks & Hfiles).
    apply IH in Hrun as (Hfiles' & Hkeep & Hgrow & Hall).
    assert (∀ p t, fs_links w !! p = Some t → fs_links w1 !! p = Some t) as Hkeep1.
    { intros p t Hp. rewrite Hlinks, lookup_insert_ne; [done |].
      intros <-. unfold lexists in Hfresh.
      rewrite (bool_decide_eq_true_2 (is_Some (fs_links w !! _))) in Hfresh
        by (by eexists).
      by rewrite orb_true_r in Hfresh. }
    split; [congruence |]. split; [by intros p t Hp; apply Hkeep, Hkeep1 |].
    split; [intros p Hp; apply Hgrow, elem_of_app; by left |].
    intros k' [->|Hk']%elem_of_cons; [|by apply Hall].
    exists rec. split; [done |]. split.
    + apply Hkeep. rewrite Hlinks. apply lookup_insert_eq.
    + apply Hgrow, elem_of_app. right. by left.
Qed.

(** X12.  A staging area that has been built holds, for every role, a link
    in the temporary directory that carries the base name of the file
    and points at the file's path; the files themselves are as before.
    (Stated for slots none of which is named [_dataset_metadata.json],
    which is all the scan produces for absolute paths.) *)
Theorem staging_links `{collab : Collaborators}
    (st : Scan) (sg : Staging) (w w' : World) :
  not_path_match (path_match st) = true →
  (∀ k rec, Py.get (target_files st) k = Some (Some rec) →
            filename rec ≠ "_dataset_metadata.json") →
  build_staging st w = (Ok sg, w') →
  fs_files w' = fs_files w
  ∧ (∀ p t, fs_links w !! p = Some t → fs_links w' !! p = Some t)
  ∧ ∀ k, k ∈ Py.keys (target_files st) →
         ∃ rec, Py.get (target_files st) k = Some (Some rec)
                ∧ fs_links w' !! Py.join (mkdtemp_name w) (filename rec)
                  = Some (path rec)
                ∧ Py.join (mkdtemp_name w) (filename rec) ∈ symlinks sg.
Proof.
  intros Hguard Hnods. unfold build_staging. rewrite Hguard. intros Hrun.
  apply mbind_Ok in Hrun as (tmp & w1 & [= <- <-] & Hrun).
  apply mbind_Ok in Hrun as (links & w2 & Hloop & [= <- <-]).
  apply (staging_loop_links _ _ _ _ _ _ _ Hnods) in Hloop
    as (Hfiles & Hkeep & _ & Hall).
  done.
Qed.

(** ** Counting and uploading the output *)

(** X13.  An output that is a regular file, after a status of 0: the capture
    is counted once, [bytes] grows by the length of the file, the file
    system is not changed, and the file is uploaded exactly when it is
    not one of the local paths of the resource. *)
Theorem verify_output_counts `{collab : Collaborators}
    (resource : Resource) (conv : Conversion) (w : World) (txt : string) :
  returncode conv = 0%Z →
  fs_files w !! outFilePath conv = Some txt →
  ∃ w', verify_output resource conv w = (Ok tt, w')
        ∧ created w' = created w + 1
        ∧ bytes w' = bytes w + String.length txt
        ∧ fs_files w' = fs_files w ∧ fs_links w' = fs_links w
        ∧ fs_dirs w' = fs_dirs w
        ∧ (outFilePath conv ∈ local_paths resource → events w' = events w)
        ∧ (outFilePath conv ∉ local_paths resource →
           ∃ dsid, events w'
                   = (events w ++ [LogInfo ("uploading " +:+ outFilePath conv);
                                   Upload dsid (outFilePath conv)])%list).
Proof.
  intros Hrc Hfile.
  assert (os_path_exists w (outFilePath conv) = true) as Hex.
  { unfold os_path_exists. by rewrite bool_decide_eq_true_2 by (by eexists). }
  unfold verify_output, mbind, M_bind, path_exists. rewrite Hex, Hrc. simpl.
  unfold upload_output.
  destruct (decide (outFilePath conv ∈ local_paths resource)) as [Hin|Hout].
  - rewrite bool_decide_eq_true_2 by done. simpl.
    unfold getsize. simpl. rewrite Hfile. simpl.
    eexists. split; [done |]. repeat split; done.
  - rewrite bool_decide_eq_false_2 by done. simpl.
    unfold getsize. simpl. rewrite Hfile. simpl.
    eexists. split; [done |]. repeat split; try done.
    intros _. eexists. by rewrite <- app_assoc.
Qed.

Lemma verify_output_counts_witness :
  let conv := {| timestamp := "2017-04-15__11-30-00-000";
                 sensor_fullname := "vnir_netcdf";
                 outFilePath := out_path; returncode := 0 |} in
  ∃ w', @verify_output (scripted 0 []) (resource_of [out_path]) conv
          (world_with [out_path]) = (Ok tt, w')
        ∧ created w' = 1 ∧ bytes w' = 2 ∧ events w' = [].
Proof.
  intros conv.
  destruct (@verify_output_counts (scripted 0 []) (resource_of [out_path]) conv
              (world_with [out_path]) "{}" eq_refl eq_refl)
    as (w' & Hrun & Hc & Hb & _ & _ & _ & Hev & _).
  exists w'. split; [done |]. split; [done |]. split; [done |].
  apply Hev. apply (bool_decide_unpack _). by vm_compute.
Defined.

(** ** The trait row *)

(** X14.  [send_indices] either raises with the world untouched ([IOError]
    when the index file is missing or is no netCDF file, [IndexError]
    when no variable carries the standard name) or, using the first
    such variable only, writes [traits.csv] and submits it exactly
    once.  Nothing is submitted without the file having been written. *)
Theorem send_indices_cases `{collab : Collaborators} (conv : Conversion) (w : World) :
  let ind_file := get_sensor_path (timestamp conv) (sensor_fullname conv) ["_ind"] in
  match fs_files w !! ind_file with
  | None => send_indices conv w = (Raise IOError, w)
  | Some txt =>
      match ndvi705_values txt with
      | None => send_indices conv w = (Raise IOError, w)
      | Some [] => send_indices conv w = (Raise IndexError, w)
      | Some (v :: _) =>
          ∃ w', send_indices conv w = (Ok tt, w')
                ∧ fs_files w'
                  = <["traits.csv" := csv_header +:+ newline +:+
                                      csv_vals (timestamp conv) v "Full Field"]>
                      (fs_files w)
                ∧ events w' = (events w ++ [SubmitTraits "traits.csv" bety_key])%list
                ∧ fs_links w' = fs_links w ∧ fs_dirs w' = fs_dirs w
      end
  end.
Proof.
  intros ind_file. unfold send_indices. fold ind_file.
  unfold mbind, M_bind, read_file.
  destruct (fs_files w !! ind_file) as [txt|] eqn:Hf; [|done].
  destruct (ndvi705_values txt) as [[|v rest]|]; simpl; try done.
  eexists. split; [done |]. done.
Qed.

(** ** Instances *)

Lemma get_elem_of {V} (d : Py.dict V) (k : string) (v : V) :
  Py.get d k = Some v → (k, v) ∈ d.
Proof.
  induction d as [|[k0 v0] d IH]; simpl; [done |].
  destruct (String.eqb k0 k) eqn:E.
  - apply String.eqb_eq in E. subst k0. intros [= ->]. by left.
  - intros Hd. right. by apply IH.
Qed.

Lemma vnir_has_no_timestamp (a b : string) : "VNIR" ≠ a +:+ " - " +:+ b.
Proof.
  intros H.
  do 5 (destruct a as [|? a]; vm_compute in H; [discriminate H |];
        first [discriminate H | injection H as _ H]).
Qed.

Lemma staging_links_witness :
  let X := scripted 0 [] in
  let st := resolve colocated_paths in
  let w := world_with colocated_paths in
  let w' := snd (@build_staging X st w) in
  fs_files w' = fs_files w
  ∧ ∀ k, k ∈ local_exts →
         ∃ rec, Py.get (target_files st) k = Some (Some rec)
                ∧ fs_links w' !! Py.join "/tmp/tmpK3x9" (filename rec) = Some (path rec).
Proof.
  intros X st w w'.
  assert (not_path_match (path_match st) = true) as H1 by reflexivity.
  assert (∀ k rec, Py.get (target_files st) k = Some (Some rec) →
                   filename rec ≠ "_dataset_metadata.json") as H2.
  { intros k rec Hin%get_elem_of.
    set (tf := target_files st) in Hin. vm_compute in tf. subst tf.
    repeat (apply elem_of_cons in Hin as [[= -> ->]|Hin]; [done |]).
    by apply elem_of_nil in Hin. }
  assert (@build_staging X st w
          = (Ok {| tempdir := Some "/tmp/tmpK3x9";
                   symlinks := map (fun f => Py.join "/tmp/tmpK3x9" (Py.basename f))
                                   colocated_paths |}, w')) as H3
    by (vm_compute; reflexivity).
  destruct (@staging_links X st _ w w' H1 H2 H3) as (Hfiles & _ & Hall).
  split; [done |]. intros k Hk.
  destruct (Hall k) as (rec & Hrec & Hlink & _);
    [unfold st; by rewrite resolve_keys |].
  exists rec. split; [exact Hrec | exact Hlink].
Defined.

Lemma process_message_no_timestamp_witness :
  let X := scripted 0 [] in
  let r := local_resource "VNIR" colocated_paths in
  let w := world_with colocated_paths in
  fst (@process_message X r w) = Raise IndexError
  ∧ "/tmp/tmpK3x9" ∈ fs_dirs (snd (@process_message X r w)).
Proof.
  intros X r w.
  set (st := resolve colocated_paths).
  set (w1 := snd (locate_metadata r st (snd (emit StartMessage w)))).
  set (w2 := snd (@build_staging X st w1)).
  assert (locate_metadata r (resolve (local_paths r)) (snd (emit StartMessage w))
          = (Ok st, w1)) as H1 by (vm_compute; reflexivity).
  assert (@build_staging X st w1
          = (Ok {| tempdir := Some "/tmp/tmpK3x9";
                   symlinks := map (fun f => Py.join "/tmp/tmpK3x9" (Py.basename f))
                                   colocated_paths |}, w2)) as H2
    by (vm_compute; reflexivity).
  rewrite (@process_message_no_timestamp X r w w1 w2 st _ vnir_has_no_timestamp H1 H2).
  split; [done |]. apply (bool_decide_unpack _). by vm_compute.
Defined.

(** ** A run that returns *)



(** ** The call of the workflow script *)

(** X16.  A workflow step that returns: the dataset name had a timestamp
    after [" - "], the raw slot was resolved, the sensor is
    [swir_netcdf] exactly for names that contain [SWIR], the script
    exited with status 0, and it was given the path of the raw file as
    the scan recorded it (not a link of the staging area) and the
    output path; the soil mask is passed for the other sensor only.
    The last thing logged is the status. *)
Theorem workflow_invocation `{collab : Collaborators}
    (resource : Resource) (st : Scan) (conv : Conversion) (w w' : World) :
  invoke_workflow resource st w = (Ok conv, w') →
  let swir := (Py.find (dataset_name resource) "SWIR" >? -1)%Z in
  Py.split (dataset_name resource) " - " !! 1 = Some (timestamp conv)
  ∧ sensor_fullname conv = (if swir then "swir_netcdf" else "vnir_netcdf")
  ∧ outFilePath conv = create_sensor_path (timestamp conv) (sensor_fullname conv)
  ∧ returncode conv = 0%Z
  ∧ ∃ raw opts ws,
      Py.get (target_files st) "raw" = Some (Some raw)
      ∧ subprocess_call
          (["bash"; "hyperspectral_workflow.sh"; "-d"; "1"; "-h"] ++ opts ++
           ["--new_clb_mth"; "-i"; path raw; "-o"; outFilePath conv])%list
          (snd (log_info ("invoking hyperspectral_workflow.sh to create: "
                          +:+ outFilePath conv) w))
        = (0%Z, ws)
      ∧ w' = snd (log_info "done creating output file (0)" ws)
      ∧ (opts = []
         ∨ swir = false
           ∧ opts = ["-m"; get_sensor_path (timestamp conv) "vnir_soil_masks"
                             ["soil_mask"]]).
Proof.
  intros Hrun swir. unfold invoke_workflow in Hrun. fold swir in Hrun.
  apply mbind_Ok in Hrun as (ts & w1 & Hts & Hrun).
  unfold index_list in Hts.
  destruct (Py.split (dataset_name resource) " - " !! 1) as [ts'|]; [|done].
  injection Hts as -> ->.
  destruct swir.
  all: apply mbind_Ok in Hrun as ([] & w2 & [= <-] & Hrun).
  all: apply mbind_Ok in Hrun as (raw_slot & w3 & [Hslot ->]%lookup_key_Ok & Hrun).
  all: apply mbind_Ok in Hrun as (raw & w4 & [-> ->]%subscript_Ok & Hrun).
  all: apply mbind_Ok in Hrun as (rc & w5 & Hcall & Hrun).
  all: apply mbind_Ok in Hrun as ([] & w6 & [= <-] & Hrun).
  all: destruct (rc =? 0)%Z eqn:Hrc; simpl in Hrun; [|done].
  all: apply Z.eqb_eq in Hrc as ->.
  all: injection Hrun as <- <-; cbn [timestamp sensor_fullname outFilePath returncode].
  all: do 4 (split; [reflexivity |]).
  all: unfold call in Hcall.
  - destruct (subprocess_call _ _) as [rc' ws] eqn:Hsub.
    injection Hcall as -> ->.
    exists raw, [], w5. split; [exact Hslot |]. split; [exact Hsub |].
    split; [reflexivity | by left].
  - destruct (Py.truthy _) eqn:Hmask.
    + destruct (subprocess_call _ _) as [rc' ws] eqn:Hsub.
      injection Hcall as -> ->.
      exists raw, ["-m"; get_sensor_path ts "vnir_soil_masks" ["soil_mask"]], w5.
      split; [exact Hslot |]. split; [exact Hsub |].
      split; [reflexivity | by right].
    + destruct (subprocess_call _ _) as [rc' ws] eqn:Hsub.
      injection Hcall as -> ->.
      exists raw, [], w5. split; [exact Hslot |]. split; [exact Hsub |].
      split; [reflexivity | by left].
Qed.

Lemma workflow_invocation_witness :
  let X := scripted 0 [(out_path, "nc")] in
  let r := resource_of colocated_paths in
  let st := resolve colocated_paths in
  let w := world_with colocated_paths in
  let conv := {| timestamp := "2017-04-15__11-30-00-000";
                 sensor_fullname := "vnir_netcdf";
                 outFilePath := out_path; returncode := 0 |} in
  ∃ raw opts ws,
    Py.get (target_files st) "raw" = Some (Some raw)
    ∧ @subprocess_call X
        (["bash"; "hyperspectral_workflow.sh"; "-d"; "1"; "-h"] ++ opts ++
         ["--new_clb_mth"; "-i"; path raw; "-o"; out_path])%list
        (snd (log_info ("invoking hyperspectral_workflow.sh to create: "
                        +:+ out_path) w))
      = (0%Z, ws)
    ∧ snd (@invoke_workflow X r st w) = snd (log_info "done creating output file (0)" ws).
Proof.
  intros X r st w conv.
  assert (@invoke_workflow X r st w = (Ok conv, snd (@invoke_workflow X r st w))) as Hrun
    by (vm_compute; reflexivity).
  destruct (@workflow_invocation X r st conv _ _ Hrun)
    as (_ & _ & _ & _ & raw & opts & ws & Hraw & Hsub & Hw & _).
  exists raw, opts, ws. split; [exact Hraw |]. split; [exact Hsub | exact Hw].
Defined.

(** ** Instances for [check_message] *)

Lemma check_message_incomplete_witness :
  let X := scripted 0 [] in
  let C := clowder_with false false in
  let r := listed_resource "no timestamp here" (Some (take 4 complete_listing)) in
  @check_message X C r (world_with [])
  = (Ok CheckMessage.ignore,
     snd (log_skip "not all input files are ready" (world_with []))).
Proof.
  intros X C r.
  apply (@check_message_incomplete X C r (world_with []) "settings.txt").
  - apply (bool_decide_unpack _). by vm_compute.
  - intros fl f [= <-] Hf. cbn [take complete_listing] in Hf.
    rewrite !elem_of_cons, elem_of_nil in Hf.
    destruct Hf as [->|[->|[->|[->|[]]]]]; by vm_compute.
Defined.

Lemma check_message_download_iff_witness :
  let X := scripted 0 [] in
  let C := clowder_with false false in
  let r := listed_resource capture_name (Some complete_listing) in
  @check_message X C r (world_with []) = (Ok CheckMessage.download, world_with []).
Proof.
  intros X C r.
  destruct (@check_message_download_iff X C r (world_with [])
              "2017-04-15__11-30-00-000" eq_refl)
    as (v & w' & Hrun & Hiff & Hsame & _).
  assert (v = CheckMessage.download) as ->.
  { apply Hiff. split; [reflexivity |]. right. split; by vm_compute. }
  by rewrite Hrun, Hsame.
Defined.

Lemma check_message_no_timestamp_witness :
  @check_message (scripted 0 []) (clowder_with false false)
    (listed_resource "VNIR" (Some complete_listing)) (world_with [])
  = (Raise IndexError, world_with []).
Proof.
  apply (@check_message_no_timestamp (scripted 0 []) (clowder_with false false)
           (listed_resource "VNIR" (Some complete_listing)) (world_with [])).
  - reflexivity.
  - apply vnir_has_no_timestamp.
Defined.

(** ** The other checks of the validator *)

Lemma Qle_not_gt (x bound : Q) : Qgt_bool x bound = false ↔ (x <= bound)%Q.
Proof.
  unfold Qgt_bool. rewrite negb_false_iff. apply Qle_bool_iff.
Qed.

(** X17.  The checks on [frametime].  The calendar check asks for an
    attribute spelled [calender] with the value [gregorian]; the units
    check for [units] equal to [days since 1970-01-01 00:00:00]; the
    value check for a first sample greater than 16000.  Each needs the
    variable to exist. *)
Theorem frametime_checks (c : Container) :
  (testFrameTimeHasCorrectCalendarAttr c = Ok tt
   ↔ ∃ v, nc_variables c !! "frametime" = Some v
          ∧ var_attrs v !! "calender" = Some "gregorian")
  ∧ (testFrameTimeHasCorrectUnitsAttr c = Ok tt
     ↔ ∃ v, nc_variables c !! "frametime" = Some v
            ∧ var_attrs v !! "units" = Some "days since 1970-01-01 00:00:00")
  ∧ (testFrameTimeHasCorrectValue c = Ok tt
     ↔ ∃ v t0, nc_variables c !! "frametime" = Some v
               ∧ head (var_data v) = Some t0 ∧ (inject_Z 16000 < t0)%Q).
Proof.
  split; [|split].
  - unfold testFrameTimeHasCorrectCalendarAttr, getitem, getattr, mbind, result_bind.
    destruct (nc_variables c !! "frametime") as [v|]; simpl;
      [|split; [discriminate | intros (? & ? & ?); discriminate]].
    destruct (var_attrs v !! "calender") as [cal|] eqn:Hcal; simpl;
      [|split; [discriminate | intros (? & [= <-] & ?); congruence]].
    unfold assertEqual_str. rewrite assertTrue_Ok, String.eqb_eq. split.
    + intros ->. exists v. split; [reflexivity | exact Hcal].
    + intros (? & [= <-] & Hc). congruence.
  - unfold testFrameTimeHasCorrectUnitsAttr, getitem, getattr, mbind, result_bind.
    destruct (nc_variables c !! "frametime") as [v|]; simpl;
      [|split; [discriminate | intros (? & ? & ?); discriminate]].
    destruct (var_attrs v !! "units") as [u|] eqn:Hu; simpl;
      [|split; [discriminate | intros (? & [= <-] & ?); congruence]].
    unfold assertEqual_str. rewrite assertTrue_Ok, String.eqb_eq. split.
    + intros ->. exists v. split; [reflexivity | exact Hu].
    + intros (? & [= <-] & Hc). congruence.
  - unfold testFrameTimeHasCorrectValue, getitem, first, mbind, result_bind.
    destruct (nc_variables c !! "frametime") as [v|]; simpl;
      [|split; [discriminate | intros (? & ? & ? & ?); discriminate]].
    destruct (var_data v) as [|t0 rest] eqn:Hdata; simpl.
    + split; [discriminate |].
      intros (? & ? & [= <-] & Hh & ?). rewrite Hdata in Hh. discriminate.
    + unfold assertGreater. rewrite assertTrue_Ok, Qgt_bool_iff. split.
      * intros Hgt. exists v, t0. rewrite Hdata. split; [reflexivity |]. split; [reflexivity | exact Hgt].
      * intros (? & t1 & [= <-] & Hh & Hgt). rewrite Hdata in Hh.
        injection Hh as ->. exact Hgt.
Qed.

(** X18.  The checks on dimensions.  The cross check passes exactly when [y]
    and [time] both exist and have the same size.  The body of the
    marked count check returns exactly when the container has four
    dimensions, whatever the command line. *)
Theorem dimension_checks (c : Container) (args : Args) :
  (testTheYDimensionsMatchesTimeDimension c = Ok tt
   ↔ ∃ n, nc_dimensions c !! "y" = Some n ∧ nc_dimensions c !! "time" = Some n)
  ∧ (testTheNumberOfDimensionsInRootLevelIsCorrect (main_globals args) c = Ok tt
     ↔ size (nc_dimensions c) = 4%nat).
Proof.
  split.
  - unfold testTheYDimensionsMatchesTimeDimension, getitem, mbind, result_bind.
    destruct (nc_dimensions c !! "y") as [y|]; simpl;
      [|split; [done | by intros (? & ? & ?)]].
    destruct (nc_dimensions c !! "time") as [t|]; simpl;
      [|split; [done | by intros (? & ? & ?)]].
    unfold assertEqual_nat. rewrite assertTrue_Ok, Nat.eqb_eq. split.
    + intros ->. by exists t.
    + intros (n & [= <-] & [= <-]). done.
  - unfold testTheNumberOfDimensionsInRootLevelIsCorrect, load_global, mbind, result_bind.
    assert (main_globals args !! "EXPECTED_NUMBER_OF_DIMENSIONS"
            = Some (VNum (inject_Z 4))) as ->.
    { unfold main_globals. by rewrite !lookup_insert_ne. }
    simpl. rewrite assertTrue_Ok.
    unfold Qeq_bool, inject_Z. simpl. rewrite Z.eqb_eq. lia.
Qed.

Lemma for_all_do_Ok {A} (l : list A) (body : A → result unit) :
  for_all_do l body = Ok tt ↔ ∀ a, a ∈ l → body a = Ok tt.
Proof.
  induction l as [|a l IH]; simpl.
  - split; [|done]. intros _ x Hx. by apply elem_of_nil in Hx.
  - unfold mbind, result_bind. destruct (body a) as [[]|e] eqn:Ha.
    + rewrite IH. split.
      * intros Hall x [->|Hx]%elem_of_cons; auto.
      * intros Hall x Hx. apply Hall. by right.
    + split; [done |]. intros Hall.
      rewrite Hall in Ha by (by left). done.
Qed.

(** X19.  The attribute checks on [x] and [y]: each passes exactly when the
    variable exists and carries all of [units], [reference_point],
    [long_name] and [algorithm]; the values are not looked at. *)
Theorem attribute_checks (c : Container) :
  (testXHasEnoughAttributes c = Ok tt
   ↔ ∃ v, nc_variables c !! "x" = Some v
          ∧ ∀ a, a ∈ potentialAttributes → is_Some (var_attrs v !! a))
  ∧ (testYHasEnoughAttributes c = Ok tt
     ↔ ∃ v, nc_variables c !! "y" = Some v
            ∧ ∀ a, a ∈ potentialAttributes → is_Some (var_attrs v !! a)).
Proof.
  assert (∀ v msg, for_all_do potentialAttributes
                     (fun a => assertHasAttribute v a msg) = Ok tt
                   ↔ ∀ a, a ∈ potentialAttributes → is_Some (var_attrs v !! a)) as Hloop.
  { intros v msg. rewrite for_all_do_Ok.
    apply forall_proper. intros a. apply forall_proper. intros _.
    unfold assertHasAttribute.
    destruct (decide (is_Some (var_attrs v !! a))) as [Hs|Hn].
    - by rewrite bool_decide_eq_true_2.
    - by rewrite bool_decide_eq_false_2. }
  split.
  - unfold testXHasEnoughAttributes, getitem, mbind, result_bind.
    destruct (nc_variables c !! "x") as [v|]; cbn beta iota;
      [|split; [discriminate | intros (? & ? & ?); discriminate]].
    rewrite Hloop. split.
    + intros Hall. exists v. split; [reflexivity | exact Hall].
    + intros (? & [= <-] & Hall). exact Hall.
  - unfold testYHasEnoughAttributes, getitem, mbind, result_bind.
    destruct (nc_variables c !! "y") as [v|]; cbn beta iota;
      [|split; [discriminate | intros (? & ? & ?); discriminate]].
    rewrite Hloop. split.
    + intros Hall. exists v. split; [reflexivity | exact Hall].
    + intros (? & [= <-] & Hall). exact Hall.
Qed.

(** X20.  The history check passes exactly when the root attribute [history]
    exists and is not empty; its text is not examined. *)
Theorem history_check (c : Container) :
  testHistoryIsCorrectlyRecorded c = Ok tt
  ↔ ∃ h, nc_attrs c !! "history" = Some h ∧ h ≠ EmptyString.
Proof.
  unfold testHistoryIsCorrectlyRecorded, getattr, mbind, result_bind.
  destruct (nc_attrs c !! "history") as [h|]; simpl;
    [|split; [done | by intros (? & ? & ?)]].
  unfold Py.truthy. destruct (String.eqb h EmptyString) eqn:E; simpl.
  - apply String.eqb_eq in E. split; [done | by intros (? & [= <-] & ?)].
  - apply String.eqb_neq in E. split; [by exists h | done].
Qed.

Lemma array_gt_false (v : NcVar) (bound : Q) :
  array_gt v bound = false
  ↔ ∀ x, x ∈ var_data v → Float.gt x (Float.cast (var_dtype v) bound) = false.
Proof.
  unfold array_gt. generalize (Float.cast (var_dtype v) bound). intros b.
  induction (var_data v) as [|a l IH]; simpl.
  - split; [|done]. intros _ x Hx. by apply elem_of_nil in Hx.
  - rewrite orb_false_iff, IH. split.
    + intros [Ha Hl] x [->|Hx]%elem_of_cons; auto.
    + intros Hall. split; [apply Hall; by left |].
      intros x Hx. apply Hall. by right.
Qed.

Lemma main_globals_reflectance (args : Args) :
  main_globals args !! "MAXIMUM_PLANT_REFLECTANCE"
  = Some (VNum (or_default (maximum_plant_reflectance args) float_0_6)).
Proof.
  unfold main_globals. rewrite lookup_insert_ne by done. rewrite lookup_insert_eq.
  by destruct (maximum_plant_reflectance args).
Qed.

(** X21.  The reflectance check does use its configured limit: with the
    globals the command line leaves, its body returns exactly when
    [rfl_img] exists and none of its values is greater than the limit
    converted to the type of the image.  The limit is the float of the
    third positional argument, by default the float [0.6], which is
    5404319552844595 / 2^53; for a [float64] image the default bound is
    that number, for a [float32] image it is 5033165 / 2^23, so the
    [float32] nearest to 0.6 is not over the limit. *)
Theorem reflectance_check (args : Args) (c : Container) (str : pyval → string) :
  (testCalibrationGraphIsOverReflected (main_globals args) c str = Ok tt
   ↔ ∃ v, nc_variables c !! "rfl_img" = Some v
          ∧ ∀ x, x ∈ var_data v →
                 Float.gt x (Float.cast (var_dtype v)
                               (or_default (maximum_plant_reflectance args)
                                  (5404319552844595 # 9007199254740992))) = false)
  ∧ (∀ x, Float.gt x (Float.cast Float.f8 (5404319552844595 # 9007199254740992)) = false
          ↔ (x <= 5404319552844595 # 9007199254740992)%Q)
  ∧ (∀ x, Float.gt x (Float.cast Float.f4 (5404319552844595 # 9007199254740992)) = false
          ↔ (x <= 5033165 # 8388608)%Q).
Proof.
  split; [|split].
  - unfold testCalibrationGraphIsOverReflected, getitem, limit_msg, load_global,
      mbind, result_bind.
    rewrite main_globals_reflectance. fold float_0_6.
    destruct (nc_variables c !! "rfl_img") as [v|]; cbn beta iota;
      [|split; [discriminate | intros (? & ? & ?); discriminate]].
    cbn [as_num]. rewrite assertFalse_Ok, array_gt_false. split.
    + intros Hall. exists v. split; [reflexivity | exact Hall].
    + intros (? & [= <-] & Hall). exact Hall.
  - intros x. replace (Float.cast Float.f8 (5404319552844595 # 9007199254740992))
      with (Float.Fin (5404319552844595 # 9007199254740992)) by (by vm_compute).
    apply Qle_not_gt.
  - intros x. replace (Float.cast Float.f4 (5404319552844595 # 9007199254740992))
      with (Float.Fin (5033165 # 8388608)) by (by vm_compute).
    apply Qle_not_gt.
Qed.

(** The sample that separates the two types: the [float32] nearest to
    0.6 passes as a [float32] image and is over the limit as a
    [float64] image. *)
Example reflectance_at_the_limit :
  let image t := {| nc_groups := []; nc_dimensions := ∅;
                    nc_variables :=
                      {[ "rfl_img" := {| var_dtype := t; var_data := [5033165 # 8388608];
                                         var_attrs := ∅ |} ]};
                    nc_attrs := ∅ |} in
  testCalibrationGraphIsOverReflected (main_globals default_args) (image Float.f4) show
  = Ok tt
  ∧ ∃ msg, testCalibrationGraphIsOverReflected (main_globals default_args)
             (image Float.f8) show = Raise (AssertionError msg).
Proof. split; [by vm_compute |]. eexists. by vm_compute. Qed.

(** ** The command line and the exit status *)

Lemma marked_never_counts (t : TestMethod) (g : gmap string pyval) (c : Container)
    (str : pyval → string) :
  expected_failure t = true → counts_against Unittest27 (run_test t g c str) = false.
Proof.
  intros Hmark. unfold run_test. rewrite Hmark.
  by destruct (test_body t g c str).
Qed.

(** The zenith check reads the reflectance limit for its message only:
    how it is filed does not depend on the limit nor on how the limit
    is printed. *)
Lemma zenith_outcome_limits (u : unittest_rule) (a1 a2 : Args) (c : Container)
    (s1 s2 : pyval → string) :
  counts_against u
    (run_test {| test_name := "testSolarZenithAngleInReseaonableRange";
                 expected_failure := false;
                 test_body := testSolarZenithAngleInReseaonableRange |}
       (main_globals a1) c s1)
  = counts_against u
      (run_test {| test_name := "testSolarZenithAngleInReseaonableRange";
                   expected_failure := false;
                   test_body := testSolarZenithAngleInReseaonableRange |}
         (main_globals a2) c s2).
Proof.
  unfold run_test, testSolarZenithAngleInReseaonableRange, getitem, limit_msg,
    load_global, mbind, result_bind.
  cbn [test_body expected_failure].
  rewrite !main_globals_reflectance.
  destruct (nc_variables c !! "solar_zenith_angle") as [graph|]; [|reflexivity].
  cbn beta iota.
  by destruct (any_gt (var_data graph) (inject_Z 90) && any_lt (var_data graph) (inject_Z 0)).
Qed.

(** X22.  Two command lines that name the same file give the same exit
    status where [unittest] follows the rule of Python 2.7: the
    verbosity, the reflectance limit and the exposure ceiling have no
    influence on it, nor has the way the limits are printed in the
    messages. *)
Theorem exit_status_ignores_limits (rt : Runtime)
    (open_dataset : string → option Container)
    (s1 s2 : pyval → string) (a1 a2 : Args) :
  unittest rt = Unittest27 →
  input_file_path a1 = input_file_path a2 →
  main rt open_dataset s1 a1 = main rt open_dataset s2 a2.
Proof.
  intros Hrule Hfile. unfold main, run_suite.
  rewrite !main_globals_file, Hfile, Hrule.
  destruct (open_dataset (input_file_path a2)) as [c|]; [|reflexivity].
  unfold run_methods. rewrite !run_methods_successful.
  do 3 f_equal.
  unfold HyperspectralWorkflowTest. cbn [forallb].
  repeat match goal with
  | |- context [counts_against Unittest27 (run_test ?t ?g ?c ?s)] =>
      lazymatch eval cbn in (expected_failure t) with
      | true => rewrite (marked_never_counts t g c s eq_refl)
      end
  end.
  rewrite (zenith_outcome_limits Unittest27 a1 a2 c s1 s2).
  reflexivity.
Qed.

Lemma exit_status_ignores_limits_witness :
  let rt := {| unittest := Unittest27; numpy := ValueBased |} in
  let c := container_with "solar_zenith_angle" [inject_Z 100; inject_Z (-5)] in
  let loud := {| input_file_path := "/sites/out.nc"; verbosity := Some 1%Z;
                 maximum_plant_reflectance := Some (1 # 10);
                 saturated_exposure := Some 10%Z |} in
  main rt (fun _ => Some c) show default_args = main rt (fun _ => Some c) show loud.
Proof.
  intros rt c loud.
  apply (exit_status_ignores_limits rt (fun _ => Some c) show show default_args loud).
  - reflexivity.
  - reflexivity.
Defined.

(** Under the later rule the reflectance limit does decide: the
    passing container with an image whose values lie between two
    limits exits with 1 under the higher limit, for which the marked
    reflectance check returns, and with 0 under the lower one. *)
Remark limits_decide_under_unittest34 :
  let rt := {| unittest := Unittest34; numpy := ValueBased |} in
  let c := {| nc_groups := nc_groups passing_container;
              nc_dimensions := delete "x" (nc_dimensions passing_container);
              nc_variables :=
                <["rfl_img" := {| var_dtype := Float.f4; var_data := [1 # 2];
                                  var_attrs := ∅ |}]> (nc_variables passing_container);
              nc_attrs := nc_attrs passing_container |} in
  let strict := {| input_file_path := "/sites/out.nc"; verbosity := None;
                   maximum_plant_reflectance := Some (1 # 4);
                   saturated_exposure := None |} in
  main rt (fun _ => Some c) show default_args = 1%Z
  ∧ main rt (fun _ => Some c) show strict = 0%Z.
Proof. split; by vm_compute. Qed.

(** X23.  When the file named on the command line does not open, no method
    runs and the status is 1, under either rule of [unittest]. *)
Theorem exit_status_open_failure (rt : Runtime)
    (open_dataset : string → option Container)
    (str : pyval → string) (args : Args) :
  open_dataset (input_file_path args) = None →
  run_suite (numpy rt) open_dataset (main_globals args) str
  = {| testsRun := 0; failures := []; errors := ["setUpClass"];
       expectedFailures := []; unexpectedSuccesses := [] |}
  ∧ main rt open_dataset str args = 1%Z.
Proof.
  intros Hopen. unfold main, run_suite.
  rewrite main_globals_file, Hopen. split; [reflexivity |].
  by destruct (unittest rt).
Qed.

Lemma exit_status_open_failure_witness :
  let rt := {| unittest := Unittest34; numpy := WeakScalars |} in
  let opener := fun f : string =>
    if String.eqb f "/sites/other.nc" then Some (container_with "x" []) else None in
  run_suite (numpy rt) opener (main_globals default_args) show
  = {| testsRun := 0; failures := []; errors := ["setUpClass"];
       expectedFailures := []; unexpectedSuccesses := [] |}
  ∧ main rt opener show default_args = 1%Z.
Proof.
  intros rt opener.
  apply (exit_status_open_failure rt opener show default_args).
  reflexivity.
Defined.
